(** * sem-match: the network definitions of [model/models.py]

    A shallow embedding of [model/models.py]: the pre-activation
    Wide-ResNet family ([BasicBlockPreAct], [WideResnetBackbone],
    [WideResnet]) and the embedding-head wrappers
    ([ResNet50WithEmbeddingHead], [ResNet18WithEmbeddingHead],
    [WideResnetWithEmbeddingHead]), followed by the properties proved of
    them.

    - Python integers are [Z]; [%] and [//] are [Z.modulo] and [Z.div]
      (both round towards minus infinity, as Python's do).  Float
      hyper-parameters that are only stored or compared with zero (drop
      rate, momentum, negative slope) are rationals [Q].
    - Learnable parameters live in a store; a layer holds the locations of
      its parameters.  A parameter is its size and the log of the
      initialisers written to it, most recent first; the numbers drawn are
      not modelled.  In-place initialisation ([normal_], [fill_],
      [zero_]) updates the store.
    - Construction runs in a state-and-exception monad over the store;
      [assert], attribute lookup and the library's checks raise Python's
      exceptions.
    - A tensor is its size together with the dataflow term that computes
      it from the input; forward passes run in an exception monad and
      check sizes where the library does.
    - Of [torch.nn] the layers are modelled by what the models use: their
      hyper-parameters and parameters, the default initialisation, the
      size of the output, and the errors for a negative dimension or a
      size mismatch.  The ResNets of [torchvision] are a parameter. *)

From Stdlib Require Import String ZArith QArith List Bool Lia.
From stdpp Require Import base list.
Import ListNotations.

Close Scope Q_scope.
Open Scope Z_scope.
Set Warnings "-register-all".

(** ** Exceptions and the two monads *)

(** Python exceptions, with their [args]. *)
Inductive exn : Type :=
| AssertionError (args : list string)
| AttributeError (args : list string)
| RuntimeError (args : list string)
| ValueError (args : list string)
| IndexError (args : list string)
| ZeroDivisionError (args : list string).

Definition exn_args (e : exn) : list string :=
  match e with
  | AssertionError a | AttributeError a | RuntimeError a
  | ValueError a | IndexError a | ZeroDivisionError a => a
  end.

(** Results of code that may raise. *)
Definition R (A : Type) : Type := exn + A.

Definition R_bind {A B} (m : R A) (f : A -> R B) : R B :=
  match m with
  | inl e => inl e
  | inr a => f a
  end.

Declare Scope R_scope.
Delimit Scope R_scope with R.
Notation "x <- m ;; k" := (R_bind m (fun x => k))
  (at level 100, m at next level, right associativity) : R_scope.

(** Initialisers that the library and [init_weight] write to parameters. *)
Inductive Init : Type :=
| default_kaiming_uniform_            (* reset_parameters of Conv2d, Linear *)
| default_uniform_                    (* reset_parameters, bias of Linear *)
| default_ones_                       (* reset_parameters of BatchNorm2d *)
| default_zeros_
| normal_ (mean : Z) (variance : Q)   (* std = sqrt variance *)
| kaiming_normal_ (a : Z) (mode nonlinearity : string)
| xavier_normal_
| constant_ (v : Z)
| fill_ (v : Z)
| zero_.

Record Param : Type := {
  size : list Z;
  data : list Init   (* write log, most recent first *)
}.

Definition loc : Type := nat.
Bind Scope nat_scope with loc.
Abbreviation Store := (list Param).

(** Construction: state (the parameter store) and exceptions. *)
Definition M (A : Type) : Type := Store -> exn + (A * Store).

Definition ret {A} (a : A) : M A := fun s => inr (a, s).
Definition raise {A} (e : exn) : M A := fun _ => inl e.
Definition bind {A B} (m : M A) (f : A -> M B) : M B :=
  fun s => match m s with
           | inl e => inl e
           | inr (a, s') => f a s'
           end.

Declare Scope M_scope.
Delimit Scope M_scope with M.
Notation "x <- m ;; k" := (bind m (fun x => k))
  (at level 100, m at next level, right associativity) : M_scope.
Notation "m ;;; k" := (bind m (fun _ => k))
  (at level 100, right associativity) : M_scope.

(** [torch.empty(size)] wrapped in an [nn.Parameter]: a negative dimension is
    a [RuntimeError]; a zero dimension is allowed. *)
Definition new_parameter (sz : list Z) (i : Init) : M loc :=
  fun s =>
    if forallb (fun d => 0 <=? d) sz
    then inr (length s, s ++ [{| size := sz; data := [i] |}])
    else inl (RuntimeError ["Trying to create tensor with negative dimension"%string]).

(** An in-place write to the parameter at [l]. *)
Definition write (l : loc) (i : Init) : M unit :=
  fun s =>
    match s !! l with
    | Some p => inr (tt, <[l := {| size := size p; data := i :: data p |}]> s)
    | None => inl (RuntimeError ["dangling parameter"%string])
    end.

Definition Python_assert (b : bool) : M unit :=
  if b then ret tt else raise (AssertionError []).

(** [for _ in range(n): body], threading an accumulator. *)
Fixpoint for_range {A} (n : nat) (body : A -> M A) (acc : A) : M A :=
  match n with
  | O => ret acc
  | S n' => (acc' <- body acc ;; for_range n' body acc')%M
  end.

(** [for m in ms: body(m)]. *)
Fixpoint for_each {A} (ms : list A) (body : A -> M unit) : M unit :=
  match ms with
  | [] => ret tt
  | m :: ms' => (body m ;;; for_each ms' body)%M
  end.

(** ** The layers of [torch.nn] used by the models

    Each layer is a record of its hyper-parameters and the locations of its
    parameters; its constructor allocates the parameters with the library's
    default initialisation. *)

Module Conv2d.
Record t : Type := {
  in_channels : Z;
  out_channels : Z;
  kernel_size : Z * Z;
  stride : Z;
  padding : Z;
  weight : loc;
  bias : option loc
}.

(** [nn.Conv2d(in_chan, out_chan, kernel_size=ks, stride=st, padding=pad,
    bias=b)] with an integer kernel size. *)
Definition __init__ (in_chan out_chan ks st pad : Z) (b : bool) : M t :=
  (w <- new_parameter [out_chan; in_chan; ks; ks] default_kaiming_uniform_ ;;
   ob <- (if b
          then (l <- new_parameter [out_chan] default_uniform_ ;; ret (Some l))
          else ret None) ;;
   ret {| in_channels := in_chan; out_channels := out_chan;
          kernel_size := (ks, ks); stride := st; padding := pad;
          weight := w; bias := ob |})%M.
End Conv2d.

Module BatchNorm2d.
Record t : Type := {
  num_features : Z;
  momentum : Q;
  weight : loc;
  bias : loc
}.

Definition __init__ (c : Z) (mom : Q) : M t :=
  (w <- new_parameter [c] default_ones_ ;;
   b <- new_parameter [c] default_zeros_ ;;
   ret {| num_features := c; momentum := mom; weight := w; bias := b |})%M.
End BatchNorm2d.

Module LeakyReLU.
Record t : Type := { inplace : bool; negative_slope : Q }.
End LeakyReLU.

Module ReLU.
Record t : Type := { inplace : bool }.
End ReLU.

Module Dropout.
Record t : Type := { p : Q }.

(** [nn.Dropout(p)] rejects a probability outside [0, 1]. *)
Definition __init__ (rate : Q) : M t :=
  if (Qle_bool 0 rate && Qle_bool rate 1)%bool
  then ret {| p := rate |}
  else raise (ValueError
                ["dropout probability has to be between 0 and 1"%string]).
End Dropout.

Module Linear.
Record t : Type := {
  in_features : Z;
  out_features : Z;
  weight : loc;
  bias : option loc
}.

(** [nn.Linear(in_f, out_f, bias=b)]. *)
Definition __init__ (in_f out_f : Z) (b : bool) : M t :=
  (w <- new_parameter [out_f; in_f] default_kaiming_uniform_ ;;
   ob <- (if b
          then (l <- new_parameter [out_f] default_uniform_ ;; ret (Some l))
          else ret None) ;;
   ret {| in_features := in_f; out_features := out_f;
          weight := w; bias := ob |})%M.
End Linear.

(** Modules held in attributes whose class varies from one configuration
    to another ([classifier], [fc_classes], [fc_emb], [fc]). *)
Inductive nn_Module : Type :=
| Linear_ (l : Linear.t)
| ReLU_ (r : ReLU.t)
| Identity_
| Sequential_ (children : list nn_Module).

Definition class_name (m : nn_Module) : string :=
  match m with
  | Linear_ _ => "Linear"
  | ReLU_ _ => "ReLU"
  | Identity_ => "Identity"
  | Sequential_ _ => "Sequential"
  end.

(** The error of [nn.Module.__getattr__] for a missing attribute. *)
Definition no_attribute (m : nn_Module) (attr : string) : exn :=
  AttributeError
    [("'" ++ class_name m ++ "' object has no attribute '" ++ attr ++ "'")%string].

(** [m.in_features]: only a [Linear] has the attribute. *)
Definition getattr_in_features (m : nn_Module) : R Z :=
  match m with
  | Linear_ l => inr (Linear.in_features l)
  | _ => inl (no_attribute m "in_features")
  end.

(** [m.weight] and [m.bias]. *)
Definition getattr_weight (m : nn_Module) : R loc :=
  match m with
  | Linear_ l => inr (Linear.weight l)
  | _ => inl (no_attribute m "weight")
  end.

Definition getattr_bias (m : nn_Module) : R (option loc) :=
  match m with
  | Linear_ l => inr (Linear.bias l)
  | _ => inl (no_attribute m "bias")
  end.

(** Lifting a result into the construction monad. *)
Definition lift {A} (r : R A) : M A :=
  fun s => match r with
           | inl e => inl e
           | inr a => inr (a, s)
           end.

(** The parameters of a module, in registration order. *)
Fixpoint nn_parameters (m : nn_Module) : list loc :=
  match m with
  | Linear_ l => Linear.weight l :: match Linear.bias l with
                                   | Some b => [b]
                                   | None => []
                                   end
  | ReLU_ _ => []
  | Identity_ => []
  | Sequential_ ms => flat_map nn_parameters ms
  end.

(** ** Tensors and the forward pass of each layer

    The value of a tensor is the dataflow term that computes it from the
    input: which layers were applied to what, in which order.  Its size is
    checked and propagated as the library documents for each layer.  The
    in-place activations ([inplace=True]) of these models always act on a
    tensor that was just produced and is not read again under its old
    name, so they are the same function of their input as the
    out-of-place ones.  A constructed module is in training mode, and no
    model of the file leaves it: batch normalisation is the one layer
    whose checks depend on the mode, and it is modelled in training
    mode, where it refuses a batch with a single value per channel. *)

Inductive Data : Type :=
| input_
| conv2d (x : Data) (c : Conv2d.t)
| batch_norm (x : Data) (b : BatchNorm2d.t)
| leaky_relu (x : Data) (negative_slope : Q)
| relu (x : Data)
| dropout (x : Data) (p : Q)
| linear (x : Data) (l : Linear.t)
| mean (x : Data) (dims : list Z)
| add (x y : Data)
| extern (f : string) (x : Data).   (* a computation of another library *)

Record Tensor : Type := {
  value : Data;
  shape : list Z
}.

(** The input batch of size [sz]. *)
Definition input (sz : list Z) : Tensor := {| value := input_; shape := sz |}.

Definition conv_out (i k st pad : Z) : Z := (i + 2 * pad - k) / st + 1.

(** [nn.Conv2d] takes a batch [N, C, H, W] or a single unbatched image
    [C, H, W]; [batch] is the list of the dimensions before the
    channels. *)
Definition conv2d_sized (c : Conv2d.t) (x : Tensor) (batch : list Z)
  (C H W : Z) : R Tensor :=
  let '(kh, kw) := Conv2d.kernel_size c in
  let st := Conv2d.stride c in
  let pad := Conv2d.padding c in
  if negb (C =? Conv2d.in_channels c) then
    inl (RuntimeError ["input channels do not match the weight"%string])
  else if st <=? 0 then
    inl (RuntimeError ["non-positive stride is not supported"%string])
  else if (H + 2 * pad <? kh) || (W + 2 * pad <? kw) then
    inl (RuntimeError
           ["Kernel size can't be greater than actual input size"%string])
  else
    inr {| value := conv2d (value x) c;
           shape := batch ++ [Conv2d.out_channels c;
                              conv_out H kh st pad; conv_out W kw st pad] |}.

Definition Conv2d_forward (c : Conv2d.t) (x : Tensor) : R Tensor :=
  match shape x with
  | [N; C; H; W] => conv2d_sized c x [N] C H W
  | [C; H; W] => conv2d_sized c x [] C H W
  | _ => inl (RuntimeError
                ["Expected 3D (unbatched) or 4D (batched) input to conv2d"%string])
  end.

(** [nn.BatchNorm2d] in training mode: the input must be 4-D
    ([_check_input_dim]), have more than one value per channel
    ([_verify_batch_size]: the product of all dimensions but the channels
    is not 1), and as many channels as the layer has features. *)
Definition BatchNorm2d_forward (b : BatchNorm2d.t) (x : Tensor) : R Tensor :=
  match shape x with
  | [N; C; H; W] =>
      if N * H * W =? 1 then
        inl (ValueError
               ["Expected more than 1 value per channel when training"%string])
      else if C =? BatchNorm2d.num_features b
      then inr {| value := batch_norm (value x) b; shape := shape x |}
      else inl (RuntimeError
                  ["running_mean should contain as many elements as channels"%string])
  | _ => inl (ValueError ["expected 4D input"%string])
  end.

Definition LeakyReLU_forward (r : LeakyReLU.t) (x : Tensor) : R Tensor :=
  inr {| value := leaky_relu (value x) (LeakyReLU.negative_slope r);
         shape := shape x |}.

Definition ReLU_forward (r : ReLU.t) (x : Tensor) : R Tensor :=
  inr {| value := relu (value x); shape := shape x |}.

Definition Dropout_forward (d : Dropout.t) (x : Tensor) : R Tensor :=
  inr {| value := dropout (value x) (Dropout.p d); shape := shape x |}.

(** [F.linear]: the last dimension must be [in_features]. *)
Fixpoint linear_shape (sz : list Z) (in_f out_f : Z) : option (list Z) :=
  match sz with
  | [] => None
  | [d] => if d =? in_f then Some [out_f] else None
  | d :: rest => option_map (cons d) (linear_shape rest in_f out_f)
  end.

Definition Linear_forward (l : Linear.t) (x : Tensor) : R Tensor :=
  match linear_shape (shape x) (Linear.in_features l) (Linear.out_features l) with
  | Some sz => inr {| value := linear (value x) l; shape := sz |}
  | None => inl (RuntimeError
                   ["mat1 and mat2 shapes cannot be multiplied"%string])
  end.

(** [torch.mean(x, dim=(2, 3))]. *)
Definition torch_mean_2_3 (x : Tensor) : R Tensor :=
  match shape x with
  | a :: b :: _ :: _ :: rest =>
      inr {| value := mean (value x) [2; 3]; shape := a :: b :: rest |}
  | _ => inl (IndexError ["Dimension out of range"%string])
  end.

(** Broadcasting of two sizes, aligned at the last dimension (the lists
    are given last dimension first). *)
Fixpoint broadcast_rev (a b : list Z) : option (list Z) :=
  match a, b with
  | [], _ => Some b
  | _, [] => Some a
  | da :: a', db :: b' =>
      match broadcast_rev a' b' with
      | None => None
      | Some r =>
          if da =? db then Some (da :: r)
          else if da =? 1 then Some (db :: r)
          else if db =? 1 then Some (da :: r)
          else None
      end
  end.

Definition broadcast (a b : list Z) : option (list Z) :=
  option_map (@rev Z) (broadcast_rev (rev a) (rev b)).

(** [x + y]. *)
Definition torch_add (x y : Tensor) : R Tensor :=
  match broadcast (shape x) (shape y) with
  | Some sz => inr {| value := add (value x) (value y); shape := sz |}
  | None => inl (RuntimeError
                   ["The size of tensor a must match the size of tensor b"%string])
  end.

(** The forward pass of a dynamically typed module; a [Sequential] feeds
    each child the output of the one before. *)
Fixpoint nn_forward (m : nn_Module) (x : Tensor) : R Tensor :=
  match m with
  | Linear_ l => Linear_forward l x
  | ReLU_ r => ReLU_forward r x
  | Identity_ => inr x
  | Sequential_ ms =>
      (fix go (ms : list nn_Module) (x : Tensor) : R Tensor :=
         match ms with
         | [] => inr x
         | m' :: ms' => (y <- nn_forward m' x ;; go ms' y)%R
         end) ms x
  end.

(** What [init_weight] sees of a module yielded by [self.modules()]: the
    three classes it tests with [isinstance], and everything else. *)
Inductive module_view : Type :=
| is_Conv2d (c : Conv2d.t)
| is_BatchNorm2d (b : BatchNorm2d.t)
| is_Linear (l : Linear.t)
| is_other (class : string).

(** ** [class BasicBlockPreAct] *)

Module BasicBlockPreAct.
Record t : Type := {
  bn1 : BatchNorm2d.t;
  relu1 : LeakyReLU.t;
  conv1 : Conv2d.t;
  bn2 : BatchNorm2d.t;
  relu2 : LeakyReLU.t;
  dropout : option Dropout.t;
  conv2 : Conv2d.t;
  downsample : option Conv2d.t;
  pre_res_act : bool
}.

Definition __init__ (in_chan out_chan : Z) (drop_rate : Q) (stride : Z)
  (pre_res_act : bool) : M t :=
  (bn1 <- BatchNorm2d.__init__ in_chan (1 # 1000) ;;
   let relu1 := {| LeakyReLU.inplace := true;
                   LeakyReLU.negative_slope := 1 # 10 |} in
   conv1 <- Conv2d.__init__ in_chan out_chan 3 stride 1 false ;;
   bn2 <- BatchNorm2d.__init__ out_chan (1 # 1000) ;;
   let relu2 := {| LeakyReLU.inplace := true;
                   LeakyReLU.negative_slope := 1 # 10 |} in
   dropout <- (if negb (Qeq_bool drop_rate 0)
               then (d <- Dropout.__init__ drop_rate ;; ret (Some d))
               else ret None) ;;
   conv2 <- Conv2d.__init__ out_chan out_chan 3 1 1 false ;;
   downsample <- (if negb (in_chan =? out_chan) || negb (stride =? 1)
                  then (c <- Conv2d.__init__ in_chan out_chan 1 stride 0 false ;;
                        ret (Some c))
                  else ret None) ;;
   ret {| bn1 := bn1; relu1 := relu1; conv1 := conv1; bn2 := bn2;
          relu2 := relu2; dropout := dropout; conv2 := conv2;
          downsample := downsample; pre_res_act := pre_res_act |})%M.

Definition forward (self : t) (x : Tensor) : R Tensor :=
  (bn1 <- BatchNorm2d_forward (bn1 self) x ;;
   act1 <- LeakyReLU_forward (relu1 self) bn1 ;;
   residual <- Conv2d_forward (conv1 self) act1 ;;
   residual <- BatchNorm2d_forward (bn2 self) residual ;;
   residual <- LeakyReLU_forward (relu2 self) residual ;;
   residual <- match dropout self with
               | Some d => Dropout_forward d residual
               | None => inr residual
               end ;;
   residual <- Conv2d_forward (conv2 self) residual ;;
   let shortcut := if pre_res_act self then act1 else x in
   shortcut <- match downsample self with
               | Some d => Conv2d_forward d shortcut
               | None => inr shortcut
               end ;;
   torch_add shortcut residual)%R.

(** [self.modules()]: the block, then its children in registration order
    (an attribute set to [None] is not a child). *)
Definition modules (self : t) : list module_view :=
  [is_other "BasicBlockPreAct";
   is_BatchNorm2d (bn1 self); is_other "LeakyReLU"; is_Conv2d (conv1 self);
   is_BatchNorm2d (bn2 self); is_other "LeakyReLU"]
  ++ match dropout self with
     | Some _ => [is_other "Dropout"]
     | None => []
     end
  ++ [is_Conv2d (conv2 self)]
  ++ match downsample self with
     | Some d => [is_Conv2d d]
     | None => []
     end.

(** The body of the loop of [init_weight]; no constructor calls the
    method (the call in [__init__] is commented out). *)
Definition init_module (m : module_view) : M unit :=
  match m with
  | is_Conv2d c =>
      (write (Conv2d.weight c) (kaiming_normal_ 0 "fan_in" "leaky_relu") ;;;
       match Conv2d.bias c with
       | Some b => write b (constant_ 0)
       | None => ret tt
       end)%M
  | _ => ret tt
  end.

Definition init_weight (self : t) : M unit :=
  for_each (modules self) init_module.
End BasicBlockPreAct.

(** An [nn.Sequential] of blocks. *)
Fixpoint Sequential_forward (layers : list BasicBlockPreAct.t) (x : Tensor)
  : R Tensor :=
  match layers with
  | [] => inr x
  | b :: rest => (y <- BasicBlockPreAct.forward b x ;; Sequential_forward rest y)%R
  end.

Definition Sequential_modules (layers : list BasicBlockPreAct.t)
  : list module_view :=
  is_other "Sequential" :: flat_map BasicBlockPreAct.modules layers.

(** ** [class WideResnetBackbone] *)

Module WideResnetBackbone.
Record t : Type := {
  k : Z;
  n : Z;
  conv1 : Conv2d.t;
  layer1 : list BasicBlockPreAct.t;
  layer2 : list BasicBlockPreAct.t;
  layer3 : list BasicBlockPreAct.t;
  bn_last : BatchNorm2d.t;
  relu_last : LeakyReLU.t
}.

Definition create_layer (in_chan out_chan bnum stride : Z) (drop_rate : Q)
  (pre_res_act : bool) : M (list BasicBlockPreAct.t) :=
  (first <- BasicBlockPreAct.__init__ in_chan out_chan drop_rate stride
              pre_res_act ;;
   for_range (Z.to_nat (bnum - 1))
     (fun layers =>
        b <- BasicBlockPreAct.__init__ out_chan out_chan drop_rate 1 false ;;
        ret (layers ++ [b]))
     [first])%M.

Definition forward (self : t) (x : Tensor) : R (Tensor * Tensor) :=
  (feat <- Conv2d_forward (conv1 self) x ;;
   feat <- Sequential_forward (layer1 self) feat ;;
   feat2 <- Sequential_forward (layer2 self) feat ;;
   feat4 <- Sequential_forward (layer3 self) feat2 ;;
   feat4 <- BatchNorm2d_forward (bn_last self) feat4 ;;
   feat4 <- LeakyReLU_forward (relu_last self) feat4 ;;
   inr (feat2, feat4))%R.

Definition modules (self : t) : list module_view :=
  [is_other "WideResnetBackbone"; is_Conv2d (conv1 self)]
  ++ Sequential_modules (layer1 self)
  ++ Sequential_modules (layer2 self)
  ++ Sequential_modules (layer3 self)
  ++ [is_BatchNorm2d (bn_last self); is_other "LeakyReLU"].

(** The body of the loop of [init_weight]. *)
Definition init_module (m : module_view) : M unit :=
  match m with
  | is_Conv2d c =>
      let n := fst (Conv2d.kernel_size c) * snd (Conv2d.kernel_size c)
               * Conv2d.out_channels c in
      (if n =? 0 then
         raise (ZeroDivisionError ["float division by zero"%string])
       else if n <? 0 then
         raise (ValueError ["math domain error"%string])
       else
         write (Conv2d.weight c) (normal_ 0 (2 # Z.to_pos n)) ;;;
         write (Conv2d.weight c) (kaiming_normal_ 0 "fan_in" "leaky_relu") ;;;
         match Conv2d.bias c with
         | Some b => write b (constant_ 0)
         | None => ret tt
         end)%M
  | is_BatchNorm2d b =>
      (write (BatchNorm2d.weight b) (fill_ 1) ;;;
       write (BatchNorm2d.bias b) zero_)%M
  | is_Linear l =>
      match Linear.bias l with
      | Some b => write b zero_
      | None => raise (AttributeError
                         ["'NoneType' object has no attribute 'data'"%string])
      end
  | is_other _ => ret tt
  end.

Definition init_weight (self : t) : M unit :=
  for_each (modules self) init_module.

Definition n_layers (k : Z) : list Z :=
  [16] ++ map (fun i => k * 16 * 2 ^ i) [0; 1; 2].

Definition __init__ (k n : Z) (drop_rate : Q) : M t :=
  (Python_assert ((n - 4) mod 6 =? 0) ;;;
   let n_blocks := (n - 4) / 6 in
   let n_layers := n_layers k in
   conv1 <- Conv2d.__init__ 3 (nth 0 n_layers 0) 3 1 1 false ;;
   layer1 <- create_layer (nth 0 n_layers 0) (nth 1 n_layers 0) n_blocks 1
               drop_rate true ;;
   layer2 <- create_layer (nth 1 n_layers 0) (nth 2 n_layers 0) n_blocks 2
               drop_rate false ;;
   layer3 <- create_layer (nth 2 n_layers 0) (nth 3 n_layers 0) n_blocks 2
               drop_rate false ;;
   bn_last <- BatchNorm2d.__init__ (nth 3 n_layers 0) (1 # 1000) ;;
   let relu_last := {| LeakyReLU.inplace := true;
                       LeakyReLU.negative_slope := 1 # 10 |} in
   let self := {| k := k; n := n; conv1 := conv1; layer1 := layer1;
                  layer2 := layer2; layer3 := layer3; bn_last := bn_last;
                  relu_last := relu_last |} in
   init_weight self ;;;
   ret self)%M.
End WideResnetBackbone.

(** ** [class WideResnet] *)

Module WideResnet.
Record t : Type := {
  n_layers : Z;
  k : Z;
  backbone : WideResnetBackbone.t;
  classifier : nn_Module
}.

Definition __init__ (n_classes k n : Z) : M t :=
  (backbone <- WideResnetBackbone.__init__ k n 0 ;;
   classifier <-
     (if k <? 4 then
        l <- Linear.__init__ (64 * k) n_classes true ;;
        ret (Linear_ l)
      else
        let num_ftrs := 64 * k in
        l1 <- Linear.__init__ num_ftrs (num_ftrs / 2) true ;;
        l2 <- Linear.__init__ (num_ftrs / 2) n_classes true ;;
        ret (Sequential_ [Linear_ l1; ReLU_ {| ReLU.inplace := true |};
                          Linear_ l2])) ;;
   ret {| n_layers := n; k := k; backbone := backbone;
          classifier := classifier |})%M.

Definition forward (self : t) (x : Tensor) : R Tensor :=
  (feats <- WideResnetBackbone.forward (backbone self) x ;;
   let feat := snd feats in
   feat <- torch_mean_2_3 feat ;;
   nn_forward (classifier self) feat)%R.

(** Defined by the class; no code of the module calls it. *)
Definition init_weight (self : t) : M unit :=
  (w <- lift (getattr_weight (classifier self)) ;;
   write w xavier_normal_ ;;;
   b <- lift (getattr_bias (classifier self)) ;;
   match b with
   | Some b => write b (constant_ 0)
   | None => ret tt
   end)%M.
End WideResnet.

(** ** The external ResNets of [torchvision.models]

    [models.resnet50] and [models.resnet18] belong to another library.  Of
    the network they return the wrappers use the attribute [fc] and the
    forward pass, which is the feature extractor (stem, residual stages,
    pooling, flatten) followed by [fc]. *)

Module ResNet.
Record t : Type := {
  features : Tensor -> R Tensor;
  features_parameters : list loc;
  fc : nn_Module
}.

Definition forward (self : t) (x : Tensor) : R Tensor :=
  (x <- features self x ;; nn_forward (fc self) x)%R.
End ResNet.

(** ** [class ResNet50WithEmbeddingHead] *)

Module ResNet50WithEmbeddingHead.
Record t : Type := {
  model_resnet : ResNet.t;
  num_ftrs : Z;
  fc_classes : nn_Module;
  fc_emb : nn_Module
}.

Definition __init__ (resnet50 : bool -> M ResNet.t)
  (num_classes emb_dim : Z) (pretrained : bool) : M t :=
  (model_resnet <- resnet50 pretrained ;;
   num_ftrs <- lift (getattr_in_features (ResNet.fc model_resnet)) ;;
   let model_resnet :=
     {| ResNet.features := ResNet.features model_resnet;
        ResNet.features_parameters := ResNet.features_parameters model_resnet;
        ResNet.fc := Identity_ |} in
   fc_classes <- Linear.__init__ num_ftrs num_classes true ;;
   fc_emb <- Linear.__init__ num_ftrs emb_dim true ;;
   ret {| model_resnet := model_resnet; num_ftrs := num_ftrs;
          fc_classes := Linear_ fc_classes; fc_emb := Linear_ fc_emb |})%M.

Definition forward (self : t) (x : Tensor) : R (Tensor * Tensor * Tensor) :=
  (x <- ResNet.forward (model_resnet self) x ;;
   out1 <- nn_forward (fc_classes self) x ;;
   out2 <- nn_forward (fc_emb self) x ;;
   inr (out1, out2, x))%R.

Definition adapt (self : t) (num_classes : Z) : M t :=
  (fc_classes <- Linear.__init__ (num_ftrs self) num_classes true ;;
   ret {| model_resnet := model_resnet self; num_ftrs := num_ftrs self;
          fc_classes := Linear_ fc_classes; fc_emb := fc_emb self |})%M.
End ResNet50WithEmbeddingHead.

(** ** [class ResNet18WithEmbeddingHead] *)

Module ResNet18WithEmbeddingHead.
Record t : Type := {
  model_resnet : ResNet.t;
  num_ftrs : Z;
  fc_classes : nn_Module;
  fc_emb : nn_Module
}.

Definition __init__ (resnet18 : bool -> M ResNet.t)
  (num_classes emb_dim : Z) (pretrained : bool) : M t :=
  (model_resnet <- resnet18 pretrained ;;
   num_ftrs <- lift (getattr_in_features (ResNet.fc model_resnet)) ;;
   let model_resnet :=
     {| ResNet.features := ResNet.features model_resnet;
        ResNet.features_parameters := ResNet.features_parameters model_resnet;
        ResNet.fc := Identity_ |} in
   fc_classes <- Linear.__init__ num_ftrs num_classes true ;;
   l1 <- Linear.__init__ num_ftrs 2048 true ;;
   l2 <- Linear.__init__ 2048 emb_dim true ;;
   ret {| model_resnet := model_resnet; num_ftrs := num_ftrs;
          fc_classes := Linear_ fc_classes;
          fc_emb := Sequential_ [Linear_ l1; ReLU_ {| ReLU.inplace := true |};
                                 Linear_ l2] |})%M.

Definition forward (self : t) (x : Tensor) : R (Tensor * Tensor * Tensor) :=
  (x <- ResNet.forward (model_resnet self) x ;;
   out1 <- nn_forward (fc_classes self) x ;;
   out2 <- nn_forward (fc_emb self) x ;;
   inr (out1, out2, x))%R.

Definition adapt (self : t) (num_classes : Z) : M t :=
  (fc_classes <- Linear.__init__ (num_ftrs self) num_classes true ;;
   ret {| model_resnet := model_resnet self; num_ftrs := num_ftrs self;
          fc_classes := Linear_ fc_classes; fc_emb := fc_emb self |})%M.
End ResNet18WithEmbeddingHead.

(** ** [class WideResnetWithEmbeddingHead] *)

Module WideResnetWithEmbeddingHead.
Record t : Type := {
  model_base : WideResnet.t;
  k : Z;
  num_ftrs : Z;
  fc_classes : nn_Module;
  fc_emb : nn_Module
}.

Definition __init__ (num_classes k n emb_dim : Z) : M t :=
  (model_base <- WideResnet.__init__ num_classes k n ;;
   num_ftrs <- lift (getattr_in_features (WideResnet.classifier model_base)) ;;
   let model_base :=
     {| WideResnet.n_layers := WideResnet.n_layers model_base;
        WideResnet.k := WideResnet.k model_base;
        WideResnet.backbone := WideResnet.backbone model_base;
        WideResnet.classifier := Identity_ |} in
   fc_classes <- Linear.__init__ num_ftrs num_classes true ;;
   l1 <- Linear.__init__ num_ftrs 2048 true ;;
   l2 <- Linear.__init__ 2048 emb_dim true ;;
   ret {| model_base := model_base; k := k; num_ftrs := num_ftrs;
          fc_classes := Linear_ fc_classes;
          fc_emb := Sequential_ [Linear_ l1; ReLU_ {| ReLU.inplace := true |};
                                 Linear_ l2] |})%M.

Definition forward (self : t) (x : Tensor) : R (Tensor * Tensor * Tensor) :=
  (x <- WideResnet.forward (model_base self) x ;;
   out1 <- nn_forward (fc_classes self) x ;;
   out2 <- nn_forward (fc_emb self) x ;;
   inr (out1, out2, x))%R.

Definition adapt (self : t) (num_classes : Z) : M t :=
  (fc_classes <- Linear.__init__ (num_ftrs self) num_classes true ;;
   ret {| model_base := model_base self; k := k self;
          num_ftrs := num_ftrs self;
          fc_classes := Linear_ fc_classes; fc_emb := fc_emb self |})%M.
End WideResnetWithEmbeddingHead.

(** ** The [__main__] block *)

(** [a, b = t] for a tuple [t]. *)
Definition unpack2 {A} (t : list A) : R (A * A) :=
  match t with
  | [] => inl (ValueError
                 ["not enough values to unpack (expected 2, got 0)"%string])
  | [_] => inl (ValueError
                  ["not enough values to unpack (expected 2, got 1)"%string])
  | [a; b] => inr (a, b)
  | _ => inl (ValueError ["too many values to unpack (expected 2)"%string])
  end.

(** The script run when the module is executed; it returns the lines it
    has printed.  [x] is a random batch of two 224x224 images; the labels
    [lb] it also draws are not used. *)
Definition main (resnet50 : bool -> M ResNet.t) : M (list string) :=
  (let x := input [2; 3; 224; 224] in
   net <- ResNet50WithEmbeddingHead.__init__ resnet50 100 300 true ;;
   _ <- lift (ResNet50WithEmbeddingHead.forward net x) ;;
   net <- WideResnetWithEmbeddingHead.__init__ 100 3 28 128 ;;
   outs <- lift (WideResnetWithEmbeddingHead.forward net x) ;;
   _ <- lift (unpack2 [fst (fst outs); snd (fst outs); snd outs]) ;;
   ret ["Done"%string])%M.

(** ** The outcome of construction as a function of the first free location

    Construction is deterministic: the object it returns depends on the
    store only through the number of parameters already allocated.  These
    functions describe the outcome; the lemmas below prove that the
    constructors compute them. *)

Definition mk_bn (base : loc) (c : Z) : BatchNorm2d.t :=
  {| BatchNorm2d.num_features := c; BatchNorm2d.momentum := 1 # 1000;
     BatchNorm2d.weight := base; BatchNorm2d.bias := S base |}.

Definition mk_conv (base : loc) (in_chan out_chan ks st pad : Z) : Conv2d.t :=
  {| Conv2d.in_channels := in_chan; Conv2d.out_channels := out_chan;
     Conv2d.kernel_size := (ks, ks); Conv2d.stride := st;
     Conv2d.padding := pad; Conv2d.weight := base; Conv2d.bias := None |}.

Definition mk_linear (base : loc) (in_f out_f : Z) : Linear.t :=
  {| Linear.in_features := in_f; Linear.out_features := out_f;
     Linear.weight := base; Linear.bias := Some (S base) |}.

Definition lrelu : LeakyReLU.t :=
  {| LeakyReLU.inplace := true; LeakyReLU.negative_slope := 1 # 10 |}.

Definition needs_downsample (in_chan out_chan stride : Z) : bool :=
  negb (in_chan =? out_chan) || negb (stride =? 1).

Definition mk_dropout (drop_rate : Q) : option Dropout.t :=
  if negb (Qeq_bool drop_rate 0) then Some {| Dropout.p := drop_rate |}
  else None.

Definition bn_params (c : Z) : list Param :=
  [{| size := [c]; data := [default_ones_] |};
   {| size := [c]; data := [default_zeros_] |}].

Definition conv_params (in_chan out_chan ks : Z) : list Param :=
  [{| size := [out_chan; in_chan; ks; ks]; data := [default_kaiming_uniform_] |}].

Definition linear_params (in_f out_f : Z) : list Param :=
  [{| size := [out_f; in_f]; data := [default_kaiming_uniform_] |};
   {| size := [out_f]; data := [default_uniform_] |}].

Definition block_at (base : loc) (in_chan out_chan : Z) (drop_rate : Q)
  (stride : Z) (pre_res_act : bool) : BasicBlockPreAct.t :=
  {| BasicBlockPreAct.bn1 := mk_bn base in_chan;
     BasicBlockPreAct.relu1 := lrelu;
     BasicBlockPreAct.conv1 := mk_conv (base + 2)%nat in_chan out_chan 3 stride 1;
     BasicBlockPreAct.bn2 := mk_bn (base + 3)%nat out_chan;
     BasicBlockPreAct.relu2 := lrelu;
     BasicBlockPreAct.dropout := mk_dropout drop_rate;
     BasicBlockPreAct.conv2 := mk_conv (base + 5)%nat out_chan out_chan 3 1 1;
     BasicBlockPreAct.downsample :=
       if needs_downsample in_chan out_chan stride
       then Some (mk_conv (base + 6)%nat in_chan out_chan 1 stride 0)
       else None;
     BasicBlockPreAct.pre_res_act := pre_res_act |}.

Definition block_params (in_chan out_chan stride : Z) : list Param :=
  bn_params in_chan ++ conv_params in_chan out_chan 3
  ++ bn_params out_chan ++ conv_params out_chan out_chan 3
  ++ (if needs_downsample in_chan out_chan stride
      then conv_params in_chan out_chan 1 else []).

(** The blocks appended by the loop of [create_layer]. *)
Fixpoint rest_at (base : loc) (out_chan : Z) (drop_rate : Q) (cnt : nat)
  : list BasicBlockPreAct.t :=
  match cnt with
  | O => []
  | S c => block_at base out_chan out_chan drop_rate 1 false
           :: rest_at (base + 6)%nat out_chan drop_rate c
  end.

Fixpoint rest_params (out_chan : Z) (cnt : nat) : list Param :=
  match cnt with
  | O => []
  | S c => block_params out_chan out_chan 1 ++ rest_params out_chan c
  end.

Definition stage_at (base : loc) (in_chan out_chan bnum stride : Z)
  (drop_rate : Q) (pre_res_act : bool) : list BasicBlockPreAct.t :=
  block_at base in_chan out_chan drop_rate stride pre_res_act
  :: rest_at (base + length (block_params in_chan out_chan stride))%nat
       out_chan drop_rate (Z.to_nat (bnum - 1)).

Definition stage_params (in_chan out_chan bnum stride : Z) : list Param :=
  block_params in_chan out_chan stride
  ++ rest_params out_chan (Z.to_nat (bnum - 1)).

Definition backbone_at (base : loc) (k n : Z) (drop_rate : Q)
  : WideResnetBackbone.t :=
  let n_blocks := (n - 4) / 6 in
  let w := fun i => nth i (WideResnetBackbone.n_layers k) 0 in
  let b1 := S base in
  let b2 := (b1 + length (stage_params (w 0%nat) (w 1%nat) n_blocks 1))%nat in
  let b3 := (b2 + length (stage_params (w 1%nat) (w 2%nat) n_blocks 2))%nat in
  let b4 := (b3 + length (stage_params (w 2%nat) (w 3%nat) n_blocks 2))%nat in
  {| WideResnetBackbone.k := k; WideResnetBackbone.n := n;
     WideResnetBackbone.conv1 := mk_conv base 3 (w 0%nat) 3 1 1;
     WideResnetBackbone.layer1 :=
       stage_at b1 (w 0%nat) (w 1%nat) n_blocks 1 drop_rate true;
     WideResnetBackbone.layer2 :=
       stage_at b2 (w 1%nat) (w 2%nat) n_blocks 2 drop_rate false;
     WideResnetBackbone.layer3 :=
       stage_at b3 (w 2%nat) (w 3%nat) n_blocks 2 drop_rate false;
     WideResnetBackbone.bn_last := mk_bn b4 (w 3%nat);
     WideResnetBackbone.relu_last := lrelu |}.

Definition backbone_params (k n : Z) : list Param :=
  let n_blocks := (n - 4) / 6 in
  let w := fun i => nth i (WideResnetBackbone.n_layers k) 0 in
  conv_params 3 (w 0%nat) 3
  ++ stage_params (w 0%nat) (w 1%nat) n_blocks 1
  ++ stage_params (w 1%nat) (w 2%nat) n_blocks 2
  ++ stage_params (w 2%nat) (w 3%nat) n_blocks 2
  ++ bn_params (w 3%nat).

(** ** Predicates on the parameter store *)

(** The store holds the parameters [ps] from location [base] on. *)
Definition seg (s : Store) (base : loc) (ps : list Param) : Prop :=
  forall i p, ps !! i = Some p -> s !! (base + i)%nat = Some p.

(** The number [n] that [init_weight] computes for a convolution. *)
Definition conv_n (c : Conv2d.t) : Z :=
  fst (Conv2d.kernel_size c) * snd (Conv2d.kernel_size c)
  * Conv2d.out_channels c.

(** The parameters of module [m] are the next ones from [base] on and
    still hold the library's default initialisation. *)
Definition fresh_at (s : Store) (base : loc) (m : module_view) : Prop :=
  match m with
  | is_Conv2d c =>
      Conv2d.weight c = base /\ Conv2d.bias c = None /\ 0 < conv_n c /\
      exists sz, s !! base
                 = Some {| size := sz; data := [default_kaiming_uniform_] |}
  | is_BatchNorm2d b =>
      BatchNorm2d.weight b = base /\ BatchNorm2d.bias b = S base /\
      (exists sz, s !! base = Some {| size := sz; data := [default_ones_] |}) /\
      (exists sz, s !! S base = Some {| size := sz; data := [default_zeros_] |})
  | is_Linear _ => False
  | is_other _ => True
  end.

Definition param_count (m : module_view) : nat :=
  match m with
  | is_Conv2d _ => 1
  | is_BatchNorm2d _ => 2
  | is_Linear _ => 2
  | is_other _ => 0
  end.

(** The modules [ms] own, in order, the locations from [lo] up to [hi]. *)
Inductive layout (s : Store) : loc -> list module_view -> loc -> Prop :=
| layout_nil lo : layout s lo [] lo
| layout_cons lo m ms hi :
    fresh_at s lo m ->
    layout s (lo + param_count m)%nat ms hi ->
    layout s lo (m :: ms) hi.

(** The state of a module's parameters after one run of [init_weight] on
    freshly constructed modules: the write log shows the default
    initialisation followed by the writes of [init_weight], once. *)
Definition initialised (s : Store) (m : module_view) : Prop :=
  match m with
  | is_Conv2d c =>
      Conv2d.bias c = None /\
      exists sz, s !! Conv2d.weight c
                 = Some {| size := sz;
                           data := [kaiming_normal_ 0 "fan_in" "leaky_relu";
                                    normal_ 0 (2 # Z.to_pos (conv_n c));
                                    default_kaiming_uniform_] |}
  | is_BatchNorm2d b =>
      (exists sz, s !! BatchNorm2d.weight b
                  = Some {| size := sz; data := [fill_ 1; default_ones_] |}) /\
      (exists sz, s !! BatchNorm2d.bias b
                  = Some {| size := sz; data := [zero_; default_zeros_] |})
  | is_Linear _ => False
  | is_other _ => True
  end.

(** ** Configuration of layers and blocks *)

Definition conv_cfg (c : Conv2d.t) (in_chan out_chan ks st pad : Z) : Prop :=
  Conv2d.in_channels c = in_chan /\ Conv2d.out_channels c = out_chan /\
  Conv2d.kernel_size c = (ks, ks) /\ Conv2d.stride c = st /\
  Conv2d.padding c = pad.

(** A block from [in_chan] to [out_chan] channels with stride [st]: its
    layers are sized accordingly, and it has the 1x1 projection exactly
    when the channel count or the resolution changes. *)
Definition block_cfg (in_chan out_chan st : Z) (b : BasicBlockPreAct.t) : Prop :=
  BatchNorm2d.num_features (BasicBlockPreAct.bn1 b) = in_chan /\
  conv_cfg (BasicBlockPreAct.conv1 b) in_chan out_chan 3 st 1 /\
  BatchNorm2d.num_features (BasicBlockPreAct.bn2 b) = out_chan /\
  conv_cfg (BasicBlockPreAct.conv2 b) out_chan out_chan 3 1 1 /\
  match BasicBlockPreAct.downsample b with
  | None => in_chan = out_chan /\ st = 1
  | Some d => (in_chan <> out_chan \/ st <> 1) /\ conv_cfg d in_chan out_chan 1 st 0
  end.

(** A stage: the first block changes channels and carries the stride of the
    stage, every later block keeps the channels and has stride 1. *)
Definition stage_cfg (in_chan out_chan st : Z) (layers : list BasicBlockPreAct.t)
  : Prop :=
  exists first rest,
    layers = first :: rest /\
    block_cfg in_chan out_chan st first /\
    Forall (block_cfg out_chan out_chan 1) rest.

(** ** The dataflow of a block *)

Definition act1_value (b : BasicBlockPreAct.t) (v : Data) : Data :=
  leaky_relu (batch_norm v (BasicBlockPreAct.bn1 b))
    (LeakyReLU.negative_slope (BasicBlockPreAct.relu1 b)).

(** normalize, activate, convolve, normalize, activate, optional dropout,
    convolve. *)
Definition residual_value (b : BasicBlockPreAct.t) (v : Data) : Data :=
  let r := conv2d (act1_value b v) (BasicBlockPreAct.conv1 b) in
  let r := batch_norm r (BasicBlockPreAct.bn2 b) in
  let r := leaky_relu r (LeakyReLU.negative_slope (BasicBlockPreAct.relu2 b)) in
  let r := match BasicBlockPreAct.dropout b with
           | Some d => dropout r (Dropout.p d)
           | None => r
           end in
  conv2d r (BasicBlockPreAct.conv2 b).

(** The shortcut from source [src]: projected when the block has a
    projection. *)
Definition shortcut_from (b : BasicBlockPreAct.t) (src : Data) : Data :=
  match BasicBlockPreAct.downsample b with
  | Some d => conv2d src d
  | None => src
  end.

(** The source of the shortcut the code takes: the activated input when
    [pre_res_act] is set, the raw input otherwise. *)
Definition shortcut_source (b : BasicBlockPreAct.t) (v : Data) : Data :=
  if BasicBlockPreAct.pre_res_act b then act1_value b v else v.

(** Output size of a 3x3 (padding 1) or 1x1 (padding 0) convolution. *)
Definition down (h st : Z) : Z := (h - 1) / st + 1.

(** A batch of [N] maps of [H] by [W] values has more than one value per
    channel: what batch normalisation asks of its input in training
    mode.  With [H] and [W] at least 1 it fails only for a single map of
    a single value. *)
Definition several_values (N H W : Z) : Prop := N * H * W <> 1.

(** The backbone of width multiplier [k]: base widths 16, 16k, 32k, 64k;
    stage 1 at stride 1, stages 2 and 3 at stride 2. *)
Definition backbone_cfg (k : Z) (b : WideResnetBackbone.t) : Prop :=
  conv_cfg (WideResnetBackbone.conv1 b) 3 16 3 1 1 /\
  stage_cfg 16 (16 * k) 1 (WideResnetBackbone.layer1 b) /\
  stage_cfg (16 * k) (32 * k) 2 (WideResnetBackbone.layer2 b) /\
  stage_cfg (32 * k) (64 * k) 2 (WideResnetBackbone.layer3 b) /\
  BatchNorm2d.num_features (WideResnetBackbone.bn_last b) = 64 * k.

(** The classifier of [WideResnet], allocated from [base] on. *)
Definition classifier_at (base : loc) (k n_classes : Z) : nn_Module :=
  if k <? 4 then Linear_ (mk_linear base (64 * k) n_classes)
  else Sequential_
         [Linear_ (mk_linear base (64 * k) (64 * k / 2));
          ReLU_ {| ReLU.inplace := true |};
          Linear_ (mk_linear (base + 2)%nat (64 * k / 2) n_classes)].

Definition classifier_params (k n_classes : Z) : list Param :=
  if k <? 4 then linear_params (64 * k) n_classes
  else linear_params (64 * k) (64 * k / 2)
       ++ linear_params (64 * k / 2) n_classes.

(** The embedding head of the ResNet-18 and Wide-ResNet wrappers. *)
Definition fc_emb_at (base : loc) (num_ftrs emb_dim : Z) : nn_Module :=
  Sequential_
    [Linear_ (mk_linear base num_ftrs 2048);
     ReLU_ {| ReLU.inplace := true |};
     Linear_ (mk_linear (base + 2)%nat 2048 emb_dim)].

(** ** Notions used to state the properties *)

(** An error is descriptive when it carries a message. *)
Definition descriptive (e : exn) : Prop := exn_args e <> [].

(** The number of blocks [create_layer] puts in a stage: the first block is
    always built, the loop adds [bnum - 1] more when that is positive. *)
Definition blocks_per_stage (n : Z) : nat := Z.to_nat (Z.max 1 ((n - 4) / 6)).

(** The output of a block whose shortcut starts from the raw block input. *)
Definition raw_shortcut_value (b : BasicBlockPreAct.t) (v : Data) : Data :=
  add (shortcut_from b v) (residual_value b v).

(** The last write to a parameter set it to zero. *)
Definition zeroed (p : Param) : Prop :=
  match data p with
  | zero_ :: _ | constant_ 0 :: _ | fill_ 0 :: _ | default_zeros_ :: _ => True
  | _ => False
  end.

(** Every parameter of [s] is still there, unchanged, in [s']. *)
Definition store_extends (s s' : Store) : Prop :=
  forall l p, s !! l = Some p -> s' !! l = Some p.

(** The parameters of the linear layer [l] were allocated after [s]. *)
Definition fresh_linear (s : Store) (l : Linear.t) : Prop :=
  Linear.weight l = length s /\ Linear.bias l = Some (S (length s)).

(** The class-logit head is a linear layer on [num_ftrs] features: the
    state in which construction leaves the three embedding-head models,
    and [adapt] too. *)
Definition head_ok (fc_classes : nn_Module) (num_ftrs : Z) : Prop :=
  exists l, fc_classes = Linear_ l /\ Linear.in_features l = num_ftrs /\
            0 <= num_ftrs.

(** The parameter at [l] has only ever received the library's default
    initialisation of a linear layer. *)
Definition default_only (s : Store) (l : loc) : Prop :=
  exists p, s !! l = Some p /\
            (data p = [default_kaiming_uniform_] \/ data p = [default_uniform_]).

(** A stand-in for the constructors of the external library, to instantiate
    statements that take one: a network whose [fc] is a linear layer from
    [num_ftrs] features to 1000 classes and whose feature extractor maps a
    batch of images to [num_ftrs] features each. *)
Definition stand_in_resnet (num_ftrs : Z) (pretrained : bool) : M ResNet.t :=
  (fc <- Linear.__init__ num_ftrs 1000 true ;;
   ret {| ResNet.features :=
            fun x =>
              match shape x with
              | [N; C; H; W] =>
                  inr {| value := extern "features" (value x);
                         shape := [N; num_ftrs] |}
              | _ => inl (RuntimeError ["Expected 4D input"%string])
              end;
          ResNet.features_parameters := [];
          ResNet.fc := Linear_ fc |})%M.

(** ** Notions used to state the further properties *)

(** The parameters that a module yielded by [modules()] holds itself. *)
Definition module_parameters (m : module_view) : list loc :=
  match m with
  | is_Conv2d c => Conv2d.weight c :: match Conv2d.bias c with
                                     | Some b => [b]
                                     | None => []
                                     end
  | is_BatchNorm2d b => [BatchNorm2d.weight b; BatchNorm2d.bias b]
  | is_Linear l => Linear.weight l :: match Linear.bias l with
                                     | Some b => [b]
                                     | None => []
                                     end
  | is_other _ => []
  end.

(** All the blocks of a backbone, stage after stage. *)
Definition blocks (b : WideResnetBackbone.t) : list BasicBlockPreAct.t :=
  WideResnetBackbone.layer1 b ++ WideResnetBackbone.layer2 b
  ++ WideResnetBackbone.layer3 b.

(** The number of parameter tensors of a backbone with [bps] blocks per
    stage: the stem, six per block, one per projection (two, or three when
    the first stage changes the channel count), and the last
    normalisation. *)
Definition backbone_parameter_count (k : Z) (bps : nat) : nat :=
  (18 * bps + 5 + (if (k =? 1)%Z then 0 else 1))%nat.

(** The state of a module's parameters after one run of
    [BasicBlockPreAct.init_weight] on a freshly constructed block: the
    weight of a convolution shows the default initialisation followed by
    the Kaiming normal one, a normalisation layer the default
    initialisation only. *)
Definition block_initialised (s : Store) (m : module_view) : Prop :=
  match m with
  | is_Conv2d c =>
      Conv2d.bias c = None /\
      exists sz, s !! Conv2d.weight c
                 = Some {| size := sz;
                           data := [kaiming_normal_ 0 "fan_in" "leaky_relu";
                                    default_kaiming_uniform_] |}
  | is_BatchNorm2d b =>
      (exists sz, s !! BatchNorm2d.weight b
                  = Some {| size := sz; data := [default_ones_] |}) /\
      (exists sz, s !! BatchNorm2d.bias b
                  = Some {| size := sz; data := [default_zeros_] |})
  | is_Linear _ => False
  | is_other _ => True
  end.

(** * Sanity checks on concrete inputs *)

Example depth_15_refused :
  WideResnetBackbone.__init__ 1 15 0 [] = inl (AssertionError []).
Proof. reflexivity. Qed.

Example depth_28_parameters :
  exists b s, WideResnetBackbone.__init__ 1 28 0 [] = inr (b, s) /\
              length s = 77%nat /\
              map (@length _) [WideResnetBackbone.layer1 b;
                               WideResnetBackbone.layer2 b;
                               WideResnetBackbone.layer3 b] = [4; 4; 4]%nat.
Proof. eexists _, _. split; [vm_compute; reflexivity|]. split; reflexivity. Qed.

(** A zero width multiplier gets through the layer constructors and fails
    in [init_weight], on [2. / n]; a negative one fails in the first
    layer of that width. *)
Example width_0_refused :
  WideResnetBackbone.__init__ 0 28 0 []
  = inl (ZeroDivisionError ["float division by zero"%string]).
Proof. vm_compute. reflexivity. Qed.

Example width_negative_refused :
  WideResnetBackbone.__init__ (-1) 28 0 []
  = inl (RuntimeError
           ["Trying to create tensor with negative dimension"%string]).
Proof. vm_compute. reflexivity. Qed.

(** The model and the batch of the [__main__] block. *)
Example main_block_sizes :
  exists net s out1 out2 x,
    WideResnetWithEmbeddingHead.__init__ 100 3 28 128 [] = inr (net, s) /\
    WideResnetWithEmbeddingHead.forward net (input [2; 3; 224; 224])
    = inr (out1, out2, x) /\
    shape out1 = [2; 100] /\ shape out2 = [2; 128] /\ shape x = [2; 192].
Proof.
  eexists _, _, _, _, _. split; [vm_compute; reflexivity|].
  split; [vm_compute; reflexivity|]. repeat split.
Qed.

(** * Proofs *)

(** ** Stepping through the construction monad *)

Lemma bind_inr {A B} (m : M A) (f : A -> M B) s a s' :
  m s = inr (a, s') -> bind m f s = f a s'.
Proof. unfold bind. intros ->. reflexivity. Qed.

Lemma bind_inl {A B} (m : M A) (f : A -> M B) s e :
  m s = inl e -> bind m f s = inl e.
Proof. unfold bind. intros ->. reflexivity. Qed.

Lemma new_parameter_eq sz i s :
  Forall (fun d => 0 <= d) sz ->
  new_parameter sz i s = inr (length s, s ++ [{| size := sz; data := [i] |}]).
Proof.
  intros H. unfold new_parameter.
  replace (forallb (fun d => 0 <=? d) sz) with true; [reflexivity|].
  symmetry. apply forallb_forall. intros d Hd.
  rewrite Forall_forall in H. apply Z.leb_le, H.
  by apply list_elem_of_In.
Qed.

Lemma BatchNorm2d_init_eq c mom s :
  0 <= c ->
  BatchNorm2d.__init__ c mom s
  = inr ({| BatchNorm2d.num_features := c; BatchNorm2d.momentum := mom;
            BatchNorm2d.weight := length s; BatchNorm2d.bias := S (length s) |},
         s ++ bn_params c).
Proof.
  intros Hc. unfold BatchNorm2d.__init__.
  erewrite bind_inr by (apply new_parameter_eq; repeat constructor; lia).
  erewrite bind_inr by (apply new_parameter_eq; repeat constructor; lia).
  unfold ret, bn_params. rewrite length_app, <- app_assoc. simpl.
  repeat f_equal. lia.
Qed.

Lemma Conv2d_init_eq in_chan out_chan ks st pad s :
  0 <= in_chan -> 0 <= out_chan -> 0 <= ks ->
  Conv2d.__init__ in_chan out_chan ks st pad false s
  = inr (mk_conv (length s) in_chan out_chan ks st pad,
         s ++ conv_params in_chan out_chan ks).
Proof.
  intros Hi Ho Hk. unfold Conv2d.__init__.
  erewrite bind_inr by (apply new_parameter_eq; repeat constructor; lia).
  reflexivity.
Qed.

Lemma Linear_init_eq in_f out_f s :
  0 <= in_f -> 0 <= out_f ->
  Linear.__init__ in_f out_f true s
  = inr (mk_linear (length s) in_f out_f, s ++ linear_params in_f out_f).
Proof.
  intros Hi Ho. unfold Linear.__init__.
  erewrite bind_inr by (apply new_parameter_eq; repeat constructor; lia).
  erewrite bind_inr; cycle 1.
  { erewrite bind_inr by (apply new_parameter_eq; repeat constructor; lia).
    reflexivity. }
  unfold ret, mk_linear, linear_params. rewrite length_app, <- app_assoc. simpl.
  repeat f_equal. lia.
Qed.

Lemma Dropout_init_eq rate s :
  (0 <= rate)%Q -> (rate <= 1)%Q ->
  Dropout.__init__ rate s = inr ({| Dropout.p := rate |}, s).
Proof.
  intros H0 H1. unfold Dropout.__init__.
  apply Qle_bool_iff in H0, H1. rewrite H0, H1. reflexivity.
Qed.

Lemma BasicBlockPreAct_init_eq in_chan out_chan drop_rate stride pra s :
  0 <= in_chan -> 0 <= out_chan ->
  (0 <= drop_rate)%Q -> (drop_rate <= 1)%Q ->
  BasicBlockPreAct.__init__ in_chan out_chan drop_rate stride pra s
  = inr (block_at (length s) in_chan out_chan drop_rate stride pra,
         s ++ block_params in_chan out_chan stride).
Proof.
  intros Hi Ho Hd0 Hd1. unfold BasicBlockPreAct.__init__.
  erewrite bind_inr by (apply BatchNorm2d_init_eq; lia).
  erewrite bind_inr by (apply Conv2d_init_eq; lia).
  erewrite bind_inr by (apply BatchNorm2d_init_eq; lia).
  erewrite bind_inr with (a := mk_dropout drop_rate); cycle 1.
  { unfold mk_dropout. destruct (negb (Qeq_bool drop_rate 0)); [|reflexivity].
    erewrite bind_inr by (apply Dropout_init_eq; assumption). reflexivity. }
  erewrite bind_inr by (apply Conv2d_init_eq; lia).
  unfold block_at, block_params, needs_downsample.
  destruct (negb (in_chan =? out_chan) || negb (stride =? 1)).
  - erewrite bind_inr; cycle 1.
    { erewrite bind_inr by (apply Conv2d_init_eq; lia). reflexivity. }
    unfold ret, mk_bn, mk_conv, lrelu. rewrite !length_app. simpl.
    rewrite <- !app_assoc, <- !Nat.add_assoc. reflexivity.
  - erewrite bind_inr by reflexivity.
    unfold ret, mk_bn, mk_conv, lrelu. rewrite !length_app. simpl.
    rewrite <- !app_assoc, <- !Nat.add_assoc. reflexivity.
Qed.

Lemma needs_downsample_same c : needs_downsample c c 1 = false.
Proof. unfold needs_downsample. rewrite Z.eqb_refl. reflexivity. Qed.

Lemma length_block_params_same c : length (block_params c c 1) = 6%nat.
Proof. unfold block_params. rewrite needs_downsample_same. reflexivity. Qed.

(** The loop of [create_layer] appends [cnt] more blocks. *)
Lemma create_layer_loop_eq out_chan drop_rate cnt :
  0 <= out_chan -> (0 <= drop_rate)%Q -> (drop_rate <= 1)%Q ->
  forall layers s,
  for_range cnt
    (fun layers =>
       (b <- BasicBlockPreAct.__init__ out_chan out_chan drop_rate 1 false ;;
        ret (layers ++ [b]))%M) layers s
  = inr (layers ++ rest_at (length s) out_chan drop_rate cnt,
         s ++ rest_params out_chan cnt).
Proof.
  intros Ho Hd0 Hd1. induction cnt as [|cnt IH]; intros layers s.
  - simpl. unfold ret. rewrite !app_nil_r. reflexivity.
  - simpl for_range.
    erewrite bind_inr; cycle 1.
    { erewrite bind_inr by (apply BasicBlockPreAct_init_eq; assumption).
      reflexivity. }
    rewrite IH. rewrite length_app, length_block_params_same.
    simpl. rewrite <- !app_assoc. reflexivity.
Qed.

Lemma create_layer_eq in_chan out_chan bnum stride drop_rate pra s :
  0 <= in_chan -> 0 <= out_chan ->
  (0 <= drop_rate)%Q -> (drop_rate <= 1)%Q ->
  WideResnetBackbone.create_layer in_chan out_chan bnum stride drop_rate pra s
  = inr (stage_at (length s) in_chan out_chan bnum stride drop_rate pra,
         s ++ stage_params in_chan out_chan bnum stride).
Proof.
  intros Hi Ho Hd0 Hd1. unfold WideResnetBackbone.create_layer.
  erewrite bind_inr by (apply BasicBlockPreAct_init_eq; assumption).
  rewrite create_layer_loop_eq by assumption.
  unfold stage_at, stage_params. rewrite length_app, <- app_assoc.
  reflexivity.
Qed.

(** ** The loop of [init_weight] *)

Lemma write_eq l i s p :
  s !! l = Some p ->
  write l i s = inr (tt, <[l := {| size := size p; data := i :: data p |}]> s).
Proof. unfold write. intros ->. reflexivity. Qed.

Lemma fresh_at_ext s s' base m :
  (forall l, (base <= l)%nat -> s' !! l = s !! l) ->
  fresh_at s base m -> fresh_at s' base m.
Proof.
  intros Hext. destruct m as [c|b|l|cls]; simpl; try tauto.
  - intros (Hw & Hb & Hn & sz & Hs). repeat split; try assumption.
    exists sz. rewrite Hext by lia. assumption.
  - intros (Hw & Hb & (sz1 & H1) & (sz2 & H2)). repeat split; try assumption.
    + exists sz1. rewrite Hext by lia. assumption.
    + exists sz2. rewrite Hext by lia. assumption.
Qed.

Lemma layout_ext s s' lo ms hi :
  (forall l, (lo <= l)%nat -> s' !! l = s !! l) ->
  layout s lo ms hi -> layout s' lo ms hi.
Proof.
  intros Hext H. induction H as [lo|lo m ms hi Hm Hms IH].
  - constructor.
  - constructor.
    + eapply fresh_at_ext; eassumption.
    + apply IH. intros l Hl. apply Hext. lia.
Qed.

Lemma layout_app s lo ms1 mid ms2 hi :
  layout s lo ms1 mid -> layout s mid ms2 hi -> layout s lo (ms1 ++ ms2) hi.
Proof.
  intros H1 H2. induction H1; simpl; [assumption|].
  constructor; auto.
Qed.

Lemma layout_le s lo ms hi : layout s lo ms hi -> (lo <= hi)%nat.
Proof. induction 1; lia. Qed.

Lemma initialised_ext s0 s s' m lo hi :
  (forall l, (l < hi)%nat -> s' !! l = s !! l) ->
  fresh_at s0 lo m -> (lo + param_count m <= hi)%nat ->
  initialised s m -> initialised s' m.
Proof.
  intros Hext Hf Hhi. destruct m as [c|b|l|cls]; simpl in *; try tauto.
  - destruct Hf as (Hw & _). intros (Hb & sz & Hs). split; [assumption|].
    exists sz. rewrite Hext by lia. assumption.
  - destruct Hf as (Hw & Hb & _). intros ((sz1 & H1) & (sz2 & H2)). split.
    + exists sz1. rewrite Hext by lia. assumption.
    + exists sz2. rewrite Hext by lia. assumption.
Qed.

(** One step of the loop on a fresh module. *)
Lemma init_module_fresh s lo m :
  fresh_at s lo m ->
  exists s', WideResnetBackbone.init_module m s = inr (tt, s') /\
             length s' = length s /\
             (forall l, (l < lo \/ lo + param_count m <= l)%nat ->
                        s' !! l = s !! l) /\
             initialised s' m.
Proof.
  destruct m as [c|b|l|cls]; simpl.
  - intros (Hw & Hb & Hn & sz & Hs). fold (conv_n c).
    replace (conv_n c =? 0) with false by (symmetry; apply Z.eqb_neq; lia).
    replace (conv_n c <? 0) with false by (symmetry; apply Z.ltb_ge; lia).
    rewrite Hw, Hb.
    assert (Hlt : (lo < length s)%nat) by (eapply lookup_lt_Some; eassumption).
    erewrite bind_inr by (apply write_eq; eassumption).
    erewrite bind_inr; cycle 1.
    { apply write_eq. apply list_lookup_insert_eq. assumption. }
    eexists. split; [reflexivity|]. repeat split.
    + rewrite !length_insert. reflexivity.
    + intros l Hl. rewrite !list_lookup_insert_ne by lia. reflexivity.
    + exists sz. apply list_lookup_insert_eq. rewrite length_insert. assumption.
  - intros (Hw & Hb & (sz1 & H1) & (sz2 & H2)). rewrite Hw, Hb.
    assert (Hlt1 : (lo < length s)%nat) by (eapply lookup_lt_Some; eassumption).
    assert (Hlt2 : (S lo < length s)%nat) by (eapply lookup_lt_Some; eassumption).
    erewrite bind_inr by (apply write_eq; eassumption).
    erewrite write_eq; cycle 1.
    { rewrite list_lookup_insert_ne by lia. eassumption. }
    eexists. split; [reflexivity|]. repeat split.
    + rewrite !length_insert. reflexivity.
    + intros l Hl. simpl in Hl. rewrite !list_lookup_insert_ne by lia. reflexivity.
    + exists sz1. rewrite list_lookup_insert_ne by lia.
      apply list_lookup_insert_eq. assumption.
    + exists sz2. apply list_lookup_insert_eq. rewrite length_insert. assumption.
  - tauto.
  - intros _. exists s. repeat split; auto.
Qed.

(** The whole loop, over modules laid out in allocation order. *)
Lemma init_loop s lo ms hi :
  layout s lo ms hi ->
  exists s', for_each ms WideResnetBackbone.init_module s = inr (tt, s') /\
             length s' = length s /\
             (forall l, (l < lo \/ hi <= l)%nat -> s' !! l = s !! l) /\
             Forall (initialised s') ms.
Proof.
  intros H. revert s H. revert lo hi.
  induction ms as [|m ms IH]; intros lo hi s H; inversion H; subst.
  - exists s. repeat split; auto.
  - destruct (init_module_fresh s lo m) as (s1 & E1 & L1 & F1 & I1);
      [assumption|].
    assert (Hle : (lo + param_count m <= hi)%nat) by (eapply layout_le; eassumption).
    destruct (IH (lo + param_count m)%nat hi s1) as (s2 & E2 & L2 & F2 & I2).
    { eapply layout_ext; [|eassumption]. intros l Hl. apply F1. lia. }
    exists s2. repeat split.
    + simpl. erewrite bind_inr by eassumption. assumption.
    + congruence.
    + intros l Hl. rewrite F2 by lia. apply F1. lia.
    + constructor; [|assumption].
      eapply initialised_ext with (lo := lo) (hi := (lo + param_count m)%nat);
        [|eassumption|lia|eassumption].
      intros l Hl. apply F2. lia.
Qed.

(** ** Freshly constructed modules are laid out in allocation order *)

Lemma seg_app s base ps qs :
  seg s base (ps ++ qs) ->
  seg s base ps /\ seg s (base + length ps)%nat qs.
Proof.
  intros H. split; intros i p Hi.
  - apply H. rewrite lookup_app_l; [assumption|].
    eapply lookup_lt_Some; eassumption.
  - rewrite <- Nat.add_assoc. apply H.
    rewrite lookup_app_r by lia.
    replace (length ps + i - length ps)%nat with i by lia. assumption.
Qed.

Lemma seg_here (pre ps : list Param) : seg (pre ++ ps) (length pre) ps.
Proof.
  intros i p Hi. rewrite lookup_app_r by lia.
  replace (length pre + i - length pre)%nat with i by lia. assumption.
Qed.

Lemma layout_step s lo lo' m ms hi :
  fresh_at s lo m -> lo' = (lo + param_count m)%nat ->
  layout s lo' ms hi -> layout s lo (m :: ms) hi.
Proof. intros Hm -> Hms. constructor; assumption. Qed.

Lemma fresh_bn s base c :
  seg s base (bn_params c) -> fresh_at s base (is_BatchNorm2d (mk_bn base c)).
Proof.
  intros H. simpl. repeat split.
  - exists [c]. rewrite <- (Nat.add_0_r base). apply H. reflexivity.
  - exists [c]. rewrite <- Nat.add_1_r. apply H. reflexivity.
Qed.

Lemma fresh_conv s base in_chan out_chan ks st pad :
  seg s base (conv_params in_chan out_chan ks) -> 0 < ks -> 0 < out_chan ->
  fresh_at s base (is_Conv2d (mk_conv base in_chan out_chan ks st pad)).
Proof.
  intros H Hk Ho. simpl. repeat split.
  - unfold conv_n. simpl. nia.
  - eexists. rewrite <- (Nat.add_0_r base). apply H. reflexivity.
Qed.

Ltac lay_norm :=
  cbn [param_count]; rewrite ?Nat.add_0_r; rewrite <- ?Nat.add_assoc;
  cbn [Nat.add].

Ltac lay tac := eapply layout_step; [tac | reflexivity | lay_norm].

Lemma block_layout s base in_chan out_chan drop_rate stride pra :
  seg s base (block_params in_chan out_chan stride) -> 0 < out_chan ->
  layout s base
    (BasicBlockPreAct.modules
       (block_at base in_chan out_chan drop_rate stride pra))
    (base + length (block_params in_chan out_chan stride))%nat.
Proof.
  intros H Ho. unfold block_params in *.
  apply seg_app in H as [Hbn1 H]. apply seg_app in H as [Hc1 H].
  apply seg_app in H as [Hbn2 H]. apply seg_app in H as [Hc2 Hd].
  simpl length in *. rewrite <- !Nat.add_assoc in *. simpl Nat.add in *.
  unfold BasicBlockPreAct.modules, block_at. simpl.
  lay ltac:(exact I).
  lay ltac:(apply fresh_bn; assumption).
  lay ltac:(exact I).
  lay ltac:(apply fresh_conv; [assumption|lia|lia]).
  lay ltac:(apply fresh_bn; assumption).
  lay ltac:(exact I).
  assert (Hrest : layout s (base + 5)%nat
            (is_Conv2d (mk_conv (base + 5)%nat out_chan out_chan 3 1 1)
             :: match (if needs_downsample in_chan out_chan stride
                       then Some (mk_conv (base + 6)%nat in_chan out_chan 1 stride 0)
                       else None) with
                | Some d => [is_Conv2d d]
                | None => []
                end)
            (base + (6 + length (if needs_downsample in_chan out_chan stride
                                 then conv_params in_chan out_chan 1 else [])))%nat).
  { lay ltac:(apply fresh_conv; [assumption|lia|lia]).
    destruct (needs_downsample in_chan out_chan stride).
    - lay ltac:(apply fresh_conv; [assumption|lia|lia]).
      simpl. constructor.
    - simpl. constructor. }
  destruct (mk_dropout drop_rate); simpl.
  - lay ltac:(exact I). exact Hrest.
  - exact Hrest.
Qed.

Lemma rest_layout cnt : forall s base out_chan drop_rate,
  seg s base (rest_params out_chan cnt) -> 0 < out_chan ->
  layout s base
    (flat_map BasicBlockPreAct.modules (rest_at base out_chan drop_rate cnt))
    (base + length (rest_params out_chan cnt))%nat.
Proof.
  induction cnt as [|cnt IH]; intros s base out_chan drop_rate H Ho.
  - simpl. rewrite Nat.add_0_r. constructor.
  - change (rest_params out_chan (S cnt))
      with (block_params out_chan out_chan 1 ++ rest_params out_chan cnt) in *.
    change (rest_at base out_chan drop_rate (S cnt))
      with (block_at base out_chan out_chan drop_rate 1 false
            :: rest_at (base + 6)%nat out_chan drop_rate cnt).
    cbn [flat_map].
    apply seg_app in H as [Hb Hr].
    rewrite length_app, Nat.add_assoc.
    eapply layout_app.
    + apply block_layout; assumption.
    + rewrite length_block_params_same in *. apply IH; assumption.
Qed.

Lemma stage_layout s base in_chan out_chan bnum stride drop_rate pra :
  seg s base (stage_params in_chan out_chan bnum stride) -> 0 < out_chan ->
  layout s base
    (Sequential_modules
       (stage_at base in_chan out_chan bnum stride drop_rate pra))
    (base + length (stage_params in_chan out_chan bnum stride))%nat.
Proof.
  intros H Ho. unfold Sequential_modules, stage_at, stage_params in *.
  apply seg_app in H as [Hb Hr].
  cbn [flat_map].
  eapply layout_step; [exact I|reflexivity|].
  cbn [param_count]. rewrite Nat.add_0_r.
  rewrite length_app, Nat.add_assoc.
  eapply layout_app.
  - apply block_layout; assumption.
  - apply rest_layout; assumption.
Qed.

Lemma n_layers_pos k i : 0 < k -> (i < 4)%nat ->
  0 < nth i (WideResnetBackbone.n_layers k) 0.
Proof.
  intros Hk Hi. unfold WideResnetBackbone.n_layers.
  destruct i as [|[|[|[|i]]]]; simpl; lia.
Qed.

Lemma layout_hi_eq s lo ms hi hi' :
  layout s lo ms hi -> hi = hi' -> layout s lo ms hi'.
Proof. intros H <-. assumption. Qed.

Lemma backbone_layout s base k n drop_rate :
  seg s base (backbone_params k n) -> 0 < k ->
  layout s base
    (WideResnetBackbone.modules (backbone_at base k n drop_rate))
    (base + length (backbone_params k n))%nat.
Proof.
  intros H Hk. unfold backbone_params, backbone_at, WideResnetBackbone.modules in *.
  cbv zeta in *. cbn [WideResnetBackbone.conv1 WideResnetBackbone.layer1
    WideResnetBackbone.layer2 WideResnetBackbone.layer3
    WideResnetBackbone.bn_last].
  pose proof (n_layers_pos k 0 Hk ltac:(lia)) as H0.
  pose proof (n_layers_pos k 1 Hk ltac:(lia)) as H1.
  pose proof (n_layers_pos k 2 Hk ltac:(lia)) as H2.
  pose proof (n_layers_pos k 3 Hk ltac:(lia)) as H3.
  apply seg_app in H as [Hc H]. apply seg_app in H as [Hl1 H].
  apply seg_app in H as [Hl2 H]. apply seg_app in H as [Hl3 Hbn].
  change (length (conv_params 3 (nth 0 (WideResnetBackbone.n_layers k) 0) 3))
    with 1%nat in *.
  rewrite Nat.add_1_r in *.
  eapply layout_hi_eq.
  - eapply (layout_app _ _ [_; _] (S base)).
    + lay ltac:(exact I).
      lay ltac:(apply fresh_conv; [exact Hc|lia|assumption]).
      rewrite Nat.add_1_r. constructor.
    + eapply layout_app; [apply stage_layout; eassumption|].
      eapply layout_app; [apply stage_layout; eassumption|].
      eapply layout_app; [apply stage_layout; eassumption|].
      eapply layout_step; [apply fresh_bn; eassumption|reflexivity|].
      eapply layout_step; [exact I|reflexivity|constructor].
  - rewrite !length_app. simpl. lia.
Qed.

(** ** Construction of the backbone *)

Lemma length_conv_params in_chan out_chan ks :
  length (conv_params in_chan out_chan ks) = 1%nat.
Proof. reflexivity. Qed.

Lemma backbone_init_fail k n drop_rate s :
  (n - 4) mod 6 <> 0 ->
  WideResnetBackbone.__init__ k n drop_rate s = inl (AssertionError []).
Proof.
  intros H. unfold WideResnetBackbone.__init__.
  apply bind_inl. unfold Python_assert.
  replace ((n - 4) mod 6 =? 0) with false by (symmetry; apply Z.eqb_neq; assumption).
  reflexivity.
Qed.

Lemma backbone_init_ok k n drop_rate s :
  (n - 4) mod 6 = 0 -> 0 < k ->
  (0 <= drop_rate)%Q -> (drop_rate <= 1)%Q ->
  exists s',
    WideResnetBackbone.__init__ k n drop_rate s
    = inr (backbone_at (length s) k n drop_rate, s') /\
    length s' = (length s + length (backbone_params k n))%nat /\
    (forall l, (l < length s)%nat -> s' !! l = s !! l) /\
    Forall (initialised s')
      (WideResnetBackbone.modules (backbone_at (length s) k n drop_rate)).
Proof.
  intros Hn Hk Hd0 Hd1.
  pose proof (n_layers_pos k 0 Hk ltac:(lia)) as H0.
  pose proof (n_layers_pos k 1 Hk ltac:(lia)) as H1.
  pose proof (n_layers_pos k 2 Hk ltac:(lia)) as H2.
  pose proof (n_layers_pos k 3 Hk ltac:(lia)) as H3.
  destruct (init_loop (s ++ backbone_params k n) (length s)
              (WideResnetBackbone.modules (backbone_at (length s) k n drop_rate))
              (length s + length (backbone_params k n))%nat)
    as (s' & E & L & F & I).
  { apply backbone_layout; [apply seg_here|assumption]. }
  exists s'. repeat split.
  - unfold WideResnetBackbone.__init__.
    erewrite bind_inr; cycle 1.
    { unfold Python_assert. rewrite Hn. reflexivity. }
    cbv zeta.
    erewrite bind_inr by (apply Conv2d_init_eq; lia).
    erewrite bind_inr by (apply create_layer_eq; (lia || assumption)).
    erewrite bind_inr by (apply create_layer_eq; (lia || assumption)).
    erewrite bind_inr by (apply create_layer_eq; (lia || assumption)).
    erewrite bind_inr by (apply BatchNorm2d_init_eq; lia).
    erewrite bind_inr; cycle 1.
    { unfold WideResnetBackbone.init_weight.
      unfold backbone_at, backbone_params in E. cbv zeta in E.
      rewrite !length_app. rewrite <- !app_assoc.
      unfold mk_bn, lrelu in E.
      rewrite length_conv_params, Nat.add_1_r.
      exact E. }
    unfold ret, backbone_at, mk_bn, lrelu. cbv zeta.
    rewrite !length_app, length_conv_params, Nat.add_1_r.
    reflexivity.
  - rewrite L, length_app. reflexivity.
  - intros l Hl. rewrite F by lia. apply lookup_app_l. assumption.
  - assumption.
Qed.

(** ** Forward passes: sizes and dataflow *)

Lemma Conv2d_forward_eq c x N H W in_chan out_chan ks st pad :
  conv_cfg c in_chan out_chan ks st pad ->
  shape x = [N; in_chan; H; W] ->
  1 <= st -> ks <= H + 2 * pad -> ks <= W + 2 * pad ->
  Conv2d_forward c x
  = inr {| value := conv2d (value x) c;
           shape := [N; out_chan; conv_out H ks st pad; conv_out W ks st pad] |}.
Proof.
  intros (Hi & Ho & Hk & Hs & Hp) Hx Hst HH HW.
  unfold Conv2d_forward. rewrite Hx. unfold conv2d_sized.
  rewrite Hk, Hi, Ho, Hs, Hp.
  rewrite Z.eqb_refl. simpl negb. cbv iota.
  replace (st <=? 0) with false by (symmetry; apply Z.leb_gt; lia).
  replace (H + 2 * pad <? ks) with false by (symmetry; apply Z.ltb_ge; lia).
  replace (W + 2 * pad <? ks) with false by (symmetry; apply Z.ltb_ge; lia).
  reflexivity.
Qed.

Lemma BatchNorm2d_forward_eq b x N C H W :
  BatchNorm2d.num_features b = C -> shape x = [N; C; H; W] ->
  several_values N H W ->
  BatchNorm2d_forward b x
  = inr {| value := batch_norm (value x) b; shape := [N; C; H; W] |}.
Proof.
  intros Hb Hx Hv. unfold BatchNorm2d_forward. rewrite Hx, Hb, Z.eqb_refl.
  replace (N * H * W =? 1) with false by (symmetry; apply Z.eqb_neq; exact Hv).
  reflexivity.
Qed.

(** A single value per channel means a single map of a single value. *)
Lemma single_value_inv N H W :
  1 <= H -> 1 <= W -> N * H * W = 1 -> N = 1 /\ H = 1 /\ W = 1.
Proof.
  intros HH HW E.
  apply Z.eq_mul_1_nonneg' in E as [E ->]; [|lia].
  apply Z.eq_mul_1_nonneg' in E as [-> ->]; [|lia].
  auto.
Qed.

Lemma several_values_batch N H W :
  1 <= H -> 1 <= W -> N <> 1 -> several_values N H W.
Proof.
  intros HH HW HN E. apply single_value_inv in E; [|assumption..]. tauto.
Qed.

Lemma broadcast_rev_refl l : broadcast_rev l l = Some l.
Proof.
  induction l as [|d l IH]; [reflexivity|].
  simpl. rewrite IH, Z.eqb_refl. reflexivity.
Qed.

Lemma broadcast_refl l : broadcast l l = Some l.
Proof.
  unfold broadcast. rewrite broadcast_rev_refl. simpl.
  rewrite rev_involutive. reflexivity.
Qed.

Lemma torch_add_eq x y :
  shape x = shape y ->
  torch_add x y = inr {| value := add (value x) (value y); shape := shape x |}.
Proof.
  intros H. unfold torch_add. rewrite <- H, broadcast_refl. reflexivity.
Qed.

Lemma conv_out_3 h st : conv_out h 3 st 1 = down h st.
Proof. unfold conv_out, down. f_equal. f_equal. lia. Qed.

Lemma conv_out_1 h st : conv_out h 1 st 0 = down h st.
Proof. unfold conv_out, down. f_equal. f_equal. lia. Qed.

Lemma down_1 h : down h 1 = h.
Proof. unfold down. rewrite Z.div_1_r. lia. Qed.

Lemma down_pos h st : 1 <= h -> 1 <= st -> 1 <= down h st.
Proof.
  intros Hh Hs. unfold down.
  assert (0 <= (h - 1) / st) by (apply Z.div_pos; lia). lia.
Qed.

Lemma down_one st : 1 <= st -> down 1 st = 1.
Proof.
  intros Hst. unfold down. rewrite Z.sub_diag, Z.div_0_l by lia. reflexivity.
Qed.

(** Maps that still hold several values after being reduced held several
    values before. *)
Lemma several_values_down N H W st :
  1 <= H -> 1 <= W -> 1 <= st ->
  several_values N (down H st) (down W st) -> several_values N H W.
Proof.
  intros HH HW Hst Hv E. apply Hv.
  apply single_value_inv in E as (-> & -> & ->); [|assumption..].
  rewrite !down_one by assumption. reflexivity.
Qed.

(** A block on a well-sized input: the output size, and the dataflow. *)
Lemma block_forward_ok b in_chan out_chan st x N H W :
  block_cfg in_chan out_chan st b ->
  shape x = [N; in_chan; H; W] -> 1 <= H -> 1 <= W -> 1 <= st ->
  several_values N (down H st) (down W st) ->
  BasicBlockPreAct.forward b x
  = inr {| value := add (shortcut_from b (shortcut_source b (value x)))
                        (residual_value b (value x));
           shape := [N; out_chan; down H st; down W st] |}.
Proof.
  intros (Hbn1 & Hc1 & Hbn2 & Hc2 & Hd) Hx HH HW Hst Hv.
  pose proof (down_pos H st HH Hst) as HH'.
  pose proof (down_pos W st HW Hst) as HW'.
  pose proof (several_values_down N H W st HH HW Hst Hv) as Hv0.
  unfold BasicBlockPreAct.forward.
  erewrite BatchNorm2d_forward_eq by eassumption. cbn [R_bind].
  unfold LeakyReLU_forward at 1. cbn [R_bind value shape].
  erewrite Conv2d_forward_eq; [|eassumption|reflexivity|lia..].
  cbn [R_bind]. rewrite !conv_out_3.
  erewrite BatchNorm2d_forward_eq by (eassumption || reflexivity).
  cbn [R_bind]. unfold LeakyReLU_forward at 1. cbn [R_bind value shape].
  assert (Hres : forall r : Tensor,
    shape r = [N; out_chan; down H st; down W st] ->
    Conv2d_forward (BasicBlockPreAct.conv2 b) r
    = inr {| value := conv2d (value r) (BasicBlockPreAct.conv2 b);
             shape := [N; out_chan; down H st; down W st] |}).
  { intros r Hr. erewrite Conv2d_forward_eq; [|eassumption|eassumption|lia..].
    rewrite !conv_out_3, !down_1. reflexivity. }
  unfold residual_value, shortcut_from, shortcut_source, act1_value.
  destruct (BasicBlockPreAct.dropout b) as [d|];
    (unfold Dropout_forward; cbn [R_bind];
     rewrite Hres by reflexivity; cbn [R_bind value shape]).
  all: destruct (BasicBlockPreAct.downsample b) as [ds|].
  all: destruct (BasicBlockPreAct.pre_res_act b).
  all: try (destruct Hd as [_ Hd];
            erewrite Conv2d_forward_eq;
              [|eassumption|(eassumption || reflexivity)|lia..];
            cbn [R_bind]; rewrite !conv_out_1;
            rewrite torch_add_eq by reflexivity; reflexivity).
  all: destruct Hd as [-> ->]; rewrite !down_1 in *; cbn [R_bind];
       rewrite torch_add_eq by (cbn [shape]; congruence);
       cbn [value shape]; try rewrite Hx; reflexivity.
Qed.

(** ** The configuration of constructed blocks, stages and backbones *)

Lemma needs_downsample_false in_chan out_chan st :
  needs_downsample in_chan out_chan st = false -> in_chan = out_chan /\ st = 1.
Proof.
  unfold needs_downsample. intros H.
  apply orb_false_elim in H as [H1 H2].
  apply negb_false_iff in H1, H2. apply Z.eqb_eq in H1, H2. auto.
Qed.

Lemma needs_downsample_true in_chan out_chan st :
  needs_downsample in_chan out_chan st = true -> in_chan <> out_chan \/ st <> 1.
Proof.
  unfold needs_downsample. intros H.
  apply orb_true_elim in H as [H|H]; apply negb_true_iff, Z.eqb_neq in H; auto.
Qed.

Lemma block_at_cfg base in_chan out_chan drop_rate st pra :
  block_cfg in_chan out_chan st
    (block_at base in_chan out_chan drop_rate st pra).
Proof.
  unfold block_cfg, block_at, conv_cfg. simpl.
  split; [reflexivity|]. split; [repeat split|].
  split; [reflexivity|]. split; [repeat split|].
  destruct (needs_downsample in_chan out_chan st) eqn:E.
  - split; [apply needs_downsample_true; assumption|]. simpl. auto.
  - apply needs_downsample_false; assumption.
Qed.

Lemma rest_at_cfg cnt : forall base out_chan drop_rate,
  Forall (block_cfg out_chan out_chan 1) (rest_at base out_chan drop_rate cnt).
Proof.
  induction cnt as [|cnt IH]; intros; simpl; constructor.
  - apply block_at_cfg.
  - apply IH.
Qed.

Lemma stage_at_cfg base in_chan out_chan bnum st drop_rate pra :
  stage_cfg in_chan out_chan st
    (stage_at base in_chan out_chan bnum st drop_rate pra).
Proof.
  unfold stage_cfg, stage_at. eexists _, _. split; [reflexivity|]. split.
  - apply block_at_cfg.
  - apply rest_at_cfg.
Qed.

Lemma n_layers_eq k :
  WideResnetBackbone.n_layers k = [16; 16 * k; 32 * k; 64 * k].
Proof.
  unfold WideResnetBackbone.n_layers. simpl.
  f_equal. f_equal; [lia|]. f_equal; [lia|]. f_equal. lia.
Qed.

Lemma backbone_at_cfg base k n drop_rate :
  backbone_cfg k (backbone_at base k n drop_rate).
Proof.
  unfold backbone_cfg, backbone_at. cbv zeta. rewrite n_layers_eq. simpl.
  repeat split; try apply stage_at_cfg.
Qed.

Lemma rest_forward_ok layers c N H W :
  Forall (block_cfg c c 1) layers -> 1 <= H -> 1 <= W ->
  several_values N H W ->
  forall x, shape x = [N; c; H; W] ->
  exists y, Sequential_forward layers x = inr y /\ shape y = [N; c; H; W].
Proof.
  intros Hl HH HW Hv. induction Hl as [|b layers Hb Hl IH]; intros x Hx.
  - exists x. split; [reflexivity|assumption].
  - simpl. erewrite block_forward_ok;
      [|eassumption|eassumption|lia..|rewrite !down_1; assumption].
    cbn [R_bind]. rewrite !down_1. apply IH. reflexivity.
Qed.

Lemma stage_forward_ok layers in_chan out_chan st N H W x :
  stage_cfg in_chan out_chan st layers ->
  shape x = [N; in_chan; H; W] -> 1 <= H -> 1 <= W -> 1 <= st ->
  several_values N (down H st) (down W st) ->
  exists y, Sequential_forward layers x = inr y /\
            shape y = [N; out_chan; down H st; down W st].
Proof.
  intros (first & rest & -> & Hf & Hr) Hx HH HW Hst Hv.
  simpl. erewrite block_forward_ok; [|eassumption|eassumption|lia..|assumption].
  cbn [R_bind].
  apply rest_forward_ok;
    [assumption| apply down_pos; lia ..|assumption|reflexivity].
Qed.

Ltac run_stage Hcfg :=
  match goal with
  | |- context [Sequential_forward ?l ?t] =>
      let y := fresh "y" in
      let E := fresh "E" in
      let S := fresh "S" in
      edestruct stage_forward_ok with (layers := l) (x := t) as (y & E & S);
      [ exact Hcfg | (reflexivity || eassumption) | lia | lia | lia
      | (rewrite ?down_1; assumption)
      | rewrite E; cbn [R_bind] ]
  end.

(** The backbone on a batch of 3-channel images whose final feature maps
    hold more than one value. *)
Lemma backbone_forward_ok b k N H W x :
  backbone_cfg k b -> shape x = [N; 3; H; W] -> 1 <= H -> 1 <= W ->
  several_values N (down (down H 2) 2) (down (down W 2) 2) ->
  exists feat2 t4,
    WideResnetBackbone.forward b x
    = inr (feat2,
           {| value := leaky_relu
                         (batch_norm (value t4) (WideResnetBackbone.bn_last b))
                         (LeakyReLU.negative_slope
                            (WideResnetBackbone.relu_last b));
              shape := [N; 64 * k; down (down H 2) 2; down (down W 2) 2] |}) /\
    shape feat2 = [N; 32 * k; down H 2; down W 2] /\
    Sequential_forward (WideResnetBackbone.layer3 b) feat2 = inr t4.
Proof.
  intros (Hc & H1 & H2 & H3 & Hbn) Hx HH HW Hv4.
  pose proof (down_pos H 2 HH ltac:(lia)) as HH2.
  pose proof (down_pos W 2 HW ltac:(lia)) as HW2.
  pose proof (several_values_down N _ _ 2 HH2 HW2 ltac:(lia) Hv4) as Hv2.
  pose proof (several_values_down N _ _ 2 HH HW ltac:(lia) Hv2) as Hv1.
  unfold WideResnetBackbone.forward.
  erewrite Conv2d_forward_eq; [|eassumption|eassumption|lia..].
  cbn [R_bind]. rewrite !conv_out_3, !down_1.
  run_stage H1. rewrite !down_1 in *.
  run_stage H2.
  run_stage H3.
  erewrite BatchNorm2d_forward_eq by eassumption. cbn [R_bind].
  unfold LeakyReLU_forward. cbn [value shape].
  eexists _, _. split; [reflexivity|]. split; eassumption.
Qed.

(** ** [WideResnet]: construction and forward pass *)

Lemma Qle_0_0 : (0 <= 0)%Q.
Proof. apply Qle_refl. Qed.

Lemma Qle_0_1 : (0 <= 1)%Q.
Proof. unfold Qle. simpl. lia. Qed.

Lemma WideResnet_init_ok n_classes k n s :
  (n - 4) mod 6 = 0 -> 0 < k -> 0 <= n_classes ->
  exists s1,
    WideResnetBackbone.__init__ k n 0 s
    = inr (backbone_at (length s) k n 0, s1) /\
    WideResnet.__init__ n_classes k n s
    = inr ({| WideResnet.n_layers := n; WideResnet.k := k;
              WideResnet.backbone := backbone_at (length s) k n 0;
              WideResnet.classifier := classifier_at (length s1) k n_classes |},
           s1 ++ classifier_params k n_classes) /\
    length s1 = (length s + length (backbone_params k n))%nat /\
    (forall l, (l < length s)%nat -> s1 !! l = s !! l) /\
    Forall (initialised s1)
      (WideResnetBackbone.modules (backbone_at (length s) k n 0)).
Proof.
  intros Hn Hk Hc.
  destruct (backbone_init_ok k n 0 s Hn Hk Qle_0_0 Qle_0_1)
    as (s1 & E & L & F & I).
  exists s1. repeat split; try assumption.
  unfold WideResnet.__init__. erewrite bind_inr by exact E.
  unfold classifier_at, classifier_params.
  destruct (k <? 4) eqn:Ek.
  - erewrite bind_inr; cycle 1.
    { erewrite bind_inr by (apply Linear_init_eq; lia). reflexivity. }
    reflexivity.
  - assert (0 <= 64 * k / 2) by (apply Z.div_pos; lia).
    erewrite bind_inr; cycle 1.
    { cbv zeta.
      erewrite bind_inr by (apply Linear_init_eq; lia).
      erewrite bind_inr by (apply Linear_init_eq; lia).
      reflexivity. }
    unfold ret. rewrite length_app, <- app_assoc. reflexivity.
Qed.

Lemma Linear_forward_eq l x N F O :
  Linear.in_features l = F -> Linear.out_features l = O ->
  shape x = [N; F] ->
  Linear_forward l x = inr {| value := linear (value x) l; shape := [N; O] |}.
Proof.
  intros Hi Ho Hx. unfold Linear_forward. rewrite Hx, Hi, Ho. simpl.
  rewrite Z.eqb_refl. reflexivity.
Qed.

(** ** Further facts on constructed stages and on the dataflow *)

Lemma length_rest_at cnt : forall base out_chan drop_rate,
  length (rest_at base out_chan drop_rate cnt) = cnt.
Proof. induction cnt; intros; simpl; [reflexivity|]. rewrite IHcnt. reflexivity. Qed.

Lemma length_stage_at base in_chan out_chan bnum st drop_rate pra :
  length (stage_at base in_chan out_chan bnum st drop_rate pra)
  = Z.to_nat (Z.max 1 bnum).
Proof. unfold stage_at. simpl. rewrite length_rest_at. lia. Qed.

Lemma rest_at_pre_res_act cnt : forall base out_chan drop_rate,
  Forall (fun b => BasicBlockPreAct.pre_res_act b = false)
    (rest_at base out_chan drop_rate cnt).
Proof. induction cnt; intros; simpl; constructor; auto. Qed.

Lemma BatchNorm2d_forward_value b x y :
  BatchNorm2d_forward b x = inr y -> value y = batch_norm (value x) b.
Proof.
  unfold BatchNorm2d_forward. repeat case_match; intros [= <-]; reflexivity.
Qed.

Lemma Conv2d_forward_value c x y :
  Conv2d_forward c x = inr y -> value y = conv2d (value x) c.
Proof.
  unfold Conv2d_forward, conv2d_sized.
  repeat case_match; intros [= <-]; reflexivity.
Qed.

Lemma torch_add_value x y z :
  torch_add x y = inr z -> value z = add (value x) (value y).
Proof.
  unfold torch_add. repeat case_match; intros [= <-]; reflexivity.
Qed.

Lemma R_bind_inr {A B} (m : R A) (f : A -> R B) b :
  R_bind m f = inr b -> exists a, m = inr a /\ f a = inr b.
Proof. destruct m as [e|a]; simpl; [discriminate|]. eauto. Qed.

(** Whatever the block and the input, an output of [forward] is the sum of
    the shortcut, taken from the source selected by [pre_res_act], and the
    residual branch. *)
Lemma block_forward_value b x y :
  BasicBlockPreAct.forward b x = inr y ->
  value y = add (shortcut_from b (shortcut_source b (value x)))
                (residual_value b (value x)).
Proof.
  unfold BasicBlockPreAct.forward. intros H.
  apply R_bind_inr in H as (bn1 & E1 & H).
  apply R_bind_inr in H as (act1 & E2 & H).
  apply R_bind_inr in H as (r1 & E3 & H).
  apply R_bind_inr in H as (r2 & E4 & H).
  apply R_bind_inr in H as (r3 & E5 & H).
  apply R_bind_inr in H as (r4 & E6 & H).
  apply R_bind_inr in H as (r5 & E7 & H).
  apply R_bind_inr in H as (sc & E8 & H).
  apply torch_add_value in H. rewrite H.
  apply BatchNorm2d_forward_value in E1.
  injection E2 as <-. apply Conv2d_forward_value in E3.
  apply BatchNorm2d_forward_value in E4. injection E5 as <-.
  apply Conv2d_forward_value in E7.
  unfold shortcut_from, shortcut_source, residual_value, act1_value.
  rewrite E7. f_equal.
  - destruct (BasicBlockPreAct.downsample b).
    + apply Conv2d_forward_value in E8. rewrite E8.
      destruct (BasicBlockPreAct.pre_res_act b); simpl; rewrite ?E1; reflexivity.
    + injection E8 as <-.
      destruct (BasicBlockPreAct.pre_res_act b); simpl; rewrite ?E1; reflexivity.
  - f_equal.
    destruct (BasicBlockPreAct.dropout b); injection E6 as <-; simpl;
      rewrite E4, E3; simpl; rewrite E1; reflexivity.
Qed.

(** The stages behind the pair that the backbone returns. *)
Lemma backbone_forward_stages b x feat2 feat4 :
  WideResnetBackbone.forward b x = inr (feat2, feat4) ->
  exists feat0 feat1 t4,
    Conv2d_forward (WideResnetBackbone.conv1 b) x = inr feat0 /\
    Sequential_forward (WideResnetBackbone.layer1 b) feat0 = inr feat1 /\
    Sequential_forward (WideResnetBackbone.layer2 b) feat1 = inr feat2 /\
    Sequential_forward (WideResnetBackbone.layer3 b) feat2 = inr t4 /\
    value feat4
    = leaky_relu (batch_norm (value t4) (WideResnetBackbone.bn_last b))
        (LeakyReLU.negative_slope (WideResnetBackbone.relu_last b)).
Proof.
  unfold WideResnetBackbone.forward. intros H.
  apply R_bind_inr in H as (f0 & E0 & H).
  apply R_bind_inr in H as (f1 & E1 & H).
  apply R_bind_inr in H as (f2 & E2 & H).
  apply R_bind_inr in H as (f3 & E3 & H).
  apply R_bind_inr in H as (f4 & E4 & H).
  apply R_bind_inr in H as (f5 & E5 & H).
  injection H as <- <-. injection E5 as <-.
  apply BatchNorm2d_forward_value in E4.
  exists f0, f1, f3. repeat split; try assumption.
  simpl. rewrite E4. reflexivity.
Qed.

(** ** What a forward pass that returns tells about its input *)

Lemma BatchNorm2d_forward_inv b x y :
  BatchNorm2d_forward b x = inr y ->
  exists N H W,
    shape x = [N; BatchNorm2d.num_features b; H; W] /\
    several_values N H W /\
    shape y = [N; BatchNorm2d.num_features b; H; W].
Proof.
  unfold BatchNorm2d_forward.
  destruct (shape x) as [|N [|C [|H [|W [|? ?]]]]]; try discriminate.
  destruct (Z.eqb_spec (N * H * W) 1) as [|Hv]; [discriminate|].
  destruct (Z.eqb_spec C (BatchNorm2d.num_features b)) as [->|];
    [|discriminate].
  intros [= <-]. exists N, H, W. cbn [shape]. auto.
Qed.

Lemma conv2d_sized_inv c x y in_chan out_chan ks st pad batch C H W :
  conv_cfg c in_chan out_chan ks st pad ->
  conv2d_sized c x batch C H W = inr y ->
  C = in_chan /\ 1 <= st /\ ks <= H + 2 * pad /\ ks <= W + 2 * pad /\
  shape y = batch ++ [out_chan; conv_out H ks st pad; conv_out W ks st pad].
Proof.
  intros (Hi & Ho & Hk & Hs & Hp). unfold conv2d_sized.
  rewrite Hk, Hi, Ho, Hs, Hp. cbv beta iota.
  destruct (Z.eqb_spec C in_chan) as [->|]; [|discriminate]. cbn [negb].
  destruct (Z.leb_spec st 0); [discriminate|].
  destruct (Z.ltb_spec (H + 2 * pad) ks); [discriminate|].
  destruct (Z.ltb_spec (W + 2 * pad) ks); [discriminate|].
  cbn [orb]. intros [= <-]. cbn [shape].
  split; [reflexivity|]. split; [lia|]. split; [lia|]. split; [lia|].
  reflexivity.
Qed.

(** A convolution returns on a batch or on a single unbatched image, and
    its output has the rank of its input. *)
Lemma Conv2d_forward_inv c x y in_chan out_chan ks st pad :
  conv_cfg c in_chan out_chan ks st pad ->
  Conv2d_forward c x = inr y ->
  exists batch H W,
    shape x = batch ++ [in_chan; H; W] /\ (length batch <= 1)%nat /\
    1 <= st /\ ks <= H + 2 * pad /\ ks <= W + 2 * pad /\
    shape y = batch ++ [out_chan; conv_out H ks st pad; conv_out W ks st pad].
Proof.
  intros Hcfg. unfold Conv2d_forward.
  destruct (shape x) as [|a [|b0 [|c0 [|d [|? ?]]]]]; try discriminate.
  - intros E.
    destruct (conv2d_sized_inv _ _ _ _ _ _ _ _ _ _ _ _ Hcfg E)
      as (-> & H1 & H2 & H3 & H4).
    exists [], b0, c0. simpl length. auto 10.
  - intros E.
    destruct (conv2d_sized_inv _ _ _ _ _ _ _ _ _ _ _ _ Hcfg E)
      as (-> & H1 & H2 & H3 & H4).
    exists [a], c0, d. simpl length. auto 10.
Qed.

(** A block returns only on a batch of maps with its number of input
    channels whose reduced maps hold more than one value per channel. *)
Lemma block_forward_inv b in_chan out_chan st x y :
  block_cfg in_chan out_chan st b ->
  BasicBlockPreAct.forward b x = inr y ->
  exists N H W,
    shape x = [N; in_chan; H; W] /\ 1 <= H /\ 1 <= W /\ 1 <= st /\
    several_values N (down H st) (down W st) /\
    shape y = [N; out_chan; down H st; down W st].
Proof.
  intros Hcfg Hf. pose proof Hcfg as (Hbn1 & Hc1 & Hbn2 & Hc2 & Hd).
  pose proof Hf as Hf0.
  unfold BasicBlockPreAct.forward in Hf.
  apply R_bind_inr in Hf as (bn1 & E1 & Hf).
  apply R_bind_inr in Hf as (act1 & E2 & Hf).
  apply R_bind_inr in Hf as (r1 & E3 & Hf).
  apply R_bind_inr in Hf as (r2 & E4 & _).
  apply BatchNorm2d_forward_inv in E1 as (N & H & W & Hx & Hv & S1).
  rewrite Hbn1 in Hx, S1.
  injection E2 as <-.
  destruct (Conv2d_forward_inv _ _ _ _ _ _ _ _ Hc1 E3)
    as (batch & H' & W' & Sa & Lb & Hst & HH & HW & S3).
  cbn [shape] in Sa. rewrite S1 in Sa.
  destruct batch as [|n0 [|? ?]];
    [apply (f_equal (@length Z)) in Sa; discriminate Sa
    | | simpl in Lb; lia].
  injection Sa as Sn SH SW. subst n0 H' W'.
  apply BatchNorm2d_forward_inv in E4 as (N2 & H2 & W2 & S4 & Hv2 & _).
  rewrite S3 in S4. cbn [app] in S4. injection S4 as SN _ SH SW.
  subst N2 H2 W2. rewrite !conv_out_3 in Hv2.
  exists N, H, W. split; [exact Hx|]. split; [lia|]. split; [lia|].
  split; [lia|]. split; [exact Hv2|].
  erewrite block_forward_ok in Hf0;
    [|exact Hcfg|exact Hx|lia|lia|lia|exact Hv2].
  injection Hf0 as <-. reflexivity.
Qed.

Lemma rest_forward_inv layers c N H W :
  Forall (block_cfg c c 1) layers ->
  forall x y, shape x = [N; c; H; W] ->
  Sequential_forward layers x = inr y -> shape y = [N; c; H; W].
Proof.
  induction 1 as [|b layers Hb Hl IH]; intros x y Hx Hf.
  - injection Hf as <-. exact Hx.
  - simpl in Hf. apply R_bind_inr in Hf as (z & Ez & Hf).
    destruct (block_forward_inv _ _ _ _ _ _ Hb Ez)
      as (N' & H' & W' & Hx' & _ & _ & _ & _ & Sz).
    rewrite Hx in Hx'. injection Hx' as SN SH SW. subst N' H' W'.
    rewrite !down_1 in Sz. eapply IH; eassumption.
Qed.

Lemma stage_forward_inv layers in_chan out_chan st x y :
  stage_cfg in_chan out_chan st layers ->
  Sequential_forward layers x = inr y ->
  exists N H W,
    shape x = [N; in_chan; H; W] /\ 1 <= H /\ 1 <= W /\ 1 <= st /\
    several_values N (down H st) (down W st) /\
    shape y = [N; out_chan; down H st; down W st].
Proof.
  intros (first & rest & -> & Hfi & Hr) Hf.
  simpl in Hf. apply R_bind_inr in Hf as (z & Ez & Hf).
  destruct (block_forward_inv _ _ _ _ _ _ Hfi Ez)
    as (N & H & W & Hx & HH & HW & Hst & Hv & Sz).
  exists N, H, W. split; [exact Hx|]. split; [exact HH|]. split; [exact HW|].
  split; [exact Hst|]. split; [exact Hv|].
  eapply rest_forward_inv; eassumption.
Qed.

(** The backbone returns only on a batch of 3-channel images whose final
    feature maps hold more than one value per channel. *)
Lemma backbone_forward_inv b k x feat2 feat4 :
  backbone_cfg k b ->
  WideResnetBackbone.forward b x = inr (feat2, feat4) ->
  exists N H W,
    shape x = [N; 3; H; W] /\ 1 <= H /\ 1 <= W /\
    several_values N (down (down H 2) 2) (down (down W 2) 2) /\
    shape feat2 = [N; 32 * k; down H 2; down W 2] /\
    shape feat4 = [N; 64 * k; down (down H 2) 2; down (down W 2) 2].
Proof.
  intros (Hc & H1 & H2 & H3 & Hbn) Hf.
  unfold WideResnetBackbone.forward in Hf.
  apply R_bind_inr in Hf as (f0 & E0 & Hf).
  apply R_bind_inr in Hf as (f1 & E1 & Hf).
  apply R_bind_inr in Hf as (f2 & E2 & Hf).
  apply R_bind_inr in Hf as (t4 & E3 & Hf).
  apply R_bind_inr in Hf as (f4 & E4 & Hf).
  apply R_bind_inr in Hf as (f5 & E5 & Hf).
  injection Hf as <- <-. injection E5 as <-. cbn [shape].
  destruct (stage_forward_inv _ _ _ _ _ _ H1 E1)
    as (N & H & W & S0 & HH & HW & _ & _ & S1).
  rewrite !down_1 in S1.
  destruct (Conv2d_forward_inv _ _ _ _ _ _ _ _ Hc E0)
    as (batch & H0 & W0 & Sx & Lb & _ & _ & _ & S0').
  rewrite S0 in S0'. rewrite !conv_out_3, !down_1 in S0'.
  destruct batch as [|n0 [|? ?]];
    [apply (f_equal (@length Z)) in S0'; discriminate S0'
    | | simpl in Lb; lia].
  cbn [app] in S0', Sx. injection S0' as SN SH SW. subst n0 H0 W0.
  destruct (stage_forward_inv _ _ _ _ _ _ H2 E2)
    as (N2 & H2' & W2' & S1' & HH2 & HW2 & _ & _ & S2).
  rewrite S1 in S1'. injection S1' as SN SH SW. subst N2 H2' W2'.
  destruct (stage_forward_inv _ _ _ _ _ _ H3 E3)
    as (N3 & H3' & W3' & S2' & _ & _ & _ & Hv & S3).
  rewrite S2 in S2'. injection S2' as SN SH SW. subst N3 H3' W3'.
  apply BatchNorm2d_forward_inv in E4 as (N4 & H4 & W4 & S3' & _ & S4).
  rewrite S3, Hbn in S3'. rewrite Hbn in S4. rewrite S4, <- S3'.
  exists N, H, W. auto 10.
Qed.

Lemma down_div4 h :
  h mod 4 = 0 -> down h 2 = h / 2 /\ down (down h 2) 2 = h / 4.
Proof.
  intros Hm. unfold down.
  assert (Hq : h = 4 * (h / 4)) by (apply Z_div_exact_full_2; lia).
  set (q := h / 4) in *. clearbody q. subst h.
  assert (E1 : (4 * q - 1) / 2 = 2 * q - 1)
    by (symmetry; apply (Z.div_unique _ _ _ 1); lia).
  assert (E2 : 4 * q / 2 = 2 * q)
    by (symmetry; apply (Z.div_unique _ _ _ 0); lia).
  rewrite E1, E2. split; [lia|].
  replace (2 * q - 1 + 1 - 1) with (2 * q - 1) by lia.
  assert (E3 : (2 * q - 1) / 2 = q - 1)
    by (symmetry; apply (Z.div_unique _ _ _ 1); lia).
  rewrite E3. lia.
Qed.

Lemma backbone_at_flags base k n drop_rate :
  exists first rest,
    WideResnetBackbone.layer1 (backbone_at base k n drop_rate) = first :: rest /\
    BasicBlockPreAct.pre_res_act first = true /\
    Forall (fun blk => BasicBlockPreAct.pre_res_act blk = false)
      (rest ++ WideResnetBackbone.layer2 (backbone_at base k n drop_rate)
       ++ WideResnetBackbone.layer3 (backbone_at base k n drop_rate)).
Proof.
  unfold backbone_at, stage_at. cbv zeta.
  cbn [WideResnetBackbone.layer1 WideResnetBackbone.layer2
       WideResnetBackbone.layer3].
  eexists _, _. split; [reflexivity|]. split; [reflexivity|].
  rewrite !Forall_app. split; [apply rest_at_pre_res_act|].
  split; (constructor; [reflexivity|apply rest_at_pre_res_act]).
Qed.

Lemma filter_flag_nil (l : list BasicBlockPreAct.t) :
  Forall (fun blk => BasicBlockPreAct.pre_res_act blk = false) l ->
  filter (fun blk => BasicBlockPreAct.pre_res_act blk = true) l = [].
Proof.
  induction 1 as [|blk l Hb Hl IH]; [reflexivity|].
  rewrite filter_cons, decide_False by (rewrite Hb; discriminate). exact IH.
Qed.

Lemma div_64k_2 k : 64 * k / 2 = 32 * k.
Proof. symmetry. apply (Z.div_unique _ _ _ 0); lia. Qed.

(** ** Construction of [WideResnetWithEmbeddingHead] *)

Lemma bind_inr_inv {A B} (m : M A) (f : A -> M B) s r :
  bind m f s = inr r -> exists a s1, m s = inr (a, s1) /\ f a s1 = inr r.
Proof.
  unfold bind. destruct (m s) as [e|[a s1]]; [discriminate|]. eauto.
Qed.

(** For [k >= 4] a constructed [WideResnet] has a [Sequential]
    classifier. *)
Lemma WideResnet_init_wide n_classes k n s m s' :
  4 <= k -> WideResnet.__init__ n_classes k n s = inr (m, s') ->
  exists ms, WideResnet.classifier m = Sequential_ ms.
Proof.
  intros Hk H. unfold WideResnet.__init__ in H.
  apply bind_inr_inv in H as (b & s1 & _ & H).
  apply bind_inr_inv in H as (c & s2 & Hc & H).
  injection H as <- _.
  replace (k <? 4) with false in Hc by (symmetry; apply Z.ltb_ge; lia).
  cbv zeta in Hc.
  apply bind_inr_inv in Hc as (l1 & s3 & _ & Hc).
  apply bind_inr_inv in Hc as (l2 & s4 & _ & Hc).
  injection Hc as <- _. eexists. reflexivity.
Qed.

Lemma WideResnetWithEmbeddingHead_init_wide num_classes k n emb_dim s :
  4 <= k ->
  (exists e, WideResnet.__init__ num_classes k n s = inl e /\
             WideResnetWithEmbeddingHead.__init__ num_classes k n emb_dim s
             = inl e) \/
  ((exists m s', WideResnet.__init__ num_classes k n s = inr (m, s')) /\
   WideResnetWithEmbeddingHead.__init__ num_classes k n emb_dim s
   = inl (AttributeError
            ["'Sequential' object has no attribute 'in_features'"%string])).
Proof.
  intros Hk. unfold WideResnetWithEmbeddingHead.__init__.
  destruct (WideResnet.__init__ num_classes k n s) as [e|[m s']] eqn:E.
  - left. exists e. split; [reflexivity|]. apply bind_inl. exact E.
  - right. split; [eauto|].
    erewrite bind_inr by exact E.
    destruct (WideResnet_init_wide _ _ _ _ _ _ Hk E) as (ms & Hms).
    apply bind_inl. rewrite Hms. reflexivity.
Qed.

Lemma WideResnetWithEmbeddingHead_init_ok num_classes k n emb_dim s :
  (n - 4) mod 6 = 0 -> 0 < k < 4 -> 0 <= num_classes -> 0 <= emb_dim ->
  exists s1,
    WideResnet.__init__ num_classes k n s
    = inr ({| WideResnet.n_layers := n; WideResnet.k := k;
              WideResnet.backbone := backbone_at (length s) k n 0;
              WideResnet.classifier :=
                Linear_ (mk_linear (length s1) (64 * k) num_classes) |},
           s1 ++ linear_params (64 * k) num_classes) /\
    WideResnetWithEmbeddingHead.__init__ num_classes k n emb_dim s
    = inr ({| WideResnetWithEmbeddingHead.model_base :=
                {| WideResnet.n_layers := n; WideResnet.k := k;
                   WideResnet.backbone := backbone_at (length s) k n 0;
                   WideResnet.classifier := Identity_ |};
              WideResnetWithEmbeddingHead.k := k;
              WideResnetWithEmbeddingHead.num_ftrs := 64 * k;
              WideResnetWithEmbeddingHead.fc_classes :=
                Linear_ (mk_linear (length s1 + 2) (64 * k) num_classes);
              WideResnetWithEmbeddingHead.fc_emb :=
                fc_emb_at (length s1 + 4) (64 * k) emb_dim |},
           s1 ++ linear_params (64 * k) num_classes
              ++ linear_params (64 * k) num_classes
              ++ linear_params (64 * k) 2048
              ++ linear_params 2048 emb_dim).
Proof.
  intros Hn Hk Hc He.
  destruct (WideResnet_init_ok num_classes k n s) as (s1 & _ & E & _);
    [assumption|lia|assumption|].
  unfold classifier_at, classifier_params in E.
  replace (k <? 4) with true in E by (symmetry; apply Z.ltb_lt; lia).
  exists s1. split; [exact E|].
  unfold WideResnetWithEmbeddingHead.__init__.
  erewrite bind_inr by exact E.
  erewrite bind_inr by reflexivity.
  cbn [WideResnet.n_layers WideResnet.k WideResnet.backbone
       WideResnet.classifier mk_linear Linear.in_features].
  erewrite bind_inr by (apply Linear_init_eq; lia).
  erewrite bind_inr by (apply Linear_init_eq; lia).
  erewrite bind_inr by (apply Linear_init_eq; lia).
  unfold ret, fc_emb_at. rewrite !length_app. simpl length.
  rewrite <- !app_assoc, <- !Nat.add_assoc. reflexivity.
Qed.

(** ** The embedding-head wrappers *)

Lemma fc_emb_at_forward base num_ftrs emb_dim x N :
  shape x = [N; num_ftrs] ->
  nn_forward (fc_emb_at base num_ftrs emb_dim) x
  = inr {| value := linear
                      (relu (linear (value x) (mk_linear base num_ftrs 2048)))
                      (mk_linear (base + 2) 2048 emb_dim);
           shape := [N; emb_dim] |}.
Proof.
  intros Hx. unfold fc_emb_at. cbn [nn_forward].
  erewrite Linear_forward_eq by (reflexivity || eassumption).
  cbn [R_bind]. unfold ReLU_forward. cbn [R_bind value shape].
  erewrite Linear_forward_eq by reflexivity. reflexivity.
Qed.

Lemma seg_default_linear s base in_f out_f :
  seg s base (linear_params in_f out_f) ->
  Forall (default_only s) (nn_parameters (Linear_ (mk_linear base in_f out_f))).
Proof.
  intros H. simpl. repeat constructor.
  - eexists. split; [rewrite <- (Nat.add_0_r base); apply H; reflexivity|].
    left. reflexivity.
  - eexists. split; [rewrite <- Nat.add_1_r; apply H; reflexivity|].
    right. reflexivity.
Qed.

Lemma seg_mid (pre ps post : list Param) base :
  base = length pre -> seg (pre ++ ps ++ post) base ps.
Proof.
  intros -> i p Hi. rewrite lookup_app_r by lia.
  replace (length pre + i - length pre)%nat with i by lia.
  apply lookup_app_l_Some. assumption.
Qed.

Lemma seg_end (pre ps : list Param) base :
  base = length pre -> seg (pre ++ ps) base ps.
Proof. intros ->. apply seg_here. Qed.

Lemma fc_emb_at_default s base num_ftrs emb_dim :
  seg s base (linear_params num_ftrs 2048) ->
  seg s (base + 2) (linear_params 2048 emb_dim) ->
  Forall (default_only s) (nn_parameters (fc_emb_at base num_ftrs emb_dim)).
Proof.
  intros H1 H2. unfold fc_emb_at.
  change (nn_parameters (Sequential_ ?ms)) with (flat_map nn_parameters ms).
  cbn [flat_map]. rewrite app_nil_l, app_nil_r.
  apply Forall_app. split; apply seg_default_linear; assumption.
Qed.

Section ExternalResNet.

(** The constructor of the external network ([models.resnet50] or
    [models.resnet18]), the outcome of one call of it, and what the
    wrappers rely on: its [fc] is a linear layer. *)
Variable resnet : bool -> M ResNet.t.
Variables (pretrained : bool) (s s1 : Store) (r : ResNet.t) (l : Linear.t).
Hypothesis resnet_returns : resnet pretrained s = inr (r, s1).
Hypothesis fc_linear : ResNet.fc r = Linear_ l.
Hypothesis in_features_nonneg : 0 <= Linear.in_features l.

Variables num_classes emb_dim : Z.
Hypothesis num_classes_nonneg : 0 <= num_classes.
Hypothesis emb_dim_nonneg : 0 <= emb_dim.

Lemma ResNet50WithEmbeddingHead_init_ok :
  ResNet50WithEmbeddingHead.__init__ resnet num_classes emb_dim pretrained s
  = inr ({| ResNet50WithEmbeddingHead.model_resnet :=
              {| ResNet.features := ResNet.features r;
                 ResNet.features_parameters := ResNet.features_parameters r;
                 ResNet.fc := Identity_ |};
            ResNet50WithEmbeddingHead.num_ftrs := Linear.in_features l;
            ResNet50WithEmbeddingHead.fc_classes :=
              Linear_ (mk_linear (length s1) (Linear.in_features l) num_classes);
            ResNet50WithEmbeddingHead.fc_emb :=
              Linear_ (mk_linear (length s1 + 2) (Linear.in_features l) emb_dim) |},
         s1 ++ linear_params (Linear.in_features l) num_classes
            ++ linear_params (Linear.in_features l) emb_dim).
Proof.
  unfold ResNet50WithEmbeddingHead.__init__.
  erewrite bind_inr by exact resnet_returns.
  erewrite bind_inr by (rewrite fc_linear; reflexivity).
  erewrite bind_inr by (apply Linear_init_eq; lia).
  erewrite bind_inr by (apply Linear_init_eq; lia).
  unfold ret. rewrite !length_app. simpl length.
  rewrite <- !app_assoc. reflexivity.
Qed.

Lemma ResNet18WithEmbeddingHead_init_ok :
  ResNet18WithEmbeddingHead.__init__ resnet num_classes emb_dim pretrained s
  = inr ({| ResNet18WithEmbeddingHead.model_resnet :=
              {| ResNet.features := ResNet.features r;
                 ResNet.features_parameters := ResNet.features_parameters r;
                 ResNet.fc := Identity_ |};
            ResNet18WithEmbeddingHead.num_ftrs := Linear.in_features l;
            ResNet18WithEmbeddingHead.fc_classes :=
              Linear_ (mk_linear (length s1) (Linear.in_features l) num_classes);
            ResNet18WithEmbeddingHead.fc_emb :=
              fc_emb_at (length s1 + 2) (Linear.in_features l) emb_dim |},
         s1 ++ linear_params (Linear.in_features l) num_classes
            ++ linear_params (Linear.in_features l) 2048
            ++ linear_params 2048 emb_dim).
Proof.
  unfold ResNet18WithEmbeddingHead.__init__.
  erewrite bind_inr by exact resnet_returns.
  erewrite bind_inr by (rewrite fc_linear; reflexivity).
  erewrite bind_inr by (apply Linear_init_eq; lia).
  erewrite bind_inr by (apply Linear_init_eq; lia).
  erewrite bind_inr by (apply Linear_init_eq; lia).
  unfold ret, fc_emb_at. rewrite !length_app. simpl length.
  rewrite <- !app_assoc, <- !Nat.add_assoc. reflexivity.
Qed.

Lemma ResNet50WithEmbeddingHead_head_ok :
  exists m s',
    ResNet50WithEmbeddingHead.__init__ resnet num_classes emb_dim pretrained s
    = inr (m, s') /\
    head_ok (ResNet50WithEmbeddingHead.fc_classes m)
      (ResNet50WithEmbeddingHead.num_ftrs m).
Proof.
  eexists _, _. split; [apply ResNet50WithEmbeddingHead_init_ok|].
  eexists. split; [reflexivity|]. split; [reflexivity|assumption].
Qed.

Lemma ResNet18WithEmbeddingHead_head_ok :
  exists m s',
    ResNet18WithEmbeddingHead.__init__ resnet num_classes emb_dim pretrained s
    = inr (m, s') /\
    head_ok (ResNet18WithEmbeddingHead.fc_classes m)
      (ResNet18WithEmbeddingHead.num_ftrs m).
Proof.
  eexists _, _. split; [apply ResNet18WithEmbeddingHead_init_ok|].
  eexists. split; [reflexivity|]. split; [reflexivity|assumption].
Qed.

(** The heads are created after everything else and nothing writes to
    their parameters. *)
Lemma ResNet50WithEmbeddingHead_heads_default :
  exists m s',
    ResNet50WithEmbeddingHead.__init__ resnet num_classes emb_dim pretrained s
    = inr (m, s') /\
    Forall (default_only s')
      (nn_parameters (ResNet50WithEmbeddingHead.fc_classes m)
       ++ nn_parameters (ResNet50WithEmbeddingHead.fc_emb m)).
Proof.
  eexists _, _. split; [apply ResNet50WithEmbeddingHead_init_ok|].
  cbn [ResNet50WithEmbeddingHead.fc_classes ResNet50WithEmbeddingHead.fc_emb].
  apply Forall_app. split; apply seg_default_linear.
  - apply seg_mid. reflexivity.
  - rewrite app_assoc. apply seg_end. rewrite length_app. reflexivity.
Qed.

Lemma ResNet18WithEmbeddingHead_heads_default :
  exists m s',
    ResNet18WithEmbeddingHead.__init__ resnet num_classes emb_dim pretrained s
    = inr (m, s') /\
    Forall (default_only s')
      (nn_parameters (ResNet18WithEmbeddingHead.fc_classes m)
       ++ nn_parameters (ResNet18WithEmbeddingHead.fc_emb m)).
Proof.
  eexists _, _. split; [apply ResNet18WithEmbeddingHead_init_ok|].
  cbn [ResNet18WithEmbeddingHead.fc_classes ResNet18WithEmbeddingHead.fc_emb].
  apply Forall_app. split.
  - apply seg_default_linear. apply seg_mid. reflexivity.
  - apply fc_emb_at_default.
    + rewrite app_assoc. apply seg_mid. rewrite length_app. reflexivity.
    + rewrite app_assoc, (app_assoc (s1 ++ _)). apply seg_end.
      rewrite !length_app. simpl. lia.
Qed.

End ExternalResNet.

Lemma WideResnetWithEmbeddingHead_head_ok num_classes k n emb_dim s :
  (n - 4) mod 6 = 0 -> 0 < k < 4 -> 0 <= num_classes -> 0 <= emb_dim ->
  exists m s',
    WideResnetWithEmbeddingHead.__init__ num_classes k n emb_dim s
    = inr (m, s') /\
    head_ok (WideResnetWithEmbeddingHead.fc_classes m)
      (WideResnetWithEmbeddingHead.num_ftrs m).
Proof.
  intros Hn Hk Hc He.
  destruct (WideResnetWithEmbeddingHead_init_ok num_classes k n emb_dim s)
    as (s1 & _ & E); try assumption.
  eexists _, _. split; [exact E|].
  eexists. split; [reflexivity|]. split; [reflexivity|simpl; lia].
Qed.

Lemma WideResnetWithEmbeddingHead_heads_default num_classes k n emb_dim s :
  (n - 4) mod 6 = 0 -> 0 < k < 4 -> 0 <= num_classes -> 0 <= emb_dim ->
  exists m s',
    WideResnetWithEmbeddingHead.__init__ num_classes k n emb_dim s
    = inr (m, s') /\
    Forall (default_only s')
      (nn_parameters (WideResnetWithEmbeddingHead.fc_classes m)
       ++ nn_parameters (WideResnetWithEmbeddingHead.fc_emb m)).
Proof.
  intros Hn Hk Hc He.
  destruct (WideResnetWithEmbeddingHead_init_ok num_classes k n emb_dim s)
    as (s1 & _ & E); try assumption.
  eexists _, _. split; [exact E|].
  cbn [WideResnetWithEmbeddingHead.fc_classes
       WideResnetWithEmbeddingHead.fc_emb].
  apply Forall_app. split.
  - apply seg_default_linear.
    rewrite (app_assoc s1). apply seg_mid. rewrite length_app. reflexivity.
  - apply fc_emb_at_default.
    + rewrite (app_assoc s1), (app_assoc (s1 ++ _)). apply seg_mid.
      rewrite !length_app. simpl. lia.
    + rewrite (app_assoc s1), (app_assoc (s1 ++ _)),
        (app_assoc ((s1 ++ _) ++ _)).
      apply seg_end. rewrite !length_app. simpl. lia.
Qed.

(** ** [adapt] replaces the class-logit head only *)

Lemma store_extends_app (s ps : Store) : store_extends s (s ++ ps).
Proof.
  intros l p H. rewrite lookup_app_l; [assumption|].
  eapply lookup_lt_Some; eassumption.
Qed.

Lemma linear_shape_out sz in_f out_f out_f' r :
  linear_shape sz in_f out_f = Some r ->
  exists r', linear_shape sz in_f out_f' = Some r'.
Proof.
  revert r. induction sz as [|d sz IH]; intros r; [discriminate|].
  destruct sz as [|d' sz].
  - simpl. destruct (d =? in_f); [eauto|discriminate].
  - change (linear_shape (d :: d' :: sz) in_f out_f)
      with (option_map (cons d) (linear_shape (d' :: sz) in_f out_f)).
    change (linear_shape (d :: d' :: sz) in_f out_f')
      with (option_map (cons d) (linear_shape (d' :: sz) in_f out_f')).
    destruct (linear_shape (d' :: sz) in_f out_f) as [r0|]; [|discriminate].
    intros _. destruct (IH r0 eq_refl) as (r' & ->). simpl. eauto.
Qed.

(** A linear layer with the same input dimension accepts the same
    inputs. *)
Lemma Linear_forward_change l0 l f y :
  Linear.in_features l = Linear.in_features l0 ->
  Linear_forward l0 f = inr y ->
  exists y', Linear_forward l f = inr y' /\
             (forall N, shape f = [N; Linear.in_features l] ->
                        shape y' = [N; Linear.out_features l]).
Proof.
  intros Hin H. unfold Linear_forward in *.
  destruct (linear_shape (shape f) (Linear.in_features l0)
              (Linear.out_features l0)) as [r|] eqn:E; [|discriminate].
  destruct (linear_shape_out _ _ _ (Linear.out_features l) _ E) as (r' & E').
  rewrite Hin, E'. eexists. split; [reflexivity|].
  intros N HN. rewrite HN, <- Hin in E'. simpl in E'.
  rewrite Z.eqb_refl in E'. injection E' as <-. reflexivity.
Qed.

Lemma fresh_mk_linear (s : Store) in_f out_f :
  fresh_linear s (mk_linear (length s) in_f out_f).
Proof. split; reflexivity. Qed.

Ltac adapt_forward Hin Hfwd :=
  let f := fresh "f" in
  let o1 := fresh "o" in
  let o2 := fresh "o" in
  let Ef := fresh "Ef" in
  let E1 := fresh "E" in
  let E2 := fresh "E" in
  let y' := fresh "y" in
  let Ey := fresh "Ey" in
  let Hy := fresh "Hy" in
  apply R_bind_inr in Hfwd as (f & Ef & Hfwd);
  apply R_bind_inr in Hfwd as (o1 & E1 & Hfwd);
  apply R_bind_inr in Hfwd as (o2 & E2 & Hfwd);
  injection Hfwd as <- <- <-;
  rewrite Ef; cbn [R_bind];
  match type of E1 with
  | nn_forward (Linear_ ?l0) _ = _ =>
      edestruct (Linear_forward_change l0) as (y' & Ey & Hy);
      [ | exact E1 | ]
  end;
  [ | cbn [nn_forward]; rewrite Ey; cbn [R_bind]; rewrite E2; cbn [R_bind];
      eexists; split; [reflexivity | exact Hy] ];
  cbn [mk_linear Linear.in_features]; symmetry; exact Hin.

Lemma ResNet50WithEmbeddingHead_adapt_ok m num_classes s :
  head_ok (ResNet50WithEmbeddingHead.fc_classes m) (ResNet50WithEmbeddingHead.num_ftrs m) -> 0 <= num_classes ->
  exists m' s' l,
    ResNet50WithEmbeddingHead.adapt m num_classes s = inr (m', s') /\
    ResNet50WithEmbeddingHead.fc_classes m' = Linear_ l /\
    Linear.in_features l = ResNet50WithEmbeddingHead.num_ftrs m /\
    Linear.out_features l = num_classes /\
    fresh_linear s l /\ store_extends s s' /\
    ResNet50WithEmbeddingHead.model_resnet m' = ResNet50WithEmbeddingHead.model_resnet m /\
    ResNet50WithEmbeddingHead.fc_emb m' = ResNet50WithEmbeddingHead.fc_emb m /\
    ResNet50WithEmbeddingHead.num_ftrs m' = ResNet50WithEmbeddingHead.num_ftrs m /\
    head_ok (ResNet50WithEmbeddingHead.fc_classes m') (ResNet50WithEmbeddingHead.num_ftrs m') /\
    (forall x logits embedding pooled,
       ResNet50WithEmbeddingHead.forward m x = inr (logits, embedding, pooled) ->
       exists logits',
         ResNet50WithEmbeddingHead.forward m' x = inr (logits', embedding, pooled) /\
         (forall N,
            shape pooled = [N; ResNet50WithEmbeddingHead.num_ftrs m] ->
            shape logits' = [N; num_classes])).
Proof.
  intros (l0 & Hfc & Hin & Hf) Hc. unfold ResNet50WithEmbeddingHead.adapt.
  erewrite bind_inr by (apply Linear_init_eq; lia).
  eexists _, _, _. split; [reflexivity|].
  cbn [ResNet50WithEmbeddingHead.fc_classes ResNet50WithEmbeddingHead.fc_emb ResNet50WithEmbeddingHead.model_resnet ResNet50WithEmbeddingHead.num_ftrs].
  split; [reflexivity|]. split; [reflexivity|]. split; [reflexivity|].
  split; [apply fresh_mk_linear|]. split; [apply store_extends_app|].
  split; [reflexivity|]. split; [reflexivity|]. split; [reflexivity|].
  split; [eexists; split; [reflexivity|]; split; [reflexivity|assumption]|].
  intros x logits embedding pooled Hfwd.
  unfold ResNet50WithEmbeddingHead.forward in *.
  cbn [ResNet50WithEmbeddingHead.fc_classes ResNet50WithEmbeddingHead.fc_emb ResNet50WithEmbeddingHead.model_resnet ResNet50WithEmbeddingHead.num_ftrs].
  rewrite Hfc in Hfwd.
  adapt_forward Hin Hfwd.
Qed.

Lemma ResNet18WithEmbeddingHead_adapt_ok m num_classes s :
  head_ok (ResNet18WithEmbeddingHead.fc_classes m) (ResNet18WithEmbeddingHead.num_ftrs m) -> 0 <= num_classes ->
  exists m' s' l,
    ResNet18WithEmbeddingHead.adapt m num_classes s = inr (m', s') /\
    ResNet18WithEmbeddingHead.fc_classes m' = Linear_ l /\
    Linear.in_features l = ResNet18WithEmbeddingHead.num_ftrs m /\
    Linear.out_features l = num_classes /\
    fresh_linear s l /\ store_extends s s' /\
    ResNet18WithEmbeddingHead.model_resnet m' = ResNet18WithEmbeddingHead.model_resnet m /\
    ResNet18WithEmbeddingHead.fc_emb m' = ResNet18WithEmbeddingHead.fc_emb m /\
    ResNet18WithEmbeddingHead.num_ftrs m' = ResNet18WithEmbeddingHead.num_ftrs m /\
    head_ok (ResNet18WithEmbeddingHead.fc_classes m') (ResNet18WithEmbeddingHead.num_ftrs m') /\
    (forall x logits embedding pooled,
       ResNet18WithEmbeddingHead.forward m x = inr (logits, embedding, pooled) ->
       exists logits',
         ResNet18WithEmbeddingHead.forward m' x = inr (logits', embedding, pooled) /\
         (forall N,
            shape pooled = [N; ResNet18WithEmbeddingHead.num_ftrs m] ->
            shape logits' = [N; num_classes])).
Proof.
  intros (l0 & Hfc & Hin & Hf) Hc. unfold ResNet18WithEmbeddingHead.adapt.
  erewrite bind_inr by (apply Linear_init_eq; lia).
  eexists _, _, _. split; [reflexivity|].
  cbn [ResNet18WithEmbeddingHead.fc_classes ResNet18WithEmbeddingHead.fc_emb ResNet18WithEmbeddingHead.model_resnet ResNet18WithEmbeddingHead.num_ftrs].
  split; [reflexivity|]. split; [reflexivity|]. split; [reflexivity|].
  split; [apply fresh_mk_linear|]. split; [apply store_extends_app|].
  split; [reflexivity|]. split; [reflexivity|]. split; [reflexivity|].
  split; [eexists; split; [reflexivity|]; split; [reflexivity|assumption]|].
  intros x logits embedding pooled Hfwd.
  unfold ResNet18WithEmbeddingHead.forward in *.
  cbn [ResNet18WithEmbeddingHead.fc_classes ResNet18WithEmbeddingHead.fc_emb ResNet18WithEmbeddingHead.model_resnet ResNet18WithEmbeddingHead.num_ftrs].
  rewrite Hfc in Hfwd.
  adapt_forward Hin Hfwd.
Qed.

Lemma WideResnetWithEmbeddingHead_adapt_ok m num_classes s :
  head_ok (WideResnetWithEmbeddingHead.fc_classes m) (WideResnetWithEmbeddingHead.num_ftrs m) -> 0 <= num_classes ->
  exists m' s' l,
    WideResnetWithEmbeddingHead.adapt m num_classes s = inr (m', s') /\
    WideResnetWithEmbeddingHead.fc_classes m' = Linear_ l /\
    Linear.in_features l = WideResnetWithEmbeddingHead.num_ftrs m /\
    Linear.out_features l = num_classes /\
    fresh_linear s l /\ store_extends s s' /\
    WideResnetWithEmbeddingHead.model_base m' = WideResnetWithEmbeddingHead.model_base m /\
    WideResnetWithEmbeddingHead.fc_emb m' = WideResnetWithEmbeddingHead.fc_emb m /\
    WideResnetWithEmbeddingHead.num_ftrs m' = WideResnetWithEmbeddingHead.num_ftrs m /\
    WideResnetWithEmbeddingHead.k m' = WideResnetWithEmbeddingHead.k m /\
    head_ok (WideResnetWithEmbeddingHead.fc_classes m') (WideResnetWithEmbeddingHead.num_ftrs m') /\
    (forall x logits embedding pooled,
       WideResnetWithEmbeddingHead.forward m x = inr (logits, embedding, pooled) ->
       exists logits',
         WideResnetWithEmbeddingHead.forward m' x = inr (logits', embedding, pooled) /\
         (forall N,
            shape pooled = [N; WideResnetWithEmbeddingHead.num_ftrs m] ->
            shape logits' = [N; num_classes])).
Proof.
  intros (l0 & Hfc & Hin & Hf) Hc. unfold WideResnetWithEmbeddingHead.adapt.
  erewrite bind_inr by (apply Linear_init_eq; lia).
  eexists _, _, _. split; [reflexivity|].
  cbn [WideResnetWithEmbeddingHead.fc_classes WideResnetWithEmbeddingHead.fc_emb WideResnetWithEmbeddingHead.model_base WideResnetWithEmbeddingHead.num_ftrs].
  split; [reflexivity|]. split; [reflexivity|]. split; [reflexivity|].
  split; [apply fresh_mk_linear|]. split; [apply store_extends_app|].
  split; [reflexivity|]. split; [reflexivity|]. split; [reflexivity|].
  split; [reflexivity|].
  split; [eexists; split; [reflexivity|]; split; [reflexivity|assumption]|].
  intros x logits embedding pooled Hfwd.
  unfold WideResnetWithEmbeddingHead.forward in *.
  cbn [WideResnetWithEmbeddingHead.fc_classes WideResnetWithEmbeddingHead.fc_emb WideResnetWithEmbeddingHead.model_base WideResnetWithEmbeddingHead.num_ftrs].
  rewrite Hfc in Hfwd.
  adapt_forward Hin Hfwd.
Qed.

(** ** The modules of the blocks are modules of the backbone *)

Lemma In_Sequential_modules blk layers m :
  In blk layers -> In m (BasicBlockPreAct.modules blk) ->
  In m (Sequential_modules layers).
Proof.
  intros Hb Hm. unfold Sequential_modules. right.
  apply in_flat_map. eauto.
Qed.

Lemma In_backbone_modules b blk m :
  In blk (WideResnetBackbone.layer1 b ++ WideResnetBackbone.layer2 b
          ++ WideResnetBackbone.layer3 b) ->
  In m (BasicBlockPreAct.modules blk) ->
  In m (WideResnetBackbone.modules b).
Proof.
  intros Hb Hm. unfold WideResnetBackbone.modules.
  rewrite !in_app_iff in Hb. rewrite !in_app_iff.
  destruct Hb as [Hb|[Hb|Hb]];
    pose proof (In_Sequential_modules _ _ _ Hb Hm); tauto.
Qed.

(** * The properties *)

(** ** C1: the depth check *)

(** C1, as stated, fails: at depth 15 construction is refused, but the
    error is the bare [AssertionError] of an [assert] without a message, so
    it carries no description. *)
Lemma C1_counterexample :
  exists e, WideResnetBackbone.__init__ 1 15 0 [] = inl e /\ ~ descriptive e.
Proof.
  exists (AssertionError []). split; [reflexivity|].
  unfold descriptive. simpl. intros H. apply H. reflexivity.
Qed.

(** C1 (amended): constructing [WideResnetBackbone], and hence
    [WideResnet], with a depth [n] such that [(n - 4) mod 6 <> 0] fails
    with an [AssertionError] that carries no message, whatever the other
    arguments are, so before any layer is built; for a positive width
    multiplier (and a drop rate within [0, 1], a non-negative number of
    classes) construction succeeds for every depth with
    [(n - 4) mod 6 = 0]. *)
Theorem C1_depth_check (k n n_classes : Z) (drop_rate : Q) (s : Store) :
  ((n - 4) mod 6 <> 0 ->
   WideResnetBackbone.__init__ k n drop_rate s = inl (AssertionError []) /\
   WideResnet.__init__ n_classes k n s = inl (AssertionError [])) /\
  ((n - 4) mod 6 = 0 -> 0 < k ->
   (0 <= drop_rate)%Q -> (drop_rate <= 1)%Q -> 0 <= n_classes ->
   (exists b s', WideResnetBackbone.__init__ k n drop_rate s = inr (b, s')) /\
   (exists m s', WideResnet.__init__ n_classes k n s = inr (m, s'))).
Proof.
  split.
  - intros Hn. split.
    + apply backbone_init_fail. assumption.
    + unfold WideResnet.__init__. apply bind_inl.
      apply backbone_init_fail. assumption.
  - intros Hn Hk Hd0 Hd1 Hc. split.
    + destruct (backbone_init_ok k n drop_rate s) as (s' & E & _); try assumption.
      eauto.
    + destruct (WideResnet_init_ok n_classes k n s) as (s1 & _ & E & _);
        try assumption.
      eauto.
Qed.

Lemma C1_depth_check_witness :
  (WideResnetBackbone.__init__ 1 15 0 [] = inl (AssertionError []) /\
   WideResnet.__init__ 10 1 15 [] = inl (AssertionError [])) /\
  ((exists b s', WideResnetBackbone.__init__ 1 28 0 [] = inr (b, s')) /\
   (exists m s', WideResnet.__init__ 10 1 28 [] = inr (m, s'))).
Proof.
  split.
  - apply (proj1 (C1_depth_check 1 15 10 0 [])). vm_compute. discriminate.
  - apply (proj2 (C1_depth_check 1 28 10 0 [])).
    + reflexivity.
    + lia.
    + apply Qle_0_0.
    + apply Qle_0_1.
    + lia.
Defined.

(** ** C2: the topology of the backbone *)

(** C2, as stated, fails: depth 4 passes the depth check and gives
    [(4 - 4) / 6 = 0], yet every stage has one block. *)
Lemma C2_counterexample :
  exists b s,
    WideResnetBackbone.__init__ 1 4 0 [] = inr (b, s) /\
    Z.of_nat (length (WideResnetBackbone.layer1 b)) <> (4 - 4) / 6.
Proof.
  eexists _, _. split; [vm_compute; reflexivity|].
  vm_compute. discriminate.
Qed.

(** C2 (amended): for every valid depth [n] and positive width multiplier
    [k], the backbone is built from the base widths 16, 16k, 32k, 64k; the
    first stage has stride 1, stages 2 and 3 have stride 2; in each stage
    only the first block carries the stride of the stage and changes the
    channel count, every later block has stride 1; each stage has
    [max 1 ((n - 4) / 6)] blocks, which is [(n - 4) / 6] from depth 10
    on. *)
Theorem C2_backbone_topology (k n : Z) (drop_rate : Q) (s : Store) :
  (n - 4) mod 6 = 0 -> 0 < k ->
  (0 <= drop_rate)%Q -> (drop_rate <= 1)%Q ->
  exists b s',
    WideResnetBackbone.__init__ k n drop_rate s = inr (b, s') /\
    WideResnetBackbone.n_layers k = [16; 16 * k; 32 * k; 64 * k] /\
    backbone_cfg k b /\
    length (WideResnetBackbone.layer1 b) = blocks_per_stage n /\
    length (WideResnetBackbone.layer2 b) = blocks_per_stage n /\
    length (WideResnetBackbone.layer3 b) = blocks_per_stage n /\
    (10 <= n -> Z.of_nat (blocks_per_stage n) = (n - 4) / 6).
Proof.
  intros Hn Hk Hd0 Hd1.
  destruct (backbone_init_ok k n drop_rate s) as (s' & E & _); try assumption.
  eexists _, _. split; [exact E|].
  split; [apply n_layers_eq|].
  split; [apply backbone_at_cfg|].
  unfold backbone_at, blocks_per_stage. cbv zeta.
  cbn [WideResnetBackbone.layer1 WideResnetBackbone.layer2
       WideResnetBackbone.layer3].
  rewrite !length_stage_at.
  repeat split.
  intros Hge. assert (1 <= (n - 4) / 6) by (apply Z.div_le_lower_bound; lia).
  lia.
Qed.

Lemma C2_backbone_topology_witness :
  exists b s',
    WideResnetBackbone.__init__ 2 28 0 [] = inr (b, s') /\
    WideResnetBackbone.n_layers 2 = [16; 16 * 2; 32 * 2; 64 * 2] /\
    backbone_cfg 2 b /\
    length (WideResnetBackbone.layer1 b) = blocks_per_stage 28 /\
    length (WideResnetBackbone.layer2 b) = blocks_per_stage 28 /\
    length (WideResnetBackbone.layer3 b) = blocks_per_stage 28 /\
    (10 <= 28 -> Z.of_nat (blocks_per_stage 28) = (28 - 4) / 6).
Proof.
  apply (C2_backbone_topology 2 28 0 []).
  - reflexivity.
  - lia.
  - apply Qle_0_0.
  - apply Qle_0_1.
Defined.

(** ** C3: [adapt] *)

(** C3: for each of the three embedding-head models, in the state in which
    construction leaves it (the class-logit head is a linear layer on
    [num_ftrs] features) and which [adapt] preserves, [adapt(num_classes)]
    replaces only that head: the new one is a freshly allocated linear
    layer from [num_ftrs] features to [num_classes] classes; the feature
    extractor, the embedding head and [num_ftrs] are the ones of before,
    every parameter already in the store is untouched, and a forward pass
    returns the same embedding and the same pooled features as before,
    with logits of the new size. *)
Theorem C3_adapt_frame :
  (forall (m : ResNet50WithEmbeddingHead.t) (num_classes : Z) (s : Store),
     head_ok (ResNet50WithEmbeddingHead.fc_classes m) (ResNet50WithEmbeddingHead.num_ftrs m) -> 0 <= num_classes ->
     exists m' s' l,
       ResNet50WithEmbeddingHead.adapt m num_classes s = inr (m', s') /\
       ResNet50WithEmbeddingHead.fc_classes m' = Linear_ l /\
       Linear.in_features l = ResNet50WithEmbeddingHead.num_ftrs m /\
       Linear.out_features l = num_classes /\
       fresh_linear s l /\ store_extends s s' /\
       ResNet50WithEmbeddingHead.model_resnet m' = ResNet50WithEmbeddingHead.model_resnet m /\
       ResNet50WithEmbeddingHead.fc_emb m' = ResNet50WithEmbeddingHead.fc_emb m /\
       ResNet50WithEmbeddingHead.num_ftrs m' = ResNet50WithEmbeddingHead.num_ftrs m /\
       head_ok (ResNet50WithEmbeddingHead.fc_classes m') (ResNet50WithEmbeddingHead.num_ftrs m') /\
       (forall x logits embedding pooled,
          ResNet50WithEmbeddingHead.forward m x = inr (logits, embedding, pooled) ->
          exists logits',
            ResNet50WithEmbeddingHead.forward m' x = inr (logits', embedding, pooled) /\
            (forall N,
               shape pooled = [N; ResNet50WithEmbeddingHead.num_ftrs m] ->
               shape logits' = [N; num_classes]))) /\
  (forall (m : ResNet18WithEmbeddingHead.t) (num_classes : Z) (s : Store),
     head_ok (ResNet18WithEmbeddingHead.fc_classes m) (ResNet18WithEmbeddingHead.num_ftrs m) -> 0 <= num_classes ->
     exists m' s' l,
       ResNet18WithEmbeddingHead.adapt m num_classes s = inr (m', s') /\
       ResNet18WithEmbeddingHead.fc_classes m' = Linear_ l /\
       Linear.in_features l = ResNet18WithEmbeddingHead.num_ftrs m /\
       Linear.out_features l = num_classes /\
       fresh_linear s l /\ store_extends s s' /\
       ResNet18WithEmbeddingHead.model_resnet m' = ResNet18WithEmbeddingHead.model_resnet m /\
       ResNet18WithEmbeddingHead.fc_emb m' = ResNet18WithEmbeddingHead.fc_emb m /\
       ResNet18WithEmbeddingHead.num_ftrs m' = ResNet18WithEmbeddingHead.num_ftrs m /\
       head_ok (ResNet18WithEmbeddingHead.fc_classes m') (ResNet18WithEmbeddingHead.num_ftrs m') /\
       (forall x logits embedding pooled,
          ResNet18WithEmbeddingHead.forward m x = inr (logits, embedding, pooled) ->
          exists logits',
            ResNet18WithEmbeddingHead.forward m' x = inr (logits', embedding, pooled) /\
            (forall N,
               shape pooled = [N; ResNet18WithEmbeddingHead.num_ftrs m] ->
               shape logits' = [N; num_classes]))) /\
  (forall (m : WideResnetWithEmbeddingHead.t) (num_classes : Z) (s : Store),
     head_ok (WideResnetWithEmbeddingHead.fc_classes m) (WideResnetWithEmbeddingHead.num_ftrs m) -> 0 <= num_classes ->
     exists m' s' l,
       WideResnetWithEmbeddingHead.adapt m num_classes s = inr (m', s') /\
       WideResnetWithEmbeddingHead.fc_classes m' = Linear_ l /\
       Linear.in_features l = WideResnetWithEmbeddingHead.num_ftrs m /\
       Linear.out_features l = num_classes /\
       fresh_linear s l /\ store_extends s s' /\
       WideResnetWithEmbeddingHead.model_base m' = WideResnetWithEmbeddingHead.model_base m /\
       WideResnetWithEmbeddingHead.fc_emb m' = WideResnetWithEmbeddingHead.fc_emb m /\
       WideResnetWithEmbeddingHead.num_ftrs m' = WideResnetWithEmbeddingHead.num_ftrs m /\
       WideResnetWithEmbeddingHead.k m' = WideResnetWithEmbeddingHead.k m /\
       head_ok (WideResnetWithEmbeddingHead.fc_classes m') (WideResnetWithEmbeddingHead.num_ftrs m') /\
       (forall x logits embedding pooled,
          WideResnetWithEmbeddingHead.forward m x = inr (logits, embedding, pooled) ->
          exists logits',
            WideResnetWithEmbeddingHead.forward m' x = inr (logits', embedding, pooled) /\
            (forall N,
               shape pooled = [N; WideResnetWithEmbeddingHead.num_ftrs m] ->
               shape logits' = [N; num_classes]))) /\
  (forall resnet50 pretrained (s s1 : Store) r l (num_classes emb_dim : Z),
     resnet50 pretrained s = inr (r, s1) -> ResNet.fc r = Linear_ l ->
     0 <= Linear.in_features l -> 0 <= num_classes -> 0 <= emb_dim ->
     exists m s',
       ResNet50WithEmbeddingHead.__init__ resnet50 num_classes emb_dim
         pretrained s = inr (m, s') /\
       head_ok (ResNet50WithEmbeddingHead.fc_classes m)
         (ResNet50WithEmbeddingHead.num_ftrs m)) /\
  (forall resnet18 pretrained (s s1 : Store) r l (num_classes emb_dim : Z),
     resnet18 pretrained s = inr (r, s1) -> ResNet.fc r = Linear_ l ->
     0 <= Linear.in_features l -> 0 <= num_classes -> 0 <= emb_dim ->
     exists m s',
       ResNet18WithEmbeddingHead.__init__ resnet18 num_classes emb_dim
         pretrained s = inr (m, s') /\
       head_ok (ResNet18WithEmbeddingHead.fc_classes m)
         (ResNet18WithEmbeddingHead.num_ftrs m)) /\
  (forall (num_classes k n emb_dim : Z) (s : Store),
     (n - 4) mod 6 = 0 -> 0 < k < 4 -> 0 <= num_classes -> 0 <= emb_dim ->
     exists m s',
       WideResnetWithEmbeddingHead.__init__ num_classes k n emb_dim s
       = inr (m, s') /\
       head_ok (WideResnetWithEmbeddingHead.fc_classes m)
         (WideResnetWithEmbeddingHead.num_ftrs m)).
Proof.
  split; [|split; [|split; [|split; [|split]]]].
  - intros. apply ResNet50WithEmbeddingHead_adapt_ok; assumption.
  - intros. apply ResNet18WithEmbeddingHead_adapt_ok; assumption.
  - intros. apply WideResnetWithEmbeddingHead_adapt_ok; assumption.
  - intros. eapply ResNet50WithEmbeddingHead_head_ok; eassumption.
  - intros. eapply ResNet18WithEmbeddingHead_head_ok; eassumption.
  - intros. apply WideResnetWithEmbeddingHead_head_ok; assumption.
Qed.

Lemma C3_adapt_frame_witness :
  (exists m s m' s' l,
     ResNet50WithEmbeddingHead.__init__ (stand_in_resnet 2048) 100 300 true []
     = inr (m, s) /\
     ResNet50WithEmbeddingHead.adapt m 10 s = inr (m', s') /\
     ResNet50WithEmbeddingHead.fc_classes m' = Linear_ l /\
     Linear.in_features l = ResNet50WithEmbeddingHead.num_ftrs m /\
     Linear.out_features l = 10 /\
     ResNet50WithEmbeddingHead.fc_emb m' = ResNet50WithEmbeddingHead.fc_emb m) /\
  (exists m s m' s' l,
     ResNet18WithEmbeddingHead.__init__ (stand_in_resnet 512) 100 128 true []
     = inr (m, s) /\
     ResNet18WithEmbeddingHead.adapt m 10 s = inr (m', s') /\
     ResNet18WithEmbeddingHead.fc_classes m' = Linear_ l /\
     Linear.in_features l = ResNet18WithEmbeddingHead.num_ftrs m /\
     Linear.out_features l = 10 /\
     ResNet18WithEmbeddingHead.fc_emb m' = ResNet18WithEmbeddingHead.fc_emb m) /\
  (exists m s m' s' l,
     WideResnetWithEmbeddingHead.__init__ 100 3 16 128 [] = inr (m, s) /\
     WideResnetWithEmbeddingHead.adapt m 10 s = inr (m', s') /\
     WideResnetWithEmbeddingHead.fc_classes m' = Linear_ l /\
     Linear.in_features l = WideResnetWithEmbeddingHead.num_ftrs m /\
     Linear.out_features l = 10 /\
     WideResnetWithEmbeddingHead.fc_emb m'
     = WideResnetWithEmbeddingHead.fc_emb m).
Proof.
  destruct C3_adapt_frame as (A50 & A18 & AW & I50 & I18 & IW).
  split; [|split].
  - edestruct (I50 (stand_in_resnet 2048) true [])
      with (num_classes := 100) (emb_dim := 300) as (m & s & E & Hok);
      [vm_compute; reflexivity | reflexivity | simpl; lia | lia | lia |].
    destruct (A50 m 10 s Hok ltac:(lia))
      as (m' & s' & l & Ea & Hfc & Hin & Hout & _ & _ & _ & Hemb & _).
    exists m, s, m', s', l. repeat split; assumption.
  - edestruct (I18 (stand_in_resnet 512) true [])
      with (num_classes := 100) (emb_dim := 128) as (m & s & E & Hok);
      [vm_compute; reflexivity | reflexivity | simpl; lia | lia | lia |].
    destruct (A18 m 10 s Hok ltac:(lia))
      as (m' & s' & l & Ea & Hfc & Hin & Hout & _ & _ & _ & Hemb & _).
    exists m, s, m', s', l. repeat split; assumption.
  - destruct (IW 100 3 16 128 [] eq_refl ltac:(lia) ltac:(lia) ltac:(lia))
      as (m & s & E & Hok).
    destruct (AW m 10 s Hok ltac:(lia))
      as (m' & s' & l & Ea & Hfc & Hin & Hout & _ & _ & _ & Hemb & _).
    exists m, s, m', s', l. repeat split; assumption.
Defined.

(** ** C4: the forward pass of the embedding-head models *)

(** The base model of the Wide-ResNet wrapper, [WideResnet] with the
    identity for classifier, returns the pooled final feature map, and
    only on the batches on which its backbone returns. *)
Lemma WideResnet_pooled_inv (m : WideResnet.t) k x pooled :
  backbone_cfg k (WideResnet.backbone m) ->
  WideResnet.classifier m = Identity_ ->
  WideResnet.forward m x = inr pooled ->
  exists N H W feats,
    shape x = [N; 3; H; W] /\ 1 <= H /\ 1 <= W /\
    several_values N (down (down H 2) 2) (down (down W 2) 2) /\
    WideResnetBackbone.forward (WideResnet.backbone m) x = inr feats /\
    value pooled = mean (value (snd feats)) [2; 3] /\
    shape pooled = [N; 64 * k].
Proof.
  intros Hcfg Hcl Hp. unfold WideResnet.forward in Hp. rewrite Hcl in Hp.
  apply R_bind_inr in Hp as ([feat2 feat4] & Ef & Hp).
  apply R_bind_inr in Hp as (pl & Em & Hp).
  cbn [nn_forward] in Hp. injection Hp as ->.
  destruct (backbone_forward_inv _ _ _ _ _ Hcfg Ef)
    as (N & H & W & Sx & HH & HW & Hv & S2 & S4).
  unfold torch_mean_2_3 in Em. cbn [snd] in Em. rewrite S4 in Em.
  injection Em as <-.
  exists N, H, W, (feat2, feat4). cbn [value shape snd]. auto 10.
Qed.

(** C4: every embedding-head model returns, on a batch that its wrapped
    feature extractor supports, the triple of the logits, of size
    [N, num_classes], the embedding, of size [N, emb_dim], and the pooled
    features; the logits are [fc_classes] and the embedding is [fc_emb]
    of these pooled features.  For the two ResNet wrappers the feature
    extractor is the external network with its [fc] replaced by the
    identity, and a supported batch is one that it maps to [N] vectors of
    [fc.in_features] features.  For the Wide-ResNet wrapper it is
    [WideResnet] without its classifier, and a supported batch is one on
    which that model returns: such a batch has size [N, 3, H, W], and
    every batch of 3-channel images of at least one pixel each way is
    supported when its final feature maps hold more than one value per
    channel, which batch normalisation requires of a model in training
    mode. *)
Theorem C4_embedding_forward :
  (forall resnet50 num_classes emb_dim pretrained s r s1 l x t N,
     resnet50 pretrained s = inr (r, s1) -> ResNet.fc r = Linear_ l ->
     0 <= Linear.in_features l -> 0 <= num_classes -> 0 <= emb_dim ->
     ResNet.features r x = inr t -> shape t = [N; Linear.in_features l] ->
     exists m s' logits embedding lc le,
       ResNet50WithEmbeddingHead.__init__ resnet50 num_classes emb_dim
         pretrained s = inr (m, s') /\
       ResNet50WithEmbeddingHead.forward m x = inr (logits, embedding, t) /\
       ResNet50WithEmbeddingHead.fc_classes m = Linear_ lc /\
       ResNet50WithEmbeddingHead.fc_emb m = Linear_ le /\
       value logits = linear (value t) lc /\
       value embedding = linear (value t) le /\
       shape logits = [N; num_classes] /\ shape embedding = [N; emb_dim]) /\
  (forall resnet18 num_classes emb_dim pretrained s r s1 l x t N,
     resnet18 pretrained s = inr (r, s1) -> ResNet.fc r = Linear_ l ->
     0 <= Linear.in_features l -> 0 <= num_classes -> 0 <= emb_dim ->
     ResNet.features r x = inr t -> shape t = [N; Linear.in_features l] ->
     exists m s' logits embedding lc l1 a l2,
       ResNet18WithEmbeddingHead.__init__ resnet18 num_classes emb_dim
         pretrained s = inr (m, s') /\
       ResNet18WithEmbeddingHead.forward m x = inr (logits, embedding, t) /\
       ResNet18WithEmbeddingHead.fc_classes m = Linear_ lc /\
       ResNet18WithEmbeddingHead.fc_emb m
       = Sequential_ [Linear_ l1; ReLU_ a; Linear_ l2] /\
       value logits = linear (value t) lc /\
       value embedding = linear (relu (linear (value t) l1)) l2 /\
       shape logits = [N; num_classes] /\ shape embedding = [N; emb_dim]) /\
  (forall num_classes k n emb_dim s,
     (n - 4) mod 6 = 0 -> 0 < k < 4 -> 0 <= num_classes -> 0 <= emb_dim ->
     exists m s' lc l1 a l2,
       WideResnetWithEmbeddingHead.__init__ num_classes k n emb_dim s
       = inr (m, s') /\
       WideResnetWithEmbeddingHead.fc_classes m = Linear_ lc /\
       WideResnetWithEmbeddingHead.fc_emb m
       = Sequential_ [Linear_ l1; ReLU_ a; Linear_ l2] /\
       (forall x pooled,
          WideResnet.forward (WideResnetWithEmbeddingHead.model_base m) x
          = inr pooled ->
          exists N H W logits embedding feats,
            shape x = [N; 3; H; W] /\
            WideResnetWithEmbeddingHead.forward m x
            = inr (logits, embedding, pooled) /\
            value logits = linear (value pooled) lc /\
            value embedding = linear (relu (linear (value pooled) l1)) l2 /\
            shape logits = [N; num_classes] /\
            shape embedding = [N; emb_dim] /\
            WideResnetBackbone.forward
              (WideResnet.backbone (WideResnetWithEmbeddingHead.model_base m))
              x = inr feats /\
            value pooled = mean (value (snd feats)) [2; 3] /\
            shape pooled = [N; 64 * k]) /\
       (forall N H W,
          1 <= H -> 1 <= W ->
          several_values N (down (down H 2) 2) (down (down W 2) 2) ->
          exists pooled,
            WideResnet.forward (WideResnetWithEmbeddingHead.model_base m)
              (input [N; 3; H; W]) = inr pooled)).
Proof.
  split; [|split].
  - intros resnet50 num_classes emb_dim pretrained s r s1 l x t N
      E Hfc Hf Hc He Ex Ht.
    eexists _, _, _, _, _, _.
    split; [eapply ResNet50WithEmbeddingHead_init_ok; eassumption|].
    unfold ResNet50WithEmbeddingHead.forward, ResNet.forward.
    cbn [ResNet50WithEmbeddingHead.model_resnet ResNet.features ResNet.fc
         ResNet50WithEmbeddingHead.fc_classes ResNet50WithEmbeddingHead.fc_emb].
    rewrite Ex. cbn [R_bind nn_forward].
    erewrite !Linear_forward_eq by (reflexivity || eassumption).
    cbn [R_bind]. split; [reflexivity|].
    split; [reflexivity|]. split; [reflexivity|].
    split; [reflexivity|]. split; [reflexivity|].
    split; reflexivity.
  - intros resnet18 num_classes emb_dim pretrained s r s1 l x t N
      E Hfc Hf Hc He Ex Ht.
    eexists _, _, _, _, _, _, _, _.
    split; [eapply ResNet18WithEmbeddingHead_init_ok; eassumption|].
    unfold ResNet18WithEmbeddingHead.forward, ResNet.forward.
    cbn [ResNet18WithEmbeddingHead.model_resnet ResNet.features ResNet.fc
         ResNet18WithEmbeddingHead.fc_classes ResNet18WithEmbeddingHead.fc_emb].
    rewrite Ex. cbn [R_bind nn_forward].
    erewrite Linear_forward_eq by (reflexivity || eassumption).
    cbn [R_bind]. erewrite fc_emb_at_forward by eassumption.
    cbn [R_bind]. split; [reflexivity|].
    split; [reflexivity|]. split; [reflexivity|].
    split; [reflexivity|]. split; [reflexivity|].
    split; reflexivity.
  - intros num_classes k n emb_dim s Hn Hk Hc He.
    destruct (WideResnetWithEmbeddingHead_init_ok num_classes k n emb_dim s)
      as (s1 & _ & E); try assumption.
    eexists _, _, _, _, _, _. split; [exact E|].
    cbn [WideResnetWithEmbeddingHead.model_base
         WideResnetWithEmbeddingHead.fc_classes
         WideResnetWithEmbeddingHead.fc_emb].
    split; [reflexivity|]. split; [reflexivity|]. split.
    + intros x pooled Hp.
      assert (Hinv := fun H1 H2 => WideResnet_pooled_inv _ k x pooled H1 H2 Hp).
      destruct Hinv
        as (N & H & W & feats & Sx & HH & HW & Hv & Ef & Vp & Sp);
        [apply backbone_at_cfg|reflexivity|].
      exists N, H, W.
      unfold WideResnetWithEmbeddingHead.forward.
      cbn [WideResnetWithEmbeddingHead.model_base
           WideResnetWithEmbeddingHead.fc_classes
           WideResnetWithEmbeddingHead.fc_emb WideResnet.backbone] in *.
      rewrite Hp. cbn [R_bind nn_forward].
      erewrite Linear_forward_eq by (reflexivity || exact Sp).
      cbn [R_bind]. erewrite fc_emb_at_forward by exact Sp.
      cbn [R_bind]. eexists _, _, feats.
      split; [exact Sx|]. split; [reflexivity|].
      split; [reflexivity|]. split; [reflexivity|].
      split; [reflexivity|]. split; [reflexivity|].
      split; [exact Ef|]. split; [exact Vp|exact Sp].
    + intros N H W HH HW Hv.
      destruct (backbone_forward_ok (backbone_at (length s) k n 0) k
                  N H W (input [N; 3; H; W]))
        as (feat2 & t4 & Ef & S2 & E3);
        [apply backbone_at_cfg|reflexivity|assumption..|].
      unfold WideResnet.forward.
      cbn [WideResnet.backbone WideResnet.classifier].
      rewrite Ef. cbn [R_bind snd]. unfold torch_mean_2_3.
      cbn [shape value R_bind nn_forward]. eexists. reflexivity.
Qed.

Lemma C4_embedding_forward_witness :
  (exists m s' logits embedding lc le,
     ResNet50WithEmbeddingHead.__init__ (stand_in_resnet 2048) 100 300 true []
     = inr (m, s') /\
     ResNet50WithEmbeddingHead.forward m (input [2; 3; 224; 224])
     = inr (logits, embedding,
            {| value := extern "features" input_; shape := [2; 2048] |}) /\
     ResNet50WithEmbeddingHead.fc_classes m = Linear_ lc /\
     ResNet50WithEmbeddingHead.fc_emb m = Linear_ le /\
     value logits = linear (extern "features" input_) lc /\
     value embedding = linear (extern "features" input_) le /\
     shape logits = [2; 100] /\ shape embedding = [2; 300]) /\
  (exists m s' logits embedding lc l1 a l2,
     ResNet18WithEmbeddingHead.__init__ (stand_in_resnet 512) 100 128 true []
     = inr (m, s') /\
     ResNet18WithEmbeddingHead.forward m (input [2; 3; 224; 224])
     = inr (logits, embedding,
            {| value := extern "features" input_; shape := [2; 512] |}) /\
     ResNet18WithEmbeddingHead.fc_classes m = Linear_ lc /\
     ResNet18WithEmbeddingHead.fc_emb m
     = Sequential_ [Linear_ l1; ReLU_ a; Linear_ l2] /\
     value logits = linear (extern "features" input_) lc /\
     value embedding = linear (relu (linear (extern "features" input_) l1)) l2 /\
     shape logits = [2; 100] /\ shape embedding = [2; 128]) /\
  (exists m s' pooled,
     WideResnetWithEmbeddingHead.__init__ 100 3 28 128 [] = inr (m, s') /\
     WideResnet.forward (WideResnetWithEmbeddingHead.model_base m)
       (input [2; 3; 224; 224]) = inr pooled /\
     exists logits embedding,
       WideResnetWithEmbeddingHead.forward m (input [2; 3; 224; 224])
       = inr (logits, embedding, pooled) /\
       shape logits = [2; 100] /\ shape embedding = [2; 128] /\
       shape pooled = [2; 64 * 3]).
Proof.
  split; [|split].
  - eapply (proj1 C4_embedding_forward (stand_in_resnet 2048) 100 300 true []
              _ _ _ (input [2; 3; 224; 224])
              {| value := extern "features" input_; shape := [2; 2048] |} 2).
    + reflexivity.
    + reflexivity.
    + simpl. lia.
    + lia.
    + lia.
    + reflexivity.
    + reflexivity.
  - eapply (proj1 (proj2 C4_embedding_forward) (stand_in_resnet 512) 100 128
              true [] _ _ _ (input [2; 3; 224; 224])
              {| value := extern "features" input_; shape := [2; 512] |} 2).
    + reflexivity.
    + reflexivity.
    + simpl. lia.
    + lia.
    + lia.
    + reflexivity.
    + reflexivity.
  - destruct (proj2 (proj2 C4_embedding_forward) 100 3 28 128 []
                eq_refl ltac:(lia) ltac:(lia) ltac:(lia))
      as (m & s' & lc & l1 & a & l2 & E & _ & _ & Hfwd & Hsup).
    destruct (Hsup 2 224 224 ltac:(lia) ltac:(lia)) as (pooled & Ep).
    { intros Hv. vm_compute in Hv. discriminate Hv. }
    destruct (Hfwd _ _ Ep)
      as (N & H & W & logits & embedding & feats & Sx & Ef & _ & _
          & Sl & Se & _ & _ & Sp).
    injection Sx as <- <- <-.
    exists m, s', pooled. split; [exact E|]. split; [exact Ep|].
    exists logits, embedding. auto.
Defined.

(** ** C5: the classification head of [WideResnet] *)

(** C5, as stated, fails: the forward pass does not produce logits for
    every batch of size [N, 3, H, W].  A constructed model is in training
    mode, in which batch normalisation refuses a batch with a single
    value per channel: on a single image of one pixel the first
    normalisation of the first block raises a [ValueError], while the
    same image in a batch of two is accepted. *)
Lemma C5_counterexample :
  exists m s,
    WideResnet.__init__ 10 1 10 [] = inr (m, s) /\
    WideResnet.forward m (input [1; 3; 1; 1])
    = inl (ValueError
             ["Expected more than 1 value per channel when training"%string]) /\
    exists y, WideResnet.forward m (input [2; 3; 1; 1]) = inr y.
Proof.
  eexists _, _. split; [vm_compute; reflexivity|].
  split; [vm_compute; reflexivity|].
  eexists. vm_compute. reflexivity.
Qed.

(** C5 (amended): the forward pass of [WideResnet] averages the final
    feature map of the backbone over the two spatial dimensions and
    applies the classifier, which is a single linear layer from [64k]
    features to the classes when [k < 4] and otherwise a linear layer from
    [64k] to [32k] features, a ReLU and a linear layer from [32k] features
    to the classes; on every batch of 3-channel images of at least one
    pixel each way whose final feature maps hold more than one value per
    channel (every batch but a single image of at most 4 by 4 pixels) the
    logits have size [N, n_classes]. *)
Theorem C5_wideresnet_head (n_classes k n : Z) (s : Store) (N H W : Z) :
  (n - 4) mod 6 = 0 -> 0 < k -> 0 <= n_classes -> 1 <= H -> 1 <= W ->
  several_values N (down (down H 2) 2) (down (down W 2) 2) ->
  exists m s' feats pooled y,
    WideResnet.__init__ n_classes k n s = inr (m, s') /\
    (k < 4 ->
     exists l,
       WideResnet.classifier m = Linear_ l /\
       Linear.in_features l = 64 * k /\ Linear.out_features l = n_classes /\
       value y = linear (value pooled) l) /\
    (4 <= k ->
     exists l1 r l2,
       WideResnet.classifier m = Sequential_ [Linear_ l1; ReLU_ r; Linear_ l2] /\
       Linear.in_features l1 = 64 * k /\ Linear.out_features l1 = 32 * k /\
       Linear.in_features l2 = 32 * k /\ Linear.out_features l2 = n_classes /\
       value y = linear (relu (linear (value pooled) l1)) l2) /\
    WideResnetBackbone.forward (WideResnet.backbone m) (input [N; 3; H; W])
    = inr feats /\
    torch_mean_2_3 (snd feats) = inr pooled /\
    value pooled = mean (value (snd feats)) [2; 3] /\
    shape pooled = [N; 64 * k] /\
    WideResnet.forward m (input [N; 3; H; W]) = inr y /\
    shape y = [N; n_classes].
Proof.
  intros Hn Hk Hc HH HW Hv.
  destruct (WideResnet_init_ok n_classes k n s) as (s1 & _ & E & _);
    try assumption.
  destruct (backbone_forward_ok (backbone_at (length s) k n 0) k
              N H W (input [N; 3; H; W]))
    as (feat2 & t4 & Ef & S2 & E3);
    [apply backbone_at_cfg|reflexivity|assumption..|].
  unfold WideResnet.forward.
  unfold classifier_at in *. rewrite div_64k_2 in *.
  match type of Ef with _ = inr (_, ?f4) => set (feat4 := f4) in * end.
  set (pooled := {| value := mean (value feat4) [2; 3];
                    shape := [N; 64 * k] |}).
  destruct (k <? 4) eqn:Ek.
  - apply Z.ltb_lt in Ek.
    exists {| WideResnet.n_layers := n; WideResnet.k := k;
              WideResnet.backbone := backbone_at (length s) k n 0;
              WideResnet.classifier :=
                Linear_ (mk_linear (length s1) (64 * k) n_classes) |},
           (s1 ++ classifier_params k n_classes), (feat2, feat4), pooled,
           {| value := linear (value pooled)
                         (mk_linear (length s1) (64 * k) n_classes);
              shape := [N; n_classes] |}.
    split; [exact E|].
    cbn [WideResnet.backbone WideResnet.classifier].
    rewrite Ef. cbn [R_bind snd].
    split; [intros _; eexists; split; [reflexivity|];
            split; [reflexivity|]; split; reflexivity|].
    split; [intros; lia|].
    split; [reflexivity|]. split; [reflexivity|]. split; [reflexivity|].
    split; [reflexivity|].
    change (torch_mean_2_3 feat4) with (@inr exn Tensor pooled). cbn [R_bind].
    cbn [nn_forward]. erewrite Linear_forward_eq by reflexivity.
    split; reflexivity.
  - apply Z.ltb_ge in Ek.
    exists {| WideResnet.n_layers := n; WideResnet.k := k;
              WideResnet.backbone := backbone_at (length s) k n 0;
              WideResnet.classifier :=
                Sequential_
                  [Linear_ (mk_linear (length s1) (64 * k) (32 * k));
                   ReLU_ {| ReLU.inplace := true |};
                   Linear_ (mk_linear (length s1 + 2)%nat (32 * k) n_classes)] |},
           (s1 ++ classifier_params k n_classes), (feat2, feat4), pooled,
           {| value := linear
                         (relu (linear (value pooled)
                                  (mk_linear (length s1) (64 * k) (32 * k))))
                         (mk_linear (length s1 + 2)%nat (32 * k) n_classes);
              shape := [N; n_classes] |}.
    split; [exact E|].
    cbn [WideResnet.backbone WideResnet.classifier].
    rewrite Ef. cbn [R_bind snd].
    split; [intros; lia|].
    split; [intros _; eexists _, _, _; split; [reflexivity|];
            repeat (split; [reflexivity|]); reflexivity|].
    split; [reflexivity|]. split; [reflexivity|]. split; [reflexivity|].
    split; [reflexivity|].
    change (torch_mean_2_3 feat4) with (@inr exn Tensor pooled). cbn [R_bind].
    cbn [nn_forward]. erewrite Linear_forward_eq by reflexivity.
    cbn [R_bind]. unfold ReLU_forward. cbn [R_bind value shape].
    erewrite Linear_forward_eq by reflexivity.
    split; reflexivity.
Qed.

Lemma C5_wideresnet_head_witness :
  exists m s' feats pooled y,
    WideResnet.__init__ 10 4 16 [] = inr (m, s') /\
    (4 < 4 ->
     exists l,
       WideResnet.classifier m = Linear_ l /\
       Linear.in_features l = 64 * 4 /\ Linear.out_features l = 10 /\
       value y = linear (value pooled) l) /\
    (4 <= 4 ->
     exists l1 r l2,
       WideResnet.classifier m = Sequential_ [Linear_ l1; ReLU_ r; Linear_ l2] /\
       Linear.in_features l1 = 64 * 4 /\ Linear.out_features l1 = 32 * 4 /\
       Linear.in_features l2 = 32 * 4 /\ Linear.out_features l2 = 10 /\
       value y = linear (relu (linear (value pooled) l1)) l2) /\
    WideResnetBackbone.forward (WideResnet.backbone m) (input [2; 3; 32; 32])
    = inr feats /\
    torch_mean_2_3 (snd feats) = inr pooled /\
    value pooled = mean (value (snd feats)) [2; 3] /\
    shape pooled = [2; 64 * 4] /\
    WideResnet.forward m (input [2; 3; 32; 32]) = inr y /\
    shape y = [2; 10].
Proof.
  apply (C5_wideresnet_head 10 4 16 [] 2 32 32).
  - reflexivity.
  - lia.
  - lia.
  - lia.
  - lia.
  - intros Hv. vm_compute in Hv. discriminate Hv.
Defined.

(** ** C6: the dataflow of a block *)

(** C6, as stated, fails: the first block of the network with [k = 1] has
    16 input and 16 output channels and stride 1, so no projection, but
    its shortcut is not the raw block input: built with
    [pre_res_act=True], it adds the activated input to the residual. *)
Lemma C6_counterexample :
  exists b s y,
    BasicBlockPreAct.__init__ 16 16 0 1 true [] = inr (b, s) /\
    BasicBlockPreAct.downsample b = None /\
    BasicBlockPreAct.forward b (input [2; 16; 8; 8]) = inr y /\
    value y <> raw_shortcut_value b input_.
Proof.
  eexists _, _, _. split; [vm_compute; reflexivity|].
  split; [reflexivity|]. split; [vm_compute; reflexivity|].
  vm_compute. discriminate.
Qed.

(** C6 (amended): for every block, the residual branch computes normalize,
    activate, convolve, normalize, activate, optional dropout, convolve,
    and the output of the block is the sum of that branch with a shortcut.
    The shortcut starts from the raw block input when [pre_res_act] is
    false and from the activated input when it is true; it is used as it is
    exactly when input channels equal output channels and the stride is 1,
    and otherwise goes through a 1x1 convolution with the stride of the
    block.  The block, in training mode as constructed, returns exactly
    on the batches of maps with [in_chan] channels, of at least one value
    each way, whose reduced maps hold more than one value per channel. *)
Theorem C6_block_dataflow (in_chan out_chan stride : Z) (drop_rate : Q)
  (pra : bool) (s : Store) :
  0 <= in_chan -> 0 <= out_chan ->
  (0 <= drop_rate)%Q -> (drop_rate <= 1)%Q ->
  exists b s',
    BasicBlockPreAct.__init__ in_chan out_chan drop_rate stride pra s
    = inr (b, s') /\
    block_cfg in_chan out_chan stride b /\
    BasicBlockPreAct.pre_res_act b = pra /\
    (BasicBlockPreAct.dropout b = None <-> Qeq_bool drop_rate 0 = true) /\
    (BasicBlockPreAct.downsample b = None <-> in_chan = out_chan /\ stride = 1) /\
    (forall d, BasicBlockPreAct.downsample b = Some d ->
               conv_cfg d in_chan out_chan 1 stride 0) /\
    (forall x y,
       BasicBlockPreAct.forward b x = inr y ->
       value y = add (shortcut_from b (shortcut_source b (value x)))
                     (residual_value b (value x))) /\
    (pra = false -> forall v, shortcut_source b v = v) /\
    (pra = true -> forall v, shortcut_source b v = act1_value b v) /\
    (forall x N H W,
       shape x = [N; in_chan; H; W] -> 1 <= H -> 1 <= W -> 1 <= stride ->
       several_values N (down H stride) (down W stride) ->
       exists y, BasicBlockPreAct.forward b x = inr y /\
                 shape y = [N; out_chan; down H stride; down W stride]) /\
    (forall x y,
       BasicBlockPreAct.forward b x = inr y ->
       exists N H W,
         shape x = [N; in_chan; H; W] /\ 1 <= H /\ 1 <= W /\ 1 <= stride /\
         several_values N (down H stride) (down W stride)).
Proof.
  intros Hi Ho Hd0 Hd1.
  eexists _, _. split; [apply BasicBlockPreAct_init_eq; assumption|].
  pose proof (block_at_cfg (length s) in_chan out_chan drop_rate stride pra)
    as Hcfg.
  split; [exact Hcfg|]. split; [reflexivity|]. split.
  { simpl. unfold mk_dropout. destruct (Qeq_bool drop_rate 0); simpl.
    - tauto.
    - split; discriminate. }
  split.
  { destruct Hcfg as (_ & _ & _ & _ & Hd).
    destruct (BasicBlockPreAct.downsample _).
    - split; [discriminate|]. intros [-> ->]. destruct Hd as [[H|H] _]; lia.
    - tauto. }
  split.
  { intros d Hd. destruct Hcfg as (_ & _ & _ & _ & Hd').
    rewrite Hd in Hd'. apply Hd'. }
  split; [intros x y; apply block_forward_value|].
  split; [intros ->; reflexivity|].
  split; [intros ->; reflexivity|].
  split.
  - intros x N H W Hx HH HW Hst Hv.
    erewrite block_forward_ok by eassumption.
    eexists. split; reflexivity.
  - intros x y Hf.
    destruct (block_forward_inv _ _ _ _ _ _ Hcfg Hf)
      as (N & H & W & Hx & HH & HW & Hst & Hv & _).
    exists N, H, W. auto.
Qed.

Lemma C6_block_dataflow_witness :
  exists b s',
    BasicBlockPreAct.__init__ 16 32 0 2 false [] = inr (b, s') /\
    block_cfg 16 32 2 b /\
    BasicBlockPreAct.pre_res_act b = false /\
    (BasicBlockPreAct.dropout b = None <-> Qeq_bool 0 0 = true) /\
    (BasicBlockPreAct.downsample b = None <-> 16 = 32 /\ 2 = 1) /\
    (forall d, BasicBlockPreAct.downsample b = Some d ->
               conv_cfg d 16 32 1 2 0) /\
    (forall x y,
       BasicBlockPreAct.forward b x = inr y ->
       value y = add (shortcut_from b (shortcut_source b (value x)))
                     (residual_value b (value x))) /\
    (false = false -> forall v, shortcut_source b v = v) /\
    (false = true -> forall v, shortcut_source b v = act1_value b v) /\
    (forall x N H W,
       shape x = [N; 16; H; W] -> 1 <= H -> 1 <= W -> 1 <= 2 ->
       several_values N (down H 2) (down W 2) ->
       exists y, BasicBlockPreAct.forward b x = inr y /\
                 shape y = [N; 32; down H 2; down W 2]) /\
    (forall x y,
       BasicBlockPreAct.forward b x = inr y ->
       exists N H W,
         shape x = [N; 16; H; W] /\ 1 <= H /\ 1 <= W /\ 1 <= 2 /\
         several_values N (down H 2) (down W 2)).
Proof.
  apply (C6_block_dataflow 16 32 2 0 false []).
  - lia.
  - lia.
  - apply Qle_0_0.
  - apply Qle_0_1.
Defined.

(** ** C7: the forward pass of the backbone *)

(** C7, as stated, fails: the backbone does not return on every input
    whose spatial size is divisible by 4.  The final feature maps of a
    single 4 by 4 image hold one value each, which batch normalisation
    refuses in training mode, the mode of a constructed model: [forward]
    raises a [ValueError], while it returns on two such images. *)
Lemma C7_counterexample :
  exists b s,
    WideResnetBackbone.__init__ 1 10 0 [] = inr (b, s) /\
    4 mod 4 = 0 /\
    WideResnetBackbone.forward b (input [1; 3; 4; 4])
    = inl (ValueError
             ["Expected more than 1 value per channel when training"%string]) /\
    exists feats, WideResnetBackbone.forward b (input [2; 3; 4; 4]) = inr feats.
Proof.
  eexists _, _. split; [vm_compute; reflexivity|].
  split; [reflexivity|]. split; [vm_compute; reflexivity|].
  eexists. vm_compute. reflexivity.
Qed.

(** C7 (amended): for every valid depth and positive width multiplier, on
    every batch of 3-channel images of at least one pixel each way whose
    final feature maps hold more than one value per channel (every batch
    but a single image of at most 4 by 4 pixels) [forward] returns the
    pair of the output of stage 2, with [32k] channels, and the output of
    stage 3, with [64k] channels, to which the last normalisation and
    activation have been applied; the channel counts do not depend on the
    spatial size, and when the spatial size is divisible by 4 the two maps
    are at half and at a quarter of it. *)
Theorem C7_backbone_forward (k n : Z) (drop_rate : Q) (s : Store)
  (N H W : Z) :
  (n - 4) mod 6 = 0 -> 0 < k ->
  (0 <= drop_rate)%Q -> (drop_rate <= 1)%Q ->
  1 <= H -> 1 <= W ->
  several_values N (down (down H 2) 2) (down (down W 2) 2) ->
  exists b s' feat0 feat1 feat2 t4 feat4,
    WideResnetBackbone.__init__ k n drop_rate s = inr (b, s') /\
    WideResnetBackbone.forward b (input [N; 3; H; W]) = inr (feat2, feat4) /\
    shape feat2 = [N; 32 * k; down H 2; down W 2] /\
    shape feat4 = [N; 64 * k; down (down H 2) 2; down (down W 2) 2] /\
    Conv2d_forward (WideResnetBackbone.conv1 b) (input [N; 3; H; W])
    = inr feat0 /\
    Sequential_forward (WideResnetBackbone.layer1 b) feat0 = inr feat1 /\
    Sequential_forward (WideResnetBackbone.layer2 b) feat1 = inr feat2 /\
    Sequential_forward (WideResnetBackbone.layer3 b) feat2 = inr t4 /\
    value feat4
    = leaky_relu (batch_norm (value t4) (WideResnetBackbone.bn_last b))
        (LeakyReLU.negative_slope (WideResnetBackbone.relu_last b)) /\
    (H mod 4 = 0 -> down H 2 = H / 2 /\ down (down H 2) 2 = H / 4) /\
    (W mod 4 = 0 -> down W 2 = W / 2 /\ down (down W 2) 2 = W / 4).
Proof.
  intros Hn Hk Hd0 Hd1 HH HW Hv.
  destruct (backbone_init_ok k n drop_rate s) as (s' & E & _); try assumption.
  destruct (backbone_forward_ok (backbone_at (length s) k n drop_rate) k
              N H W (input [N; 3; H; W]))
    as (feat2 & t4' & Ef & S2 & _);
    [apply backbone_at_cfg|reflexivity|assumption..|].
  destruct (backbone_forward_stages _ _ _ _ Ef)
    as (feat0 & feat1 & t4 & E0 & E1 & E2 & E3 & Ev).
  eexists _, _, feat0, feat1, feat2, t4, _.
  split; [exact E|]. split; [exact Ef|].
  split; [exact S2|]. split; [reflexivity|].
  split; [exact E0|]. split; [exact E1|]. split; [exact E2|].
  split; [exact E3|]. split; [exact Ev|].
  split; apply down_div4.
Qed.

Lemma C7_backbone_forward_witness :
  exists b s' feat0 feat1 feat2 t4 feat4,
    WideResnetBackbone.__init__ 2 16 0 [] = inr (b, s') /\
    WideResnetBackbone.forward b (input [2; 3; 32; 32]) = inr (feat2, feat4) /\
    shape feat2 = [2; 32 * 2; down 32 2; down 32 2] /\
    shape feat4 = [2; 64 * 2; down (down 32 2) 2; down (down 32 2) 2] /\
    Conv2d_forward (WideResnetBackbone.conv1 b) (input [2; 3; 32; 32])
    = inr feat0 /\
    Sequential_forward (WideResnetBackbone.layer1 b) feat0 = inr feat1 /\
    Sequential_forward (WideResnetBackbone.layer2 b) feat1 = inr feat2 /\
    Sequential_forward (WideResnetBackbone.layer3 b) feat2 = inr t4 /\
    value feat4
    = leaky_relu (batch_norm (value t4) (WideResnetBackbone.bn_last b))
        (LeakyReLU.negative_slope (WideResnetBackbone.relu_last b)) /\
    (32 mod 4 = 0 -> down 32 2 = 32 / 2 /\ down (down 32 2) 2 = 32 / 4) /\
    (32 mod 4 = 0 -> down 32 2 = 32 / 2 /\ down (down 32 2) 2 = 32 / 4).
Proof.
  apply (C7_backbone_forward 2 16 0 [] 2 32 32).
  - reflexivity.
  - lia.
  - apply Qle_0_0.
  - apply Qle_0_1.
  - lia.
  - lia.
  - intros Hv. vm_compute in Hv. discriminate Hv.
Defined.

(** ** C8: the [pre_res_act] flag *)

(** C8: in every constructed backbone [pre_res_act] is true for exactly
    one block, the first block of the first stage, and false for every
    other block of every stage; and a block whose flag is set takes its
    shortcut from the activated input instead of the raw block input. *)
Theorem C8_pre_res_act (k n : Z) (drop_rate : Q) (s : Store) :
  (n - 4) mod 6 = 0 -> 0 < k ->
  (0 <= drop_rate)%Q -> (drop_rate <= 1)%Q ->
  exists b s' first rest,
    WideResnetBackbone.__init__ k n drop_rate s = inr (b, s') /\
    WideResnetBackbone.layer1 b = first :: rest /\
    BasicBlockPreAct.pre_res_act first = true /\
    Forall (fun blk => BasicBlockPreAct.pre_res_act blk = false)
      (rest ++ WideResnetBackbone.layer2 b ++ WideResnetBackbone.layer3 b) /\
    filter (fun blk => BasicBlockPreAct.pre_res_act blk = true)
      (WideResnetBackbone.layer1 b ++ WideResnetBackbone.layer2 b
       ++ WideResnetBackbone.layer3 b) = [first] /\
    (forall blk x y,
       BasicBlockPreAct.forward blk x = inr y ->
       exists residual,
         value y
         = add (shortcut_from blk
                  (if BasicBlockPreAct.pre_res_act blk
                   then leaky_relu (batch_norm (value x) (BasicBlockPreAct.bn1 blk))
                          (LeakyReLU.negative_slope (BasicBlockPreAct.relu1 blk))
                   else value x))
               residual).
Proof.
  intros Hn Hk Hd0 Hd1.
  destruct (backbone_init_ok k n drop_rate s) as (s' & E & _); try assumption.
  destruct (backbone_at_flags (length s) k n drop_rate)
    as (first & rest & E1 & Hf & HF).
  exists (backbone_at (length s) k n drop_rate), s', first, rest.
  split; [exact E|]. split; [exact E1|]. split; [exact Hf|].
  split; [exact HF|]. split.
  - rewrite E1. cbn [app]. rewrite filter_cons, decide_True by exact Hf.
    f_equal. apply filter_flag_nil. exact HF.
  - intros blk x y Hy. eexists. apply block_forward_value in Hy. exact Hy.
Qed.

Lemma C8_pre_res_act_witness :
  exists b s' first rest,
    WideResnetBackbone.__init__ 2 16 0 [] = inr (b, s') /\
    WideResnetBackbone.layer1 b = first :: rest /\
    BasicBlockPreAct.pre_res_act first = true /\
    Forall (fun blk => BasicBlockPreAct.pre_res_act blk = false)
      (rest ++ WideResnetBackbone.layer2 b ++ WideResnetBackbone.layer3 b) /\
    filter (fun blk => BasicBlockPreAct.pre_res_act blk = true)
      (WideResnetBackbone.layer1 b ++ WideResnetBackbone.layer2 b
       ++ WideResnetBackbone.layer3 b) = [first] /\
    (forall blk x y,
       BasicBlockPreAct.forward blk x = inr y ->
       exists residual,
         value y
         = add (shortcut_from blk
                  (if BasicBlockPreAct.pre_res_act blk
                   then leaky_relu (batch_norm (value x) (BasicBlockPreAct.bn1 blk))
                          (LeakyReLU.negative_slope (BasicBlockPreAct.relu1 blk))
                   else value x))
               residual).
Proof.
  apply (C8_pre_res_act 2 16 0 []).
  - reflexivity.
  - lia.
  - apply Qle_0_0.
  - apply Qle_0_1.
Defined.

(** ** C9: weight initialisation *)

(** C9, as stated, fails: after construction the bias of the classifier of
    [WideResnet], and the bias of the class-logit head of
    [WideResnetWithEmbeddingHead], hold the library's default (uniform)
    initialisation; nothing has set them to zero. *)
Lemma C9_counterexample :
  (exists m s l b p,
     WideResnet.__init__ 10 1 28 [] = inr (m, s) /\
     WideResnet.classifier m = Linear_ l /\ Linear.bias l = Some b /\
     s !! b = Some p /\ ~ zeroed p) /\
  (exists m s l b p,
     WideResnetWithEmbeddingHead.__init__ 10 1 28 128 [] = inr (m, s) /\
     WideResnetWithEmbeddingHead.fc_classes m = Linear_ l /\
     Linear.bias l = Some b /\ s !! b = Some p /\ ~ zeroed p).
Proof.
  split.
  - eexists _, _, _, _, _. split; [vm_compute; reflexivity|].
    split; [reflexivity|]. split; [reflexivity|].
    split; [vm_compute; reflexivity|]. simpl. tauto.
  - eexists _, _, _, _, _. split; [vm_compute; reflexivity|].
    split; [reflexivity|]. split; [reflexivity|].
    split; [vm_compute; reflexivity|]. simpl. tauto.
Qed.

(** [WideResnet.init_weight] would set that bias to zero, but no
    constructor runs it. *)
Lemma WideResnet_init_weight_not_run :
  exists m s s2 l b p p2,
    WideResnet.__init__ 10 1 28 [] = inr (m, s) /\
    WideResnet.classifier m = Linear_ l /\ Linear.bias l = Some b /\
    s !! b = Some p /\ data p = [default_uniform_] /\
    WideResnet.init_weight m s = inr (tt, s2) /\
    s2 !! b = Some p2 /\ data p2 = [constant_ 0; default_uniform_].
Proof.
  eexists _, _, _, _, _, _, _. split; [vm_compute; reflexivity|].
  split; [reflexivity|]. split; [reflexivity|].
  split; [vm_compute; reflexivity|]. split; [reflexivity|].
  split; [vm_compute; reflexivity|]. split; [vm_compute; reflexivity|].
  reflexivity.
Qed.

(** C9 (amended): weight initialisation is run once, as the last step of
    constructing the backbone, over the modules of the backbone: the
    weight of every convolution (the stem, the two convolutions and the
    projection of every block) has been drawn, after the default
    initialisation, from a scaled normal and then from the He (Kaiming
    normal) distribution, and every normalisation layer has been set to
    unit scale and zero bias, each exactly once; parameters that existed
    before are untouched.  The loop would zero the bias of a linear layer,
    but meets none, the backbone having none; the linear layers of the
    heads [fc_classes] and [fc_emb] of the three embedding-head models are
    created afterwards and hold the library's default initialisation
    only. *)
Theorem C9_init_weight :
  (forall (k n : Z) (drop_rate : Q) (s : Store),
     (n - 4) mod 6 = 0 -> 0 < k ->
     (0 <= drop_rate)%Q -> (drop_rate <= 1)%Q ->
     exists b s',
       WideResnetBackbone.__init__ k n drop_rate s = inr (b, s') /\
       Forall (initialised s') (WideResnetBackbone.modules b) /\
       initialised s' (is_Conv2d (WideResnetBackbone.conv1 b)) /\
       initialised s' (is_BatchNorm2d (WideResnetBackbone.bn_last b)) /\
       (forall blk,
          In blk (WideResnetBackbone.layer1 b ++ WideResnetBackbone.layer2 b
                  ++ WideResnetBackbone.layer3 b) ->
          initialised s' (is_BatchNorm2d (BasicBlockPreAct.bn1 blk)) /\
          initialised s' (is_Conv2d (BasicBlockPreAct.conv1 blk)) /\
          initialised s' (is_BatchNorm2d (BasicBlockPreAct.bn2 blk)) /\
          initialised s' (is_Conv2d (BasicBlockPreAct.conv2 blk)) /\
          (forall d, BasicBlockPreAct.downsample blk = Some d ->
                     initialised s' (is_Conv2d d))) /\
       (forall l, ~ In (is_Linear l) (WideResnetBackbone.modules b)) /\
       (forall l, (l < length s)%nat -> s' !! l = s !! l)) /\
  (forall (l : Linear.t) (bias : loc) (p : Param) (st : Store),
     Linear.bias l = Some bias -> st !! bias = Some p ->
     WideResnetBackbone.init_module (is_Linear l) st
     = inr (tt, <[bias := {| size := size p; data := zero_ :: data p |}]> st)) /\
  (forall (num_classes k n emb_dim : Z) (s : Store),
     (n - 4) mod 6 = 0 -> 0 < k < 4 -> 0 <= num_classes -> 0 <= emb_dim ->
     exists m s',
       WideResnetWithEmbeddingHead.__init__ num_classes k n emb_dim s
       = inr (m, s') /\
       Forall (default_only s')
         (nn_parameters (WideResnetWithEmbeddingHead.fc_classes m)
          ++ nn_parameters (WideResnetWithEmbeddingHead.fc_emb m))) /\
  (forall resnet50 pretrained (s s1 : Store) r l (num_classes emb_dim : Z),
     resnet50 pretrained s = inr (r, s1) -> ResNet.fc r = Linear_ l ->
     0 <= Linear.in_features l -> 0 <= num_classes -> 0 <= emb_dim ->
     exists m s',
       ResNet50WithEmbeddingHead.__init__ resnet50 num_classes emb_dim
         pretrained s = inr (m, s') /\
       Forall (default_only s')
         (nn_parameters (ResNet50WithEmbeddingHead.fc_classes m)
          ++ nn_parameters (ResNet50WithEmbeddingHead.fc_emb m))) /\
  (forall resnet18 pretrained (s s1 : Store) r l (num_classes emb_dim : Z),
     resnet18 pretrained s = inr (r, s1) -> ResNet.fc r = Linear_ l ->
     0 <= Linear.in_features l -> 0 <= num_classes -> 0 <= emb_dim ->
     exists m s',
       ResNet18WithEmbeddingHead.__init__ resnet18 num_classes emb_dim
         pretrained s = inr (m, s') /\
       Forall (default_only s')
         (nn_parameters (ResNet18WithEmbeddingHead.fc_classes m)
          ++ nn_parameters (ResNet18WithEmbeddingHead.fc_emb m))).
Proof.
  split; [|split; [|split; [|split]]].
  - intros k n drop_rate s Hn Hk Hd0 Hd1.
    destruct (backbone_init_ok k n drop_rate s) as (s' & E & L & F & I);
      try assumption.
    set (b := backbone_at (length s) k n drop_rate) in *.
    rewrite Forall_forall in I.
    assert (I' : forall m, In m (WideResnetBackbone.modules b) -> initialised s' m).
    { intros m Hm. apply I. apply list_elem_of_In. assumption. }
    exists b, s'. split; [exact E|].
    split; [apply Forall_forall; exact I|].
    split; [apply I'; unfold WideResnetBackbone.modules; simpl; tauto|].
    split.
    { apply I'. unfold WideResnetBackbone.modules. rewrite !in_app_iff.
      simpl. tauto. }
    split.
    { intros blk Hblk.
      assert (Hin : forall m, In m (BasicBlockPreAct.modules blk) ->
                              initialised s' m).
      { intros m Hm. apply I'. eapply In_backbone_modules; eassumption. }
      unfold BasicBlockPreAct.modules in Hin.
      split; [|split; [|split; [|split]]].
      - apply Hin. simpl. tauto.
      - apply Hin. simpl. tauto.
      - apply Hin. simpl. tauto.
      - apply Hin. rewrite !in_app_iff. simpl. tauto.
      - intros d Hd. apply Hin. rewrite Hd, !in_app_iff. simpl. tauto. }
    split; [intros l Hl; apply (I' _ Hl)|].
    exact F.
  - intros l bias p st Hb Hp. simpl. rewrite Hb. apply write_eq. assumption.
  - intros. apply WideResnetWithEmbeddingHead_heads_default; assumption.
  - intros. eapply ResNet50WithEmbeddingHead_heads_default; eassumption.
  - intros. eapply ResNet18WithEmbeddingHead_heads_default; eassumption.
Qed.

Lemma C9_init_weight_witness :
  exists b s',
    WideResnetBackbone.__init__ 1 16 0 [] = inr (b, s') /\
    Forall (initialised s') (WideResnetBackbone.modules b) /\
    initialised s' (is_Conv2d (WideResnetBackbone.conv1 b)) /\
    initialised s' (is_BatchNorm2d (WideResnetBackbone.bn_last b)).
Proof.
  destruct (proj1 C9_init_weight 1 16 0%Q [] eq_refl ltac:(lia) Qle_0_0 Qle_0_1)
    as (b & s' & E & F & Hc & Hbn & _).
  exists b, s'. split; [exact E|]. split; [exact F|].
  split; [exact Hc|exact Hbn].
Defined.

(** ** C10: [WideResnetWithEmbeddingHead] for wide networks *)

(** C10: constructing [WideResnetWithEmbeddingHead] with [k >= 4] always
    fails.  Whenever the wrapped [WideResnet] is constructed, which it is
    for every valid depth, its classifier is a [Sequential], reading
    [in_features] from it raises an [AttributeError], and that is the
    error of the construction.  So construction succeeds only for
    [k < 4], where with a valid depth it does. *)
Theorem C10_embedding_head_wide (num_classes k n emb_dim : Z) (s : Store) :
  (4 <= k ->
   (exists e, WideResnetWithEmbeddingHead.__init__ num_classes k n emb_dim s
              = inl e) /\
   (forall m s',
      WideResnet.__init__ num_classes k n s = inr (m, s') ->
      (exists ms, WideResnet.classifier m = Sequential_ ms) /\
      getattr_in_features (WideResnet.classifier m)
      = inl (AttributeError
               ["'Sequential' object has no attribute 'in_features'"%string]) /\
      WideResnetWithEmbeddingHead.__init__ num_classes k n emb_dim s
      = inl (AttributeError
               ["'Sequential' object has no attribute 'in_features'"%string])) /\
   ((n - 4) mod 6 = 0 -> 0 <= num_classes ->
    exists m s', WideResnet.__init__ num_classes k n s = inr (m, s'))) /\
  (forall m s',
     WideResnetWithEmbeddingHead.__init__ num_classes k n emb_dim s
     = inr (m, s') -> k < 4) /\
  (0 < k < 4 -> (n - 4) mod 6 = 0 -> 0 <= num_classes -> 0 <= emb_dim ->
   exists m s',
     WideResnetWithEmbeddingHead.__init__ num_classes k n emb_dim s
     = inr (m, s')).
Proof.
  split; [|split].
  - intros Hk. split; [|split].
    + destruct (WideResnetWithEmbeddingHead_init_wide num_classes k n emb_dim s Hk)
        as [(e & _ & E)|(_ & E)]; eauto.
    + intros m s' E.
      destruct (WideResnet_init_wide _ _ _ _ _ _ Hk E) as (ms & Hms).
      split; [eauto|]. split; [rewrite Hms; reflexivity|].
      destruct (WideResnetWithEmbeddingHead_init_wide num_classes k n emb_dim s Hk)
        as [(e & E' & _)|(_ & E')]; [|exact E'].
      rewrite E in E'. discriminate.
    + intros Hn Hc.
      destruct (WideResnet_init_ok num_classes k n s) as (s1 & _ & E & _);
        [assumption|lia|assumption|].
      eauto.
  - intros m s' E. destruct (Z.lt_ge_cases k 4) as [|Hk]; [assumption|].
    destruct (WideResnetWithEmbeddingHead_init_wide num_classes k n emb_dim s Hk)
      as [(e & _ & E')|(_ & E')]; rewrite E in E'; discriminate.
  - intros Hk Hn Hc He.
    destruct (WideResnetWithEmbeddingHead_init_ok num_classes k n emb_dim s)
      as (s1 & _ & E); try assumption.
    eauto.
Qed.

Lemma C10_embedding_head_wide_witness :
  (exists e, WideResnetWithEmbeddingHead.__init__ 100 4 28 128 [] = inl e) /\
  (exists m s', WideResnet.__init__ 100 4 28 [] = inr (m, s')) /\
  WideResnetWithEmbeddingHead.__init__ 100 4 28 128 []
  = inl (AttributeError
           ["'Sequential' object has no attribute 'in_features'"%string]) /\
  (exists m s', WideResnetWithEmbeddingHead.__init__ 100 3 28 128 []
                = inr (m, s')).
Proof.
  destruct (proj1 (C10_embedding_head_wide 100 4 28 128 []) ltac:(lia))
    as (Hfail & Hattr & Hbase).
  destruct (Hbase eq_refl ltac:(lia)) as (m & s' & E).
  split; [exact Hfail|]. split; [exists m, s'; exact E|].
  split; [exact (proj2 (proj2 (Hattr m s' E)))|].
  apply (proj2 (proj2 (C10_embedding_head_wide 100 3 28 128 []))).
  - lia.
  - reflexivity.
  - lia.
  - lia.
Defined.

(** * Further properties *)

(** ** Construction outside the intended domain *)

Lemma new_parameter_negative sz i s :
  Exists (fun d => d < 0) sz ->
  new_parameter sz i s
  = inl (RuntimeError
           ["Trying to create tensor with negative dimension"%string]).
Proof.
  intros H. unfold new_parameter.
  replace (forallb (fun d => 0 <=? d) sz) with false; [reflexivity|].
  symmetry. apply not_true_is_false. intros Hall.
  rewrite forallb_forall in Hall. apply Exists_exists in H as (d & Hd & Hneg).
  apply list_elem_of_In in Hd. apply Hall in Hd. apply Z.leb_le in Hd. lia.
Qed.

Lemma n_layers_nonneg k i : 0 <= k -> 0 <= nth i (WideResnetBackbone.n_layers k) 0.
Proof.
  intros Hk. rewrite n_layers_eq.
  destruct i as [|[|[|[|i]]]]; simpl; try lia. destruct i; lia.
Qed.

(** With channel counts that are not negative, the constructors of the
    layers succeed; what is left of the constructor of the backbone is
    the call of [init_weight]. *)
Lemma backbone_init_alloc k n drop_rate s :
  (n - 4) mod 6 = 0 -> 0 <= k ->
  (0 <= drop_rate)%Q -> (drop_rate <= 1)%Q ->
  WideResnetBackbone.__init__ k n drop_rate s
  = bind (WideResnetBackbone.init_weight (backbone_at (length s) k n drop_rate))
      (fun _ => ret (backbone_at (length s) k n drop_rate))
      (s ++ backbone_params k n).
Proof.
  intros Hn Hk Hd0 Hd1.
  pose proof (n_layers_nonneg k 0 Hk) as H0.
  pose proof (n_layers_nonneg k 1 Hk) as H1.
  pose proof (n_layers_nonneg k 2 Hk) as H2.
  pose proof (n_layers_nonneg k 3 Hk) as H3.
  unfold WideResnetBackbone.__init__.
  erewrite bind_inr; cycle 1.
  { unfold Python_assert. rewrite Hn. reflexivity. }
  cbv zeta.
  erewrite bind_inr by (apply Conv2d_init_eq; lia).
  erewrite bind_inr by (apply create_layer_eq; (lia || assumption)).
  erewrite bind_inr by (apply create_layer_eq; (lia || assumption)).
  erewrite bind_inr by (apply create_layer_eq; (lia || assumption)).
  erewrite bind_inr by (apply BatchNorm2d_init_eq; lia).
  unfold backbone_at, backbone_params, mk_bn, lrelu. cbv zeta.
  rewrite !length_app, length_conv_params, Nat.add_1_r, <- !app_assoc.
  reflexivity.
Qed.

(** A negative number of output channels stops the constructor of a block
    at its first convolution. *)
Lemma BasicBlockPreAct_init_negative in_chan out_chan drop_rate stride pra s :
  0 <= in_chan -> out_chan < 0 ->
  BasicBlockPreAct.__init__ in_chan out_chan drop_rate stride pra s
  = inl (RuntimeError
           ["Trying to create tensor with negative dimension"%string]).
Proof.
  intros Hi Ho. unfold BasicBlockPreAct.__init__.
  erewrite bind_inr by (apply BatchNorm2d_init_eq; lia).
  apply bind_inl. unfold Conv2d.__init__. apply bind_inl.
  apply new_parameter_negative. constructor. assumption.
Qed.

Lemma Qeq_bool_0_range q : Qeq_bool q 0 = true -> (0 <= q)%Q /\ (q <= 1)%Q.
Proof.
  intros H. apply Qeq_bool_iff in H. split.
  - rewrite H. apply Qle_refl.
  - rewrite H. unfold Qle. simpl. lia.
Qed.

(** A drop rate outside [0, 1] stops the constructor of a block at its
    dropout layer. *)
Lemma BasicBlockPreAct_init_bad_rate in_chan out_chan drop_rate stride pra s :
  0 <= in_chan -> 0 <= out_chan ->
  ~ ((0 <= drop_rate)%Q /\ (drop_rate <= 1)%Q) ->
  BasicBlockPreAct.__init__ in_chan out_chan drop_rate stride pra s
  = inl (ValueError ["dropout probability has to be between 0 and 1"%string]).
Proof.
  intros Hi Ho Hd. unfold BasicBlockPreAct.__init__.
  erewrite bind_inr by (apply BatchNorm2d_init_eq; lia).
  erewrite bind_inr by (apply Conv2d_init_eq; lia).
  erewrite bind_inr by (apply BatchNorm2d_init_eq; lia).
  apply bind_inl.
  destruct (Qeq_bool drop_rate 0) eqn:E.
  { exfalso. apply Hd. apply Qeq_bool_0_range. assumption. }
  cbn [negb]. apply bind_inl. unfold Dropout.__init__.
  destruct (Qle_bool 0 drop_rate && Qle_bool drop_rate 1)%bool eqn:E2;
    [|reflexivity].
  exfalso. apply Hd. apply andb_true_iff in E2 as [E0 E1].
  split; apply Qle_bool_iff; assumption.
Qed.

Lemma create_layer_inl in_chan out_chan bnum stride drop_rate pra s e :
  BasicBlockPreAct.__init__ in_chan out_chan drop_rate stride pra s = inl e ->
  WideResnetBackbone.create_layer in_chan out_chan bnum stride drop_rate pra s
  = inl e.
Proof. intros H. unfold WideResnetBackbone.create_layer. apply bind_inl, H. Qed.

(** After the depth check and the stem, the constructor of the backbone
    fails where the first block of the first stage does. *)
Lemma backbone_init_first_block k n drop_rate s e :
  (n - 4) mod 6 = 0 ->
  (forall s1, BasicBlockPreAct.__init__ 16 (16 * k) drop_rate 1 true s1 = inl e) ->
  WideResnetBackbone.__init__ k n drop_rate s = inl e.
Proof.
  intros Hn Hb. unfold WideResnetBackbone.__init__.
  erewrite bind_inr; cycle 1.
  { unfold Python_assert. rewrite Hn. reflexivity. }
  cbv zeta. rewrite n_layers_eq. cbn [nth].
  erewrite bind_inr by (apply Conv2d_init_eq; lia).
  apply bind_inl. apply create_layer_inl. apply Hb.
Qed.

(** With a zero width multiplier [init_weight] divides by zero at the
    first convolution of the first block, after the stem and the first
    normalisation have been initialised. *)
Lemma backbone_init_weight_zero_width n drop_rate (s : Store) :
  WideResnetBackbone.init_weight (backbone_at (length s) 0 n drop_rate)
    (s ++ backbone_params 0 n)
  = inl (ZeroDivisionError ["float division by zero"%string]).
Proof.
  pose proof (seg_here s (backbone_params 0 n)) as Hseg.
  unfold backbone_params in Hseg. cbv zeta in Hseg.
  rewrite n_layers_eq in Hseg. cbn [nth] in Hseg.
  apply seg_app in Hseg as [Hstem Hseg].
  apply seg_app in Hseg as [Hl1 _].
  unfold stage_params in Hl1. apply seg_app in Hl1 as [Hb1 _].
  unfold block_params in Hb1. apply seg_app in Hb1 as [Hbn1 _].
  rewrite length_conv_params, Nat.add_1_r in Hbn1.
  unfold WideResnetBackbone.init_weight, WideResnetBackbone.modules,
    backbone_at.
  cbv zeta. rewrite n_layers_eq.
  cbn [nth WideResnetBackbone.conv1 WideResnetBackbone.layer1].
  unfold stage_at at 1, Sequential_modules at 1.
  cbn [flat_map]. unfold BasicBlockPreAct.modules at 1, block_at at 1.
  cbn [BasicBlockPreAct.bn1 BasicBlockPreAct.conv1 BasicBlockPreAct.bn2
       BasicBlockPreAct.conv2 BasicBlockPreAct.dropout
       BasicBlockPreAct.downsample app].
  cbn [for_each WideResnetBackbone.init_module].
  erewrite bind_inr by reflexivity.
  destruct (init_module_fresh (s ++ conv_params 3 16 3
                                 ++ stage_params 16 (16 * 0) ((n - 4) / 6) 1
                                 ++ stage_params (16 * 0) (32 * 0) ((n - 4) / 6) 2
                                 ++ stage_params (32 * 0) (64 * 0) ((n - 4) / 6) 2
                                 ++ bn_params (64 * 0))
              (length s) (is_Conv2d (mk_conv (length s) 3 16 3 1 1)))
    as (s1 & E1 & L1 & F1 & _).
  { apply fresh_conv; [exact Hstem|lia|lia]. }
  cbn [WideResnetBackbone.init_module] in E1.
  erewrite bind_inr by exact E1.
  erewrite bind_inr by reflexivity.
  erewrite bind_inr by reflexivity.
  destruct (init_module_fresh s1 (S (length s))
              (is_BatchNorm2d (mk_bn (S (length s)) 16)))
    as (s2 & E2 & L2 & F2 & _).
  { eapply fresh_at_ext; [|apply fresh_bn; exact Hbn1].
    intros l Hl. apply F1. cbn [param_count]. lia. }
  cbn [WideResnetBackbone.init_module] in E2.
  erewrite bind_inr by exact E2.
  erewrite bind_inr by reflexivity.
  apply bind_inl. reflexivity.
Qed.

Lemma drop_rate_range_dec (q : Q) :
  {(0 <= q)%Q /\ (q <= 1)%Q} + {~ ((0 <= q)%Q /\ (q <= 1)%Q)}.
Proof.
  destruct (Qlt_le_dec q 0) as [Hlt|Hge].
  - right. intros [H _]. apply (Qlt_not_le _ _ Hlt H).
  - destruct (Qlt_le_dec 1 q) as [Hlt|Hle].
    + right. intros [_ H]. apply (Qlt_not_le _ _ Hlt H).
    + left. split; assumption.
Qed.

Lemma backbone_init_negative_width k n drop_rate s :
  (n - 4) mod 6 = 0 -> k < 0 ->
  WideResnetBackbone.__init__ k n drop_rate s
  = inl (RuntimeError
           ["Trying to create tensor with negative dimension"%string]).
Proof.
  intros Hn Hk. apply backbone_init_first_block; [assumption|].
  intros s1. apply BasicBlockPreAct_init_negative; lia.
Qed.

Lemma backbone_init_bad_rate k n drop_rate s :
  (n - 4) mod 6 = 0 -> 0 <= k ->
  ~ ((0 <= drop_rate)%Q /\ (drop_rate <= 1)%Q) ->
  WideResnetBackbone.__init__ k n drop_rate s
  = inl (ValueError ["dropout probability has to be between 0 and 1"%string]).
Proof.
  intros Hn Hk Hd. apply backbone_init_first_block; [assumption|].
  intros s1. apply BasicBlockPreAct_init_bad_rate; [lia|lia|assumption].
Qed.

Lemma backbone_init_zero_width n drop_rate s :
  (n - 4) mod 6 = 0 -> (0 <= drop_rate)%Q -> (drop_rate <= 1)%Q ->
  WideResnetBackbone.__init__ 0 n drop_rate s
  = inl (ZeroDivisionError ["float division by zero"%string]).
Proof.
  intros Hn Hd0 Hd1.
  rewrite backbone_init_alloc by (assumption || lia).
  apply bind_inl. apply backbone_init_weight_zero_width.
Qed.

(** The constructor of the backbone returns only within its domain. *)
Lemma backbone_init_success_domain k n drop_rate s b s' :
  WideResnetBackbone.__init__ k n drop_rate s = inr (b, s') ->
  (n - 4) mod 6 = 0 /\ 0 < k /\ (0 <= drop_rate)%Q /\ (drop_rate <= 1)%Q.
Proof.
  intros E.
  destruct (Z.eq_dec ((n - 4) mod 6) 0) as [Hn|Hn]; cycle 1.
  { rewrite backbone_init_fail in E by assumption. discriminate. }
  destruct (Z.lt_trichotomy k 0) as [Hk|[Hk|Hk]].
  { rewrite backbone_init_negative_width in E by assumption. discriminate. }
  { destruct (drop_rate_range_dec drop_rate) as [[Hd0 Hd1]|Hd].
    - subst k. rewrite backbone_init_zero_width in E by assumption.
      discriminate.
    - rewrite backbone_init_bad_rate in E by (assumption || lia).
      discriminate. }
  destruct (drop_rate_range_dec drop_rate) as [[Hd0 Hd1]|Hd]; [tauto|].
  rewrite backbone_init_bad_rate in E by (assumption || lia). discriminate.
Qed.

(** The outcome of a successful construction of the backbone. *)
Lemma backbone_init_inv k n drop_rate s b s' :
  WideResnetBackbone.__init__ k n drop_rate s = inr (b, s') ->
  (n - 4) mod 6 = 0 /\ 0 < k /\ (0 <= drop_rate)%Q /\ (drop_rate <= 1)%Q /\
  b = backbone_at (length s) k n drop_rate /\
  length s' = (length s + length (backbone_params k n))%nat /\
  (forall l, (l < length s)%nat -> s' !! l = s !! l).
Proof.
  intros E.
  destruct (backbone_init_success_domain _ _ _ _ _ _ E) as (Hn & Hk & Hd0 & Hd1).
  destruct (backbone_init_ok k n drop_rate s Hn Hk Hd0 Hd1)
    as (s2 & E2 & L & F & _).
  rewrite E in E2. injection E2 as -> ->. tauto.
Qed.

(** ** Parameters of the backbone *)

Lemma layout_parameters s lo ms hi :
  layout s lo ms hi ->
  flat_map module_parameters ms = seq lo (hi - lo).
Proof.
  induction 1 as [lo|lo m ms hi Hm Hms IH].
  - rewrite Nat.sub_diag. reflexivity.
  - pose proof (layout_le _ _ _ _ Hms) as Hle.
    cbn [flat_map]. rewrite IH.
    destruct m as [c|b|l|cls]; simpl in Hm.
    + destruct Hm as (Hw & Hb & _). cbn [module_parameters param_count] in *.
      rewrite Hw, Hb.
      replace (hi - lo)%nat with (S (hi - (lo + 1)))%nat by lia.
      simpl. f_equal. f_equal. lia.
    + destruct Hm as (Hw & Hb & _). cbn [module_parameters param_count] in *.
      rewrite Hw, Hb.
      replace (hi - lo)%nat with (S (S (hi - (lo + 2))))%nat by lia.
      simpl. f_equal. f_equal. f_equal. lia.
    + contradiction.
    + cbn [module_parameters param_count] in *. rewrite Nat.add_0_r.
      reflexivity.
Qed.

Lemma length_block_params in_chan out_chan stride :
  length (block_params in_chan out_chan stride)
  = (6 + (if needs_downsample in_chan out_chan stride then 1 else 0))%nat.
Proof.
  unfold block_params. destruct (needs_downsample in_chan out_chan stride);
    reflexivity.
Qed.

Lemma length_rest_params out_chan cnt :
  length (rest_params out_chan cnt) = (6 * cnt)%nat.
Proof.
  induction cnt as [|cnt IH]; [reflexivity|].
  change (rest_params out_chan (S cnt))
    with (block_params out_chan out_chan 1 ++ rest_params out_chan cnt).
  rewrite length_app, length_block_params_same, IH. lia.
Qed.

Lemma length_backbone_params k n :
  0 < k ->
  length (backbone_params k n)
  = backbone_parameter_count k (blocks_per_stage n).
Proof.
  intros Hk. unfold backbone_params, backbone_parameter_count, blocks_per_stage.
  cbv zeta. rewrite n_layers_eq. cbn [nth].
  unfold stage_params.
  rewrite !length_app, !length_block_params, !length_rest_params.
  unfold needs_downsample. cbn [length conv_params bn_params].
  replace (16 =? 16 * k) with (k =? 1); cycle 1.
  { destruct (Z.eqb_spec k 1) as [->|Hne]; [reflexivity|].
    symmetry. apply Z.eqb_neq. lia. }
  replace (16 * k =? 32 * k) with false by (symmetry; apply Z.eqb_neq; lia).
  replace (32 * k =? 64 * k) with false by (symmetry; apply Z.eqb_neq; lia).
  destruct (k =? 1); simpl; lia.
Qed.

Lemma backbone_parameters_seq k n drop_rate base :
  0 < k ->
  flat_map module_parameters
    (WideResnetBackbone.modules (backbone_at base k n drop_rate))
  = seq base (backbone_parameter_count k (blocks_per_stage n)).
Proof.
  intros Hk.
  pose proof (backbone_layout (repeat {| size := []; data := [] |} base
                               ++ backbone_params k n)
                base k n drop_rate) as L.
  rewrite <- (length_backbone_params k n Hk).
  erewrite layout_parameters; cycle 1.
  { apply L; [|assumption].
    apply seg_end. rewrite repeat_length. reflexivity. }
  f_equal. lia.
Qed.

Lemma rest_at_dropout cnt : forall base out_chan drop_rate,
  Forall (fun blk => BasicBlockPreAct.dropout blk = mk_dropout drop_rate)
    (rest_at base out_chan drop_rate cnt).
Proof. induction cnt; intros; simpl; constructor; auto. Qed.

Lemma stage_at_dropout base in_chan out_chan bnum st drop_rate pra :
  Forall (fun blk => BasicBlockPreAct.dropout blk = mk_dropout drop_rate)
    (stage_at base in_chan out_chan bnum st drop_rate pra).
Proof.
  unfold stage_at. constructor; [reflexivity|]. apply rest_at_dropout.
Qed.

Lemma backbone_at_dropout base k n drop_rate :
  Forall (fun blk => BasicBlockPreAct.dropout blk = mk_dropout drop_rate)
    (blocks (backbone_at base k n drop_rate)).
Proof.
  unfold blocks, backbone_at. cbv zeta.
  cbn [WideResnetBackbone.layer1 WideResnetBackbone.layer2
       WideResnetBackbone.layer3].
  rewrite !Forall_app. split; [|split]; apply stage_at_dropout.
Qed.

(** X1: constructing a backbone returns exactly when the depth [n] is of
    the form [6 m + 4], the width multiplier [k] is at least 1 and the
    drop rate is a probability; the parameters already allocated play no
    part in it. *)
Theorem X1_backbone_constructor_domain (k n : Z) (drop_rate : Q) (s : Store) :
  (exists b s', WideResnetBackbone.__init__ k n drop_rate s = inr (b, s')) <->
  (n - 4) mod 6 = 0 /\ 0 < k /\ (0 <= drop_rate)%Q /\ (drop_rate <= 1)%Q.
Proof.
  split.
  - intros (b & s' & E). eapply backbone_init_success_domain. exact E.
  - intros (Hn & Hk & Hd0 & Hd1).
    destruct (backbone_init_ok k n drop_rate s Hn Hk Hd0 Hd1) as (s' & E & _).
    eauto.
Qed.

(** X2: with a valid depth, what construction of a backbone raises outside
    its domain: a negative width multiplier is refused by the library when
    the first block allocates a tensor with a negative dimension
    ([RuntimeError]); a drop rate that is not a probability is refused by
    [nn.Dropout] in the first block ([ValueError]); the width multiplier 0
    gets as far as [init_weight], where [2. / n] divides by the zero
    fan-out of the first zero-width convolution ([ZeroDivisionError]). *)
Theorem X2_backbone_constructor_errors (k n : Z) (drop_rate : Q) (s : Store) :
  (n - 4) mod 6 = 0 ->
  (k < 0 ->
   WideResnetBackbone.__init__ k n drop_rate s
   = inl (RuntimeError
            ["Trying to create tensor with negative dimension"%string])) /\
  (0 <= k -> ~ ((0 <= drop_rate)%Q /\ (drop_rate <= 1)%Q) ->
   WideResnetBackbone.__init__ k n drop_rate s
   = inl (ValueError
            ["dropout probability has to be between 0 and 1"%string])) /\
  (k = 0 -> (0 <= drop_rate)%Q /\ (drop_rate <= 1)%Q ->
   WideResnetBackbone.__init__ k n drop_rate s
   = inl (ZeroDivisionError ["float division by zero"%string])).
Proof.
  intros Hn. split; [|split].
  - intros Hk. apply backbone_init_negative_width; assumption.
  - intros Hk Hd. apply backbone_init_bad_rate; assumption.
  - intros -> [Hd0 Hd1]. apply backbone_init_zero_width; assumption.
Qed.

Lemma X2_backbone_constructor_errors_witness :
  (28 - 4) mod 6 = 0 /\
  WideResnetBackbone.__init__ 0 28 (1 # 2) []
  = inl (ZeroDivisionError ["float division by zero"%string]).
Proof.
  split; [reflexivity|].
  apply (proj2 (proj2 (X2_backbone_constructor_errors 0 28 (1 # 2) [] eq_refl))).
  - reflexivity.
  - split; intro H; discriminate H.
Defined.

(** X3: a constructed backbone owns exactly the parameters that its
    construction allocated, each of them once: listed module by module in
    the order of [modules()], the parameters of its layers are the
    consecutive locations from the first free one on, [18 b + 5] of them
    for [b] blocks per stage and one more when the first stage changes the
    channel count ([k] other than 1).  No parameter is shared between two
    layers, and none is left without an owner. *)
Theorem X3_backbone_parameters (k n : Z) (drop_rate : Q) (s s' : Store)
  (b : WideResnetBackbone.t) :
  WideResnetBackbone.__init__ k n drop_rate s = inr (b, s') ->
  let count := backbone_parameter_count k (blocks_per_stage n) in
  length s' = (length s + count)%nat /\
  flat_map module_parameters (WideResnetBackbone.modules b)
  = seq (length s) count /\
  NoDup (flat_map module_parameters (WideResnetBackbone.modules b)).
Proof.
  intros E count.
  destruct (backbone_init_inv _ _ _ _ _ _ E)
    as (Hn & Hk & Hd0 & Hd1 & -> & L & _).
  assert (P := backbone_parameters_seq k n drop_rate (length s) Hk).
  fold count in P. split; [|split].
  - rewrite L, length_backbone_params by assumption. reflexivity.
  - exact P.
  - rewrite P. apply NoDup_ListNoDup, List.seq_NoDup.
Qed.

Lemma X3_backbone_parameters_witness :
  exists b s',
    WideResnetBackbone.__init__ 2 10 0 [] = inr (b, s') /\
    length s' = 24%nat /\
    flat_map module_parameters (WideResnetBackbone.modules b) = seq 0 24 /\
    NoDup (flat_map module_parameters (WideResnetBackbone.modules b)).
Proof.
  destruct (WideResnetBackbone.__init__ 2 10 0 []) as [e|[b s']] eqn:E;
    [vm_compute in E; discriminate E|].
  exists b, s'. split; [reflexivity|].
  apply (X3_backbone_parameters 2 10 0 [] s' b E).
Defined.

(** X4: the drop rate given to the backbone reaches every block unchanged:
    each block of a constructed backbone has a dropout layer with that
    rate, or none when the rate is zero.  [WideResnet] does not pass a
    drop rate on, so no block of a constructed [WideResnet] has a dropout
    layer. *)
Theorem X4_dropout_configuration :
  (forall (k n : Z) (drop_rate : Q) (s s' : Store) (b : WideResnetBackbone.t),
     WideResnetBackbone.__init__ k n drop_rate s = inr (b, s') ->
     Forall (fun blk =>
               BasicBlockPreAct.dropout blk
               = if Qeq_bool drop_rate 0 then None
                 else Some {| Dropout.p := drop_rate |})
       (blocks b)) /\
  (forall (n_classes k n : Z) (s s' : Store) (m : WideResnet.t),
     WideResnet.__init__ n_classes k n s = inr (m, s') ->
     Forall (fun blk => BasicBlockPreAct.dropout blk = None)
       (blocks (WideResnet.backbone m))).
Proof.
  split.
  - intros k n drop_rate s s' b E.
    destruct (backbone_init_inv _ _ _ _ _ _ E) as (_ & _ & _ & _ & -> & _).
    eapply Forall_impl; [apply backbone_at_dropout|].
    intros blk ->. unfold mk_dropout.
    destruct (Qeq_bool drop_rate 0); reflexivity.
  - intros n_classes k n s s' m E.
    unfold WideResnet.__init__ in E.
    apply bind_inr_inv in E. destruct E as (b & s1 & Eb & E).
    apply bind_inr_inv in E. destruct E as (c & s2 & _ & E).
    injection E as <- _. cbn [WideResnet.backbone].
    destruct (backbone_init_inv _ _ _ _ _ _ Eb) as (_ & _ & _ & _ & -> & _).
    exact (backbone_at_dropout (length s) k n 0).
Qed.

Lemma X4_dropout_configuration_witness :
  exists b s',
    WideResnetBackbone.__init__ 2 10 (1 # 2) [] = inr (b, s') /\
    Forall (fun blk =>
              BasicBlockPreAct.dropout blk = Some {| Dropout.p := (1 # 2)%Q |})
      (blocks b).
Proof.
  destruct (WideResnetBackbone.__init__ 2 10 (1 # 2) []) as [e|[b s']] eqn:E;
    [vm_compute in E; discriminate E|].
  exists b, s'. split; [reflexivity|].
  apply (proj1 X4_dropout_configuration 2 10 (1 # 2)%Q [] s' b E).
Defined.

(** ** Construction and initialisation of [WideResnet] *)

Lemma Linear_init_inv in_f out_f s l s' :
  Linear.__init__ in_f out_f true s = inr (l, s') -> 0 <= in_f /\ 0 <= out_f.
Proof.
  intros E. unfold Linear.__init__ in E.
  apply bind_inr_inv in E as (w & s1 & Ew & _).
  unfold new_parameter in Ew.
  destruct (forallb (fun d => 0 <=? d) [out_f; in_f]) eqn:F; [|discriminate].
  cbn [forallb] in F. rewrite !andb_true_iff, !Z.leb_le in F. lia.
Qed.

Lemma WideResnet_init_inv n_classes k n s m s' :
  WideResnet.__init__ n_classes k n s = inr (m, s') ->
  (n - 4) mod 6 = 0 /\ 0 < k /\ 0 <= n_classes.
Proof.
  intros E. unfold WideResnet.__init__ in E.
  apply bind_inr_inv in E as (b & s1 & Eb & E).
  apply bind_inr_inv in E as (c & s2 & Ec & _).
  destruct (backbone_init_success_domain _ _ _ _ _ _ Eb) as (Hn & Hk & _).
  split; [assumption|]. split; [assumption|].
  destruct (k <? 4).
  - apply bind_inr_inv in Ec as (l & s3 & El & _).
    apply Linear_init_inv in El. lia.
  - cbv zeta in Ec.
    apply bind_inr_inv in Ec as (l1 & s3 & _ & Ec).
    apply bind_inr_inv in Ec as (l2 & s4 & El & _).
    apply Linear_init_inv in El. lia.
Qed.

Lemma WideResnetWithEmbeddingHead_init_inv num_classes k n emb_dim s m s' :
  WideResnetWithEmbeddingHead.__init__ num_classes k n emb_dim s = inr (m, s') ->
  (n - 4) mod 6 = 0 /\ 0 < k < 4 /\ 0 <= num_classes /\ 0 <= emb_dim.
Proof.
  intros E. unfold WideResnetWithEmbeddingHead.__init__ in E.
  apply bind_inr_inv in E as (mb & s1 & Eb & E).
  destruct (WideResnet_init_inv _ _ _ _ _ _ Eb) as (Hn & Hk & Hc).
  apply bind_inr_inv in E as (f & s2 & Ef & E).
  assert (k < 4) as Hk4.
  { destruct (Z.lt_ge_cases k 4) as [H|H]; [assumption|].
    destruct (WideResnet_init_wide _ _ _ _ _ _ H Eb) as (ms & Hms).
    rewrite Hms in Ef. discriminate Ef. }
  apply bind_inr_inv in E as (l0 & s3 & _ & E).
  apply bind_inr_inv in E as (l1 & s4 & _ & E).
  apply bind_inr_inv in E as (l2 & s5 & El & _).
  apply Linear_init_inv in El. lia.
Qed.

Lemma write_linear_pair (s : Store) in_f out_f (i j : Init) :
  let w := length s in
  let s' := s ++ linear_params in_f out_f in
  exists s2,
    (write w i ;;; write (S w) j)%M s' = inr (tt, s2) /\
    length s2 = length s' /\
    s2 !! w = Some {| size := [out_f; in_f];
                      data := [i; default_kaiming_uniform_] |} /\
    s2 !! S w = Some {| size := [out_f];
                        data := [j; default_uniform_] |} /\
    (forall l, l <> w -> l <> S w -> s2 !! l = s' !! l).
Proof.
  intros w s'.
  assert (Hw : s' !! w
               = Some {| size := [out_f; in_f];
                         data := [default_kaiming_uniform_] |}).
  { pose proof (seg_here s (linear_params in_f out_f) 0%nat _ eq_refl) as H.
    rewrite Nat.add_0_r in H. exact H. }
  assert (Hb : s' !! S w
               = Some {| size := [out_f]; data := [default_uniform_] |}).
  { pose proof (seg_here s (linear_params in_f out_f) 1%nat _ eq_refl) as H.
    rewrite Nat.add_1_r in H. exact H. }
  pose proof (lookup_lt_Some _ _ _ Hw) as Lw.
  pose proof (lookup_lt_Some _ _ _ Hb) as Lb.
  eexists. split; [|split; [|split; [|split]]].
  - erewrite bind_inr by (apply write_eq; exact Hw).
    apply write_eq. rewrite list_lookup_insert_ne by lia. exact Hb.
  - rewrite !length_insert. reflexivity.
  - rewrite list_lookup_insert_ne by lia.
    rewrite list_lookup_insert_eq by lia. reflexivity.
  - rewrite list_lookup_insert_eq by (rewrite length_insert; lia).
    reflexivity.
  - intros l H1 H2. rewrite !list_lookup_insert_ne by lia. reflexivity.
Qed.

(** X5: a [WideResnet] is constructed exactly when the depth is valid, the
    width multiplier is at least 1 and the number of classes is not
    negative; the model with the embedding heads, exactly when moreover
    the width multiplier is below 4 and the embedding dimension is not
    negative. *)
Theorem X5_wideresnet_constructor_domains :
  (forall (n_classes k n : Z) (s : Store),
     (exists m s', WideResnet.__init__ n_classes k n s = inr (m, s')) <->
     (n - 4) mod 6 = 0 /\ 0 < k /\ 0 <= n_classes) /\
  (forall (num_classes k n emb_dim : Z) (s : Store),
     (exists m s',
        WideResnetWithEmbeddingHead.__init__ num_classes k n emb_dim s
        = inr (m, s')) <->
     (n - 4) mod 6 = 0 /\ 0 < k < 4 /\ 0 <= num_classes /\ 0 <= emb_dim).
Proof.
  split.
  - intros n_classes k n s. split.
    + intros (m & s' & E). eapply WideResnet_init_inv. exact E.
    + intros (Hn & Hk & Hc).
      destruct (WideResnet_init_ok n_classes k n s Hn Hk Hc)
        as (s1 & _ & E & _).
      eauto.
  - intros num_classes k n emb_dim s. split.
    + intros (m & s' & E). eapply WideResnetWithEmbeddingHead_init_inv.
      exact E.
    + intros (Hn & Hk & Hc & He).
      destruct (WideResnetWithEmbeddingHead_init_ok num_classes k n emb_dim s
                  Hn Hk Hc He) as (s1 & _ & E).
      eauto.
Qed.

(** X6: [WideResnet.init_weight], which no constructor calls, run on a
    constructed [WideResnet].  For a width multiplier below 4 it returns:
    the weight of the classifier is drawn anew from the Xavier normal
    distribution, its bias is set to zero, and no other parameter is
    written.  From width multiplier 4 on the classifier is a [Sequential],
    which has no [weight], and the method raises [AttributeError] before
    writing anything.  On the base model of a constructed
    [WideResnetWithEmbeddingHead], whose classifier has been replaced by
    the identity, it raises [AttributeError] as well. *)
Theorem X6_wideresnet_init_weight :
  (forall (n_classes k n : Z) (s s' : Store) (m : WideResnet.t),
     WideResnet.__init__ n_classes k n s = inr (m, s') ->
     (k < 4 ->
      exists l b s2,
        WideResnet.classifier m = Linear_ l /\ Linear.bias l = Some b /\
        WideResnet.init_weight m s' = inr (tt, s2) /\
        length s2 = length s' /\
        (exists sz, s2 !! Linear.weight l
                    = Some {| size := sz;
                              data := [xavier_normal_;
                                       default_kaiming_uniform_] |}) /\
        (exists sz, s2 !! b
                    = Some {| size := sz;
                              data := [constant_ 0; default_uniform_] |}) /\
        (forall l', l' <> Linear.weight l -> l' <> b -> s2 !! l' = s' !! l')) /\
     (4 <= k ->
      WideResnet.init_weight m s'
      = inl (AttributeError
               ["'Sequential' object has no attribute 'weight'"%string]))) /\
  (forall (num_classes k n emb_dim : Z) (s s' : Store)
          (m : WideResnetWithEmbeddingHead.t),
     WideResnetWithEmbeddingHead.__init__ num_classes k n emb_dim s
     = inr (m, s') ->
     WideResnet.init_weight (WideResnetWithEmbeddingHead.model_base m) s'
     = inl (AttributeError
              ["'Identity' object has no attribute 'weight'"%string])).
Proof.
  split.
  - intros n_classes k n s s' m E.
    destruct (WideResnet_init_inv _ _ _ _ _ _ E) as (Hn & Hk & Hc).
    split.
    + intros Hk4.
      destruct (WideResnet_init_ok n_classes k n s Hn Hk Hc)
        as (s1 & _ & E' & _).
      rewrite E in E'. injection E' as -> ->.
      unfold classifier_at, classifier_params.
      replace (k <? 4) with true by (symmetry; apply Z.ltb_lt; lia).
      destruct (write_linear_pair s1 (64 * k) n_classes xavier_normal_
                  (constant_ 0)) as (s2 & W & L & Pw & Pb & F).
      exists (mk_linear (length s1) (64 * k) n_classes), (S (length s1)), s2.
      split; [reflexivity|]. split; [reflexivity|].
      split; [|split; [exact L|split; [|split]]].
      * unfold WideResnet.init_weight. cbn [WideResnet.classifier].
        erewrite bind_inr by reflexivity.
        cbn [mk_linear Linear.weight].
        unfold bind in W |- *.
        destruct (write (length s1) xavier_normal_
                    (s1 ++ linear_params (64 * k) n_classes))
          as [e|[[] s3]]; [discriminate W|].
        cbn [lift getattr_bias mk_linear Linear.bias]. exact W.
      * eexists. exact Pw.
      * eexists. exact Pb.
      * exact F.
    + intros Hk4.
      destruct (WideResnet_init_wide _ _ _ _ _ _ Hk4 E) as (ms & Hms).
      unfold WideResnet.init_weight. rewrite Hms. reflexivity.
  - intros num_classes k n emb_dim s s' m E.
    destruct (WideResnetWithEmbeddingHead_init_inv _ _ _ _ _ _ _ E)
      as (Hn & Hk & Hc & He).
    destruct (WideResnetWithEmbeddingHead_init_ok num_classes k n emb_dim s
                Hn Hk Hc He) as (s1 & _ & E').
    rewrite E in E'. injection E' as -> ->. reflexivity.
Qed.

Lemma X6_wideresnet_init_weight_witness :
  exists m s',
    WideResnet.__init__ 10 4 10 [] = inr (m, s') /\
    WideResnet.init_weight m s'
    = inl (AttributeError
             ["'Sequential' object has no attribute 'weight'"%string]).
Proof.
  destruct (WideResnet.__init__ 10 4 10 []) as [e|[m s']] eqn:E;
    [vm_compute in E; discriminate E|].
  exists m, s'. split; [reflexivity|].
  apply (proj2 (proj1 X6_wideresnet_init_weight 10 4 10 [] s' m E)). lia.
Defined.

(** ** [BasicBlockPreAct.init_weight] *)

Lemma block_initialised_ext s0 s s' m lo hi :
  (forall l, (l < hi)%nat -> s' !! l = s !! l) ->
  fresh_at s0 lo m -> (lo + param_count m <= hi)%nat ->
  block_initialised s m -> block_initialised s' m.
Proof.
  intros Hext Hf Hhi. destruct m as [c|b|l|cls]; simpl in *; try tauto.
  - destruct Hf as (Hw & _). intros (Hb & sz & Hs). split; [assumption|].
    exists sz. rewrite Hext by lia. assumption.
  - destruct Hf as (Hw & Hb & _). intros ((sz1 & H1) & (sz2 & H2)). split.
    + exists sz1. rewrite Hext by lia. assumption.
    + exists sz2. rewrite Hext by lia. assumption.
Qed.

Lemma block_init_module_fresh s lo m :
  fresh_at s lo m ->
  exists s', BasicBlockPreAct.init_module m s = inr (tt, s') /\
             length s' = length s /\
             (forall l, (l < lo \/ lo + param_count m <= l)%nat ->
                        s' !! l = s !! l) /\
             block_initialised s' m.
Proof.
  destruct m as [c|b|l|cls]; simpl.
  - intros (Hw & Hb & Hn & sz & Hs). rewrite Hw, Hb.
    assert (Hlt : (lo < length s)%nat) by (eapply lookup_lt_Some; eassumption).
    erewrite bind_inr by (apply write_eq; eassumption).
    eexists. split; [reflexivity|]. split; [|split; [|split]].
    + rewrite !length_insert. reflexivity.
    + intros l Hl. rewrite !list_lookup_insert_ne by lia. reflexivity.
    + reflexivity.
    + exists sz. apply list_lookup_insert_eq. assumption.
  - intros (Hw & Hb & (sz1 & H1) & (sz2 & H2)). rewrite Hw, Hb.
    exists s. split; [reflexivity|]. split; [reflexivity|].
    split; [reflexivity|]. split; eauto.
  - tauto.
  - intros _. exists s. repeat split; auto.
Qed.

Lemma block_init_loop s lo ms hi :
  layout s lo ms hi ->
  exists s', for_each ms BasicBlockPreAct.init_module s = inr (tt, s') /\
             length s' = length s /\
             (forall l, (l < lo \/ hi <= l)%nat -> s' !! l = s !! l) /\
             Forall (block_initialised s') ms.
Proof.
  intros H. revert s H. revert lo hi.
  induction ms as [|m ms IH]; intros lo hi s H; inversion H; subst.
  - exists s. repeat split; auto.
  - destruct (block_init_module_fresh s lo m) as (s1 & E1 & L1 & F1 & I1);
      [assumption|].
    assert (Hle : (lo + param_count m <= hi)%nat)
      by (eapply layout_le; eassumption).
    destruct (IH (lo + param_count m)%nat hi s1) as (s2 & E2 & L2 & F2 & I2).
    { eapply layout_ext; [|eassumption]. intros l Hl. apply F1. lia. }
    exists s2. repeat split.
    + simpl. erewrite bind_inr by eassumption. assumption.
    + congruence.
    + intros l Hl. rewrite F2 by lia. apply F1. lia.
    + constructor; [|assumption].
      eapply block_initialised_ext
        with (lo := lo) (hi := (lo + param_count m)%nat);
        [|eassumption|lia|eassumption].
      intros l Hl. apply F2. lia.
Qed.

(** X7: [BasicBlockPreAct.init_weight], whose call the constructor has
    commented out, run on a freshly constructed block with at least one
    output channel.  It returns; the weight of each convolution of the
    block (the two 3x3 convolutions and the projection, if any) has been
    drawn anew from the Kaiming normal distribution, once; the
    normalisation layers keep the library's default initialisation; no
    parameter outside the block is written, and none is created. *)
Theorem X7_block_init_weight (in_chan out_chan : Z) (drop_rate : Q)
  (stride : Z) (pre_res_act : bool) (s : Store) :
  0 <= in_chan -> 0 < out_chan ->
  (0 <= drop_rate)%Q -> (drop_rate <= 1)%Q ->
  exists b s' s2,
    BasicBlockPreAct.__init__ in_chan out_chan drop_rate stride pre_res_act s
    = inr (b, s') /\
    BasicBlockPreAct.init_weight b s' = inr (tt, s2) /\
    length s2 = length s' /\
    (forall l, (l < length s)%nat -> s2 !! l = s !! l) /\
    Forall (block_initialised s2) (BasicBlockPreAct.modules b) /\
    block_initialised s2 (is_Conv2d (BasicBlockPreAct.conv1 b)) /\
    block_initialised s2 (is_Conv2d (BasicBlockPreAct.conv2 b)) /\
    (forall d, BasicBlockPreAct.downsample b = Some d ->
               block_initialised s2 (is_Conv2d d)) /\
    block_initialised s2 (is_BatchNorm2d (BasicBlockPreAct.bn1 b)) /\
    block_initialised s2 (is_BatchNorm2d (BasicBlockPreAct.bn2 b)).
Proof.
  intros Hi Ho Hd0 Hd1.
  pose proof (BasicBlockPreAct_init_eq in_chan out_chan drop_rate stride
                pre_res_act s Hi ltac:(lia) Hd0 Hd1) as E.
  pose proof (block_layout (s ++ block_params in_chan out_chan stride)
                (length s) in_chan out_chan drop_rate stride pre_res_act
                (seg_here _ _) Ho) as L.
  destruct (block_init_loop _ _ _ _ L) as (s2 & E2 & L2 & F2 & I2).
  eexists _, _, s2. split; [exact E|]. split; [exact E2|].
  split; [exact L2|]. split.
  { intros l Hl. rewrite F2 by lia. apply lookup_app_l. assumption. }
  split; [exact I2|].
  rewrite Forall_forall in I2.
  assert (forall m,
            In m (BasicBlockPreAct.modules
                    (block_at (length s) in_chan out_chan drop_rate stride
                       pre_res_act)) ->
            block_initialised s2 m) as I.
  { intros m Hm. apply I2. apply list_elem_of_In. exact Hm. }
  unfold BasicBlockPreAct.modules in I.
  split; [apply I; rewrite !in_app_iff; left; simpl; tauto|].
  split; [apply I; rewrite !in_app_iff; right; right; left; simpl; tauto|].
  split.
  { intros d Hd. apply I. rewrite Hd, !in_app_iff.
    right. right. right. simpl. tauto. }
  split; apply I; rewrite !in_app_iff; left; simpl; tauto.
Qed.

Lemma X7_block_init_weight_witness :
  exists b s' s2,
    BasicBlockPreAct.__init__ 16 32 0 2 false [] = inr (b, s') /\
    BasicBlockPreAct.init_weight b s' = inr (tt, s2) /\
    length s2 = length s' /\
    (forall l, (l < length (@nil Param))%nat -> s2 !! l = @nil Param !! l) /\
    Forall (block_initialised s2) (BasicBlockPreAct.modules b) /\
    block_initialised s2 (is_Conv2d (BasicBlockPreAct.conv1 b)) /\
    block_initialised s2 (is_Conv2d (BasicBlockPreAct.conv2 b)) /\
    (forall d, BasicBlockPreAct.downsample b = Some d ->
               block_initialised s2 (is_Conv2d d)) /\
    block_initialised s2 (is_BatchNorm2d (BasicBlockPreAct.bn1 b)) /\
    block_initialised s2 (is_BatchNorm2d (BasicBlockPreAct.bn2 b)).
Proof.
  apply (X7_block_init_weight 16 32 0 2 false []).
  - lia.
  - lia.
  - apply Qle_0_0.
  - apply Qle_0_1.
Defined.

(** ** The inputs accepted by the forward pass *)

Lemma down_2 h : down h 2 = (h + 1) / 2.
Proof. unfold down. Z.div_mod_to_equations. lia. Qed.

Lemma down_down_2 h : down (down h 2) 2 = (h + 3) / 4.
Proof. unfold down. Z.div_mod_to_equations. lia. Qed.

Lemma several_values_final N H W :
  1 <= H -> 1 <= W ->
  several_values N ((H + 3) / 4) ((W + 3) / 4) <->
  ~ (N = 1 /\ H <= 4 /\ W <= 4).
Proof.
  intros HH HW. unfold several_values.
  assert (1 <= (H + 3) / 4) as Ha by (Z.div_mod_to_equations; lia).
  assert (1 <= (W + 3) / 4) as Hb by (Z.div_mod_to_equations; lia).
  split.
  - intros Hv (-> & H4 & W4). apply Hv.
    replace ((H + 3) / 4) with 1 by (Z.div_mod_to_equations; lia).
    replace ((W + 3) / 4) with 1 by (Z.div_mod_to_equations; lia).
    reflexivity.
  - intros Hn E. apply Hn.
    apply single_value_inv in E as (-> & Ea & Eb); [|assumption..].
    split; [reflexivity|]. split; Z.div_mod_to_equations; lia.
Qed.

(** X8: a constructed backbone, in training mode as construction leaves
    it, accepts exactly the batches of 3-channel images of at least one
    pixel each way whose final feature maps hold more than one value per
    channel, that is every such batch but a single image of at most 4 by
    4 pixels: whatever the resolution, odd or even, no size mismatch
    arises inside the network.  Of an [H] by [W] input the intermediate
    feature map has [32 k] channels and size [(H + 1) / 2] by
    [(W + 1) / 2], the final one [64 k] channels and size [(H + 3) / 4]
    by [(W + 3) / 4]: each halving rounds up. *)
Theorem X8_backbone_forward_domain (k n : Z) (drop_rate : Q) (s s' : Store)
  (b : WideResnetBackbone.t) (x : Tensor) :
  WideResnetBackbone.__init__ k n drop_rate s = inr (b, s') ->
  ((exists feats, WideResnetBackbone.forward b x = inr feats) <->
   (exists N H W, shape x = [N; 3; H; W] /\ 1 <= H /\ 1 <= W /\
                  ~ (N = 1 /\ H <= 4 /\ W <= 4))) /\
  (forall N H W feat2 feat4,
     shape x = [N; 3; H; W] ->
     WideResnetBackbone.forward b x = inr (feat2, feat4) ->
     shape feat2 = [N; 32 * k; (H + 1) / 2; (W + 1) / 2] /\
     shape feat4 = [N; 64 * k; (H + 3) / 4; (W + 3) / 4]).
Proof.
  intros E.
  destruct (backbone_init_inv _ _ _ _ _ _ E) as (_ & Hk & _ & _ & -> & _).
  pose proof (backbone_at_cfg (length s) k n drop_rate) as Hcfg.
  split; [split|].
  - intros ([feat2 feat4] & Hf).
    destruct (backbone_forward_inv _ _ _ _ _ Hcfg Hf)
      as (N & H & W & Hx & HH & HW & Hv & _).
    exists N, H, W. split; [exact Hx|]. split; [exact HH|].
    split; [exact HW|].
    apply several_values_final; [assumption..|].
    rewrite <- !down_down_2. exact Hv.
  - intros (N & H & W & Hx & HH & HW & Hv).
    apply several_values_final in Hv; [|assumption..].
    rewrite <- !down_down_2 in Hv.
    destruct (backbone_forward_ok _ k N H W x Hcfg Hx HH HW Hv)
      as (feat2 & t4 & Ef & _).
    eexists. exact Ef.
  - intros N H W feat2 feat4 Hx Hf.
    destruct (backbone_forward_inv _ _ _ _ _ Hcfg Hf)
      as (N' & H' & W' & Hx' & _ & _ & _ & S2 & S4).
    rewrite Hx in Hx'. injection Hx' as SN SH SW. subst N' H' W'.
    rewrite S2, S4, !down_down_2, !down_2. split; reflexivity.
Qed.

Lemma X8_backbone_forward_domain_witness :
  exists b s',
    WideResnetBackbone.__init__ 2 10 0 [] = inr (b, s') /\
    exists feats,
      WideResnetBackbone.forward b (input [1; 3; 5; 4]) = inr feats.
Proof.
  destruct (WideResnetBackbone.__init__ 2 10 0 []) as [e|[b s']] eqn:E;
    [vm_compute in E; discriminate E|].
  exists b, s'. split; [reflexivity|].
  apply (proj1 (X8_backbone_forward_domain 2 10 0 [] s' b
                  (input [1; 3; 5; 4]) E)).
  exists 1, 5, 4. split; [reflexivity|]. lia.
Defined.

(** ** Edge cases of [adapt] *)

Lemma Linear_init_negative_out in_f out_f s :
  out_f < 0 ->
  Linear.__init__ in_f out_f true s
  = inl (RuntimeError
           ["Trying to create tensor with negative dimension"%string]).
Proof.
  intros H. unfold Linear.__init__. apply bind_inl.
  apply new_parameter_negative. apply Exists_cons_hd. assumption.
Qed.

Lemma Linear_init_fresh in_f out_f s l s' :
  Linear.__init__ in_f out_f true s = inr (l, s') ->
  0 <= in_f /\ 0 <= out_f /\ length s' = (length s + 2)%nat /\
  l = mk_linear (length s) in_f out_f /\
  s' = s ++ linear_params in_f out_f /\
  nn_parameters (Linear_ l) = [length s; S (length s)] /\
  Forall (default_only s') (nn_parameters (Linear_ l)).
Proof.
  intros E. destruct (Linear_init_inv _ _ _ _ _ E) as (Hi & Ho).
  rewrite Linear_init_eq in E by assumption. injection E as <- <-.
  split; [assumption|]. split; [assumption|].
  split; [rewrite length_app; reflexivity|].
  split; [reflexivity|]. split; [reflexivity|]. split; [reflexivity|].
  apply seg_default_linear. apply seg_here.
Qed.

(** X9: [adapt] of each of the three embedding-head models at its edges.
    A negative number of classes is refused by the library
    ([RuntimeError]).  When [adapt] returns, the number of classes is not
    negative, exactly two parameters have been created, they are the
    weight and the bias of the new class-logit head, and they hold the
    library's default initialisation only: nothing of the parameters of
    the head that is replaced is carried over, also when the number of
    classes is the one of before. *)
Theorem X9_adapt_edge_cases :
  (forall (m : ResNet50WithEmbeddingHead.t) (num_classes : Z) (s : Store),
     (num_classes < 0 ->
      ResNet50WithEmbeddingHead.adapt m num_classes s
      = inl (RuntimeError
               ["Trying to create tensor with negative dimension"%string])) /\
     (forall m' s',
        ResNet50WithEmbeddingHead.adapt m num_classes s = inr (m', s') ->
        0 <= num_classes /\ length s' = (length s + 2)%nat /\
        nn_parameters (ResNet50WithEmbeddingHead.fc_classes m')
        = [length s; S (length s)] /\
        Forall (default_only s')
          (nn_parameters (ResNet50WithEmbeddingHead.fc_classes m')))) /\
  (forall (m : ResNet18WithEmbeddingHead.t) (num_classes : Z) (s : Store),
     (num_classes < 0 ->
      ResNet18WithEmbeddingHead.adapt m num_classes s
      = inl (RuntimeError
               ["Trying to create tensor with negative dimension"%string])) /\
     (forall m' s',
        ResNet18WithEmbeddingHead.adapt m num_classes s = inr (m', s') ->
        0 <= num_classes /\ length s' = (length s + 2)%nat /\
        nn_parameters (ResNet18WithEmbeddingHead.fc_classes m')
        = [length s; S (length s)] /\
        Forall (default_only s')
          (nn_parameters (ResNet18WithEmbeddingHead.fc_classes m')))) /\
  (forall (m : WideResnetWithEmbeddingHead.t) (num_classes : Z) (s : Store),
     (num_classes < 0 ->
      WideResnetWithEmbeddingHead.adapt m num_classes s
      = inl (RuntimeError
               ["Trying to create tensor with negative dimension"%string])) /\
     (forall m' s',
        WideResnetWithEmbeddingHead.adapt m num_classes s = inr (m', s') ->
        0 <= num_classes /\ length s' = (length s + 2)%nat /\
        nn_parameters (WideResnetWithEmbeddingHead.fc_classes m')
        = [length s; S (length s)] /\
        Forall (default_only s')
          (nn_parameters (WideResnetWithEmbeddingHead.fc_classes m')))).
Proof.
  split; [|split]; intros m num_classes s; split.
  - intros H. unfold ResNet50WithEmbeddingHead.adapt. apply bind_inl.
    apply Linear_init_negative_out. assumption.
  - intros m' s' E. unfold ResNet50WithEmbeddingHead.adapt in E.
    apply bind_inr_inv in E as (l & s1 & El & E). injection E as <- <-.
    cbn [ResNet50WithEmbeddingHead.fc_classes].
    destruct (Linear_init_fresh _ _ _ _ _ El) as (_ & H1 & H2 & _ & _ & H3 & H4).
    tauto.
  - intros H. unfold ResNet18WithEmbeddingHead.adapt. apply bind_inl.
    apply Linear_init_negative_out. assumption.
  - intros m' s' E. unfold ResNet18WithEmbeddingHead.adapt in E.
    apply bind_inr_inv in E as (l & s1 & El & E). injection E as <- <-.
    cbn [ResNet18WithEmbeddingHead.fc_classes].
    destruct (Linear_init_fresh _ _ _ _ _ El) as (_ & H1 & H2 & _ & _ & H3 & H4).
    tauto.
  - intros H. unfold WideResnetWithEmbeddingHead.adapt. apply bind_inl.
    apply Linear_init_negative_out. assumption.
  - intros m' s' E. unfold WideResnetWithEmbeddingHead.adapt in E.
    apply bind_inr_inv in E as (l & s1 & El & E). injection E as <- <-.
    cbn [WideResnetWithEmbeddingHead.fc_classes].
    destruct (Linear_init_fresh _ _ _ _ _ El) as (_ & H1 & H2 & _ & _ & H3 & H4).
    tauto.
Qed.

Lemma X9_adapt_edge_cases_witness :
  exists m s',
    WideResnetWithEmbeddingHead.__init__ 10 1 10 128 [] = inr (m, s') /\
    WideResnetWithEmbeddingHead.adapt m (-1) s'
    = inl (RuntimeError
             ["Trying to create tensor with negative dimension"%string]).
Proof.
  destruct (WideResnetWithEmbeddingHead.__init__ 10 1 10 128 [])
    as [e|[m s']] eqn:E; [vm_compute in E; discriminate E|].
  exists m, s'. split; [reflexivity|].
  apply (proj1 (proj2 (proj2 X9_adapt_edge_cases) m (-1) s')). lia.
Defined.

(** ** Construction of the ResNet wrappers *)

(** X10: what the constructors of the two ResNet wrappers do with the
    network of the external library.  An exception of the external
    constructor is passed on; a network whose [fc] is not a linear layer
    is refused with an [AttributeError] for [in_features].  When
    construction returns, the external constructor was called with the
    [pretrained] flag as given and returned a network whose [fc] is a
    linear layer; the wrapper keeps its feature extractor, puts the
    identity in the place of [fc], takes [num_ftrs] from the input
    dimension of [fc]; the numbers of classes and of embedding dimensions
    are not negative, and four parameters have been created for the heads
    of the ResNet-50 wrapper, six for those of the ResNet-18 wrapper. *)
Theorem X10_resnet_wrapper_construction :
  (forall (resnet50 : bool -> M ResNet.t) (num_classes emb_dim : Z)
          (pretrained : bool) (s : Store),
     (forall e, resnet50 pretrained s = inl e ->
        ResNet50WithEmbeddingHead.__init__ resnet50 num_classes emb_dim
          pretrained s = inl e) /\
     (forall r s0, resnet50 pretrained s = inr (r, s0) ->
        (forall l, ResNet.fc r <> Linear_ l) ->
        ResNet50WithEmbeddingHead.__init__ resnet50 num_classes emb_dim
          pretrained s = inl (no_attribute (ResNet.fc r) "in_features")) /\
     (forall m s',
        ResNet50WithEmbeddingHead.__init__ resnet50 num_classes emb_dim
          pretrained s = inr (m, s') ->
        exists r s0 l,
          resnet50 pretrained s = inr (r, s0) /\ ResNet.fc r = Linear_ l /\
          ResNet50WithEmbeddingHead.num_ftrs m = Linear.in_features l /\
          ResNet.features (ResNet50WithEmbeddingHead.model_resnet m)
          = ResNet.features r /\
          ResNet.fc (ResNet50WithEmbeddingHead.model_resnet m) = Identity_ /\
          0 <= Linear.in_features l /\ 0 <= num_classes /\ 0 <= emb_dim /\
          length s' = (length s0 + 4)%nat)) /\
  (forall (resnet18 : bool -> M ResNet.t) (num_classes emb_dim : Z)
          (pretrained : bool) (s : Store),
     (forall e, resnet18 pretrained s = inl e ->
        ResNet18WithEmbeddingHead.__init__ resnet18 num_classes emb_dim
          pretrained s = inl e) /\
     (forall r s0, resnet18 pretrained s = inr (r, s0) ->
        (forall l, ResNet.fc r <> Linear_ l) ->
        ResNet18WithEmbeddingHead.__init__ resnet18 num_classes emb_dim
          pretrained s = inl (no_attribute (ResNet.fc r) "in_features")) /\
     (forall m s',
        ResNet18WithEmbeddingHead.__init__ resnet18 num_classes emb_dim
          pretrained s = inr (m, s') ->
        exists r s0 l,
          resnet18 pretrained s = inr (r, s0) /\ ResNet.fc r = Linear_ l /\
          ResNet18WithEmbeddingHead.num_ftrs m = Linear.in_features l /\
          ResNet.features (ResNet18WithEmbeddingHead.model_resnet m)
          = ResNet.features r /\
          ResNet.fc (ResNet18WithEmbeddingHead.model_resnet m) = Identity_ /\
          0 <= Linear.in_features l /\ 0 <= num_classes /\ 0 <= emb_dim /\
          length s' = (length s0 + 6)%nat)).
Proof.
  split; intros resnet num_classes emb_dim pretrained s;
    (split; [|split]).
  - intros e E. unfold ResNet50WithEmbeddingHead.__init__.
    apply bind_inl. exact E.
  - intros r s0 E Hfc. unfold ResNet50WithEmbeddingHead.__init__.
    erewrite bind_inr by exact E. apply bind_inl.
    destruct (ResNet.fc r) as [l| | |]; [destruct (Hfc l eq_refl)|..];
      reflexivity.
  - intros m s' E. unfold ResNet50WithEmbeddingHead.__init__ in E.
    apply bind_inr_inv in E as (r & s0 & Er & E).
    apply bind_inr_inv in E as (f & s1 & Ef & E).
    destruct (ResNet.fc r) as [l| | |] eqn:Hfc; try discriminate Ef.
    injection Ef as <- <-.
    apply bind_inr_inv in E as (l1 & s2 & E1 & E).
    apply bind_inr_inv in E as (l2 & s3 & E2 & E).
    injection E as <- <-.
    destruct (Linear_init_fresh _ _ _ _ _ E1) as (Hf & Hc & L1 & _).
    destruct (Linear_init_fresh _ _ _ _ _ E2) as (_ & He & L2 & _).
    exists r, s0, l. cbn. repeat split; try assumption; try reflexivity. lia.
  - intros e E. unfold ResNet18WithEmbeddingHead.__init__.
    apply bind_inl. exact E.
  - intros r s0 E Hfc. unfold ResNet18WithEmbeddingHead.__init__.
    erewrite bind_inr by exact E. apply bind_inl.
    destruct (ResNet.fc r) as [l| | |]; [destruct (Hfc l eq_refl)|..];
      reflexivity.
  - intros m s' E. unfold ResNet18WithEmbeddingHead.__init__ in E.
    apply bind_inr_inv in E as (r & s0 & Er & E).
    apply bind_inr_inv in E as (f & s1 & Ef & E).
    destruct (ResNet.fc r) as [l| | |] eqn:Hfc; try discriminate Ef.
    injection Ef as <- <-.
    apply bind_inr_inv in E as (l1 & s2 & E1 & E).
    apply bind_inr_inv in E as (l2 & s3 & E2 & E).
    apply bind_inr_inv in E as (l3 & s4 & E3 & E).
    injection E as <- <-.
    destruct (Linear_init_fresh _ _ _ _ _ E1) as (Hf & Hc & L1 & _).
    destruct (Linear_init_fresh _ _ _ _ _ E2) as (_ & _ & L2 & _).
    destruct (Linear_init_fresh _ _ _ _ _ E3) as (_ & He & L3 & _).
    exists r, s0, l. cbn. repeat split; try assumption; try reflexivity. lia.
Qed.

Lemma X10_resnet_wrapper_construction_witness :
  ResNet50WithEmbeddingHead.__init__
    (fun _ => raise (RuntimeError ["no weights"%string])) 100 300 true []
  = inl (RuntimeError ["no weights"%string]).
Proof.
  apply (proj1 (proj1 X10_resnet_wrapper_construction
                  (fun _ => raise (RuntimeError ["no weights"%string]))
                  100 300 true [])).
  reflexivity.
Defined.

(** ** The [__main__] block *)

Lemma lift_inr_inv {A} (r : R A) (s : Store) a s' :
  lift r s = inr (a, s') -> r = inr a /\ s' = s.
Proof.
  unfold lift. destruct r as [e|a0]; [discriminate|].
  intros [= <- <-]. split; reflexivity.
Qed.

Lemma WideResnetWithEmbeddingHead_run num_classes k n emb_dim s N H W :
  (n - 4) mod 6 = 0 -> 0 < k < 4 -> 0 <= num_classes -> 0 <= emb_dim ->
  1 <= H -> 1 <= W -> N <> 1 ->
  exists m s' outs,
    WideResnetWithEmbeddingHead.__init__ num_classes k n emb_dim s
    = inr (m, s') /\
    WideResnetWithEmbeddingHead.forward m (input [N; 3; H; W]) = inr outs.
Proof.
  intros Hn Hk Hc He HH HW HN.
  destruct (WideResnetWithEmbeddingHead_init_ok num_classes k n emb_dim s)
    as (s1 & _ & E); try assumption.
  destruct (backbone_forward_ok (backbone_at (length s) k n 0) k
              N H W (input [N; 3; H; W]))
    as (feat2 & t4 & Ef & S2 & E3);
    [apply backbone_at_cfg|reflexivity|assumption..| |].
  { apply several_values_batch;
      [ apply down_pos; [apply down_pos; lia|lia]
      | apply down_pos; [apply down_pos; lia|lia]
      | assumption ]. }
  eexists _, _, _. split; [exact E|].
  unfold WideResnetWithEmbeddingHead.forward, WideResnet.forward.
  cbn [WideResnetWithEmbeddingHead.model_base WideResnet.backbone
       WideResnet.classifier WideResnetWithEmbeddingHead.fc_classes
       WideResnetWithEmbeddingHead.fc_emb].
  rewrite Ef. cbn [R_bind snd]. unfold torch_mean_2_3.
  cbn [shape value R_bind nn_forward].
  erewrite Linear_forward_eq by reflexivity.
  cbn [R_bind]. erewrite fc_emb_at_forward by reflexivity.
  cbn [R_bind]. reflexivity.
Qed.

(** X11: the script under [if __name__ == "__main__"] never prints
    [Done], whatever the external ResNet-50 does: it always ends in an
    exception.  When the ResNet-50 model is constructed and accepts the
    batch, the Wide-ResNet model is constructed and run as well, and the
    exception is the [ValueError] of unpacking the three values that its
    forward pass returns into the two names [out1, out2]. *)
Theorem X11_main_never_done :
  (forall (resnet50 : bool -> M ResNet.t) (s : Store) r,
     main resnet50 s <> inr r) /\
  (forall (resnet50 : bool -> M ResNet.t) (s s1 : Store)
          (net : ResNet50WithEmbeddingHead.t) outs,
     ResNet50WithEmbeddingHead.__init__ resnet50 100 300 true s
     = inr (net, s1) ->
     ResNet50WithEmbeddingHead.forward net (input [2; 3; 224; 224])
     = inr outs ->
     main resnet50 s
     = inl (ValueError ["too many values to unpack (expected 2)"%string])).
Proof.
  split.
  - intros resnet50 s r E. unfold main in E. cbv zeta in E.
    apply bind_inr_inv in E as (net & s1 & _ & E).
    apply bind_inr_inv in E as (o & s2 & _ & E).
    apply bind_inr_inv in E as (net2 & s3 & _ & E).
    apply bind_inr_inv in E as (outs & s4 & _ & E).
    apply bind_inr_inv in E as (u & s5 & Eu & _).
    apply lift_inr_inv in Eu as (Eu & _). discriminate Eu.
  - intros resnet50 s s1 net outs E Ef. unfold main. cbv zeta.
    erewrite bind_inr by exact E.
    erewrite bind_inr by (unfold lift; rewrite Ef; reflexivity).
    destruct (WideResnetWithEmbeddingHead_run 100 3 28 128 s1 2 224 224)
      as (m & s2 & o & Em & Eo); [reflexivity|lia..|].
    erewrite bind_inr by exact Em.
    erewrite bind_inr by (unfold lift; rewrite Eo; reflexivity).
    reflexivity.
Qed.

Lemma X11_main_never_done_witness :
  main (stand_in_resnet 2048) []
  = inl (ValueError ["too many values to unpack (expected 2)"%string]).
Proof.
  eapply (proj2 X11_main_never_done (stand_in_resnet 2048) []).
  - vm_compute. reflexivity.
  - vm_compute. reflexivity.
Defined.
